(** * python-tools: the three scripts, embedded and verified

    - [download_files.py]: [download_file] and [download_files_parallel]
    - [remove_first_line_in_file.py]: [remove_first_line]
    - [rename_file.py]: the rename loop and the listing loop

    Python [bytes] values are [string]s (one [ascii] per byte), a
    Python [str] is held as its UTF-8 bytes, Python [int]s are [Z], a
    directory tree is a finite map from path names to nodes, and what
    the scripts print is kept as a list of events in the state. *)

From Stdlib Require Import ZArith Ascii String List Permutation DecimalString.
From stdpp Require Import base tactics option list strings gmap fin_maps.

Local Open Scope string_scope.
Local Open Scope Z_scope.

#[local] Arguments Ascii.eqb : simpl never.
#[local] Arguments String.eqb : simpl never.

(** ** Python built-ins used by the scripts *)
Module Py.

(** [not s] for a [str]: true exactly on the empty string. *)
Definition is_empty (s : string) : bool :=
  match s with EmptyString => true | String _ _ => false end.

(** [s.split(sep)] for a one-character separator, as its first token
    and the remaining ones: the result is never the empty list. *)
Fixpoint split_tokens (sep : ascii) (s : string) : string * list string :=
  match s with
  | EmptyString => (EmptyString, [])
  | String c s' =>
      let '(tok, rest) := split_tokens sep s' in
      if Ascii.eqb c sep then (EmptyString, tok :: rest)
      else (String c tok, rest)
  end.

Definition split (sep : ascii) (s : string) : list string :=
  let '(tok, rest) := split_tokens sep s in tok :: rest.

(** [l[-1]] on a list of strings (the lists it is applied to are not
    empty; on an empty list Python raises and this gives [""]). *)
Definition last_item (l : list string) : string := List.last l EmptyString.

(** [s.rfind(c)]: the highest index of [c], or [-1]. *)
Fixpoint rfind (c : ascii) (s : string) : Z :=
  match s with
  | EmptyString => -1
  | String a s' =>
      let r := rfind c s' in
      if 0 <=? r then r + 1
      else if Ascii.eqb a c then 0 else -1
  end.

(** [s.find(c)]: the lowest index of [c], or [-1]. *)
Fixpoint find (c : ascii) (s : string) : Z :=
  match s with
  | EmptyString => -1
  | String a s' =>
      if Ascii.eqb a c then 0
      else let r := find c s' in if 0 <=? r then r + 1 else -1
  end.

Fixpoint drop (n : nat) (s : string) : string :=
  match n, s with
  | O, _ => s
  | S _, EmptyString => EmptyString
  | S n', String _ s' => drop n' s'
  end.

Fixpoint take (n : nat) (s : string) : string :=
  match n, s with
  | O, _ => EmptyString
  | S _, EmptyString => EmptyString
  | S n', String c s' => String c (take n' s')
  end.

(** [s[i:]] and [s[:i]] for [0 <= i]. *)
Definition slice_from (i : Z) (s : string) : string := drop (Z.to_nat i) s.
Definition slice_to (i : Z) (s : string) : string := take (Z.to_nat i) s.

(** [c in s]. *)
Fixpoint contains (c : ascii) (s : string) : bool :=
  match s with
  | EmptyString => false
  | String a s' => Ascii.eqb a c || contains c s'
  end.

Fixpoint startswith (p s : string) : bool :=
  match p, s with
  | EmptyString, _ => true
  | String _ _, EmptyString => false
  | String a p', String b s' => Ascii.eqb a b && startswith p' s'
  end.

(** [s.endswith(p)]: drop what comes before the last [len(p)]
    characters and compare. *)
Definition endswith (p s : string) : bool :=
  (String.length p <=? String.length s)%nat &&
  String.eqb (drop (String.length s - String.length p) s) p.

(** [s.replace(c, new)] for a one-character [c]. *)
Fixpoint replace (c : ascii) (new : string) (s : string) : string :=
  match s with
  | EmptyString => EmptyString
  | String a s' =>
      if Ascii.eqb a c then new ++ replace c new s'
      else String a (replace c new s')
  end.

(** [posixpath.basename]:
    [i = p.rfind('/') + 1; return p[i:]]. *)
Definition basename (p : string) : string :=
  let i := rfind "/" p + 1 in
  slice_from i p.

(** [posixpath.join(a, b)] for two arguments. *)
Definition join (a b : string) : string :=
  if startswith "/" b then b
  else if is_empty a || endswith "/" a then a ++ b
  else a ++ "/" ++ b.

(** [str(n)] for an [int]. *)
Definition str_of_int (n : Z) : string :=
  NilEmpty.string_of_int (Z.to_int n).

(** *** The UTF-8 codec

    [bytes.decode("utf-8")] accepts the well-formed byte sequences of
    the Unicode standard (table 3-7): no overlong form, no surrogate,
    nothing above U+10FFFF, no sequence cut short. The decoder is in
    one of these states between two bytes: at the start of a character,
    or inside one, with one, two or three continuation bytes to come,
    the next of which may be restricted by the lead byte. *)
Inductive utf8_state :=
| Utf8Start
| Utf8Tail1 | Utf8Tail2 | Utf8Tail3
| Utf8AfterE0 | Utf8AfterED | Utf8AfterF0 | Utf8AfterF4.

Definition utf8_step (st : utf8_state) (b : nat) : option utf8_state :=
  let within lo hi := ((lo <=? b) && (b <=? hi))%nat in
  match st with
  | Utf8Start =>
      if (b <=? 127)%nat then Some Utf8Start
      else if within 194%nat 223%nat then Some Utf8Tail1
      else if (b =? 224)%nat then Some Utf8AfterE0
      else if within 225%nat 236%nat || within 238%nat 239%nat then Some Utf8Tail2
      else if (b =? 237)%nat then Some Utf8AfterED
      else if (b =? 240)%nat then Some Utf8AfterF0
      else if within 241%nat 243%nat then Some Utf8Tail3
      else if (b =? 244)%nat then Some Utf8AfterF4
      else None
  | Utf8Tail1 => if within 128%nat 191%nat then Some Utf8Start else None
  | Utf8Tail2 => if within 128%nat 191%nat then Some Utf8Tail1 else None
  | Utf8Tail3 => if within 128%nat 191%nat then Some Utf8Tail2 else None
  | Utf8AfterE0 => if within 160%nat 191%nat then Some Utf8Tail1 else None
  | Utf8AfterED => if within 128%nat 159%nat then Some Utf8Tail1 else None
  | Utf8AfterF0 => if within 144%nat 191%nat then Some Utf8Tail2 else None
  | Utf8AfterF4 => if within 128%nat 143%nat then Some Utf8Tail2 else None
  end.

Fixpoint utf8_run (st : utf8_state) (s : string) : option utf8_state :=
  match s with
  | EmptyString => Some st
  | String c s' =>
      match utf8_step st (nat_of_ascii c) with
      | Some st' => utf8_run st' s'
      | None => None
      end
  end.

(** The bytes [s] decode: the decoder reads them all and ends at the
    start of a character. *)
Definition utf8_valid (s : string) : bool :=
  match utf8_run Utf8Start s with
  | Some Utf8Start => true
  | _ => false
  end.

End Py.

(** ** Exceptions

    The classes raised by what the scripts call ([os], [urllib],
    [requests], [open], the text codec) with their direct bases, as the
    libraries declare them. All of them derive from [Exception]. *)
Module Exn.

Inductive cls :=
| Exception | OSError | ValueError | UnicodeError | UnicodeDecodeError
| FileExistsError | FileNotFoundError | IsADirectoryError | NotADirectoryError
| RequestException | HTTPError | ConnectionError | SSLError
| Timeout | ConnectTimeout | ReadTimeout
| TooManyRedirects | MissingSchema | InvalidSchema | InvalidURL
| ChunkedEncodingError | ContentDecodingError.

#[global] Instance cls_eq_dec : EqDecision cls.
Proof. solve_decision. Defined.

(** [C.__bases__]. [requests.RequestException] derives from [IOError],
    which is [OSError]; [requests.Timeout] derives from
    [RequestException]. *)
Definition bases (c : cls) : list cls :=
  match c with
  | Exception => []
  | OSError | ValueError => [Exception]
  | UnicodeError => [ValueError]
  | UnicodeDecodeError => [UnicodeError]
  | FileExistsError | FileNotFoundError
  | IsADirectoryError | NotADirectoryError => [OSError]
  | RequestException => [OSError]
  | HTTPError | ConnectionError | Timeout | TooManyRedirects
  | ChunkedEncodingError | ContentDecodingError => [RequestException]
  | SSLError => [ConnectionError]
  | ConnectTimeout => [ConnectionError; Timeout]
  | ReadTimeout => [Timeout]
  | MissingSchema | InvalidSchema | InvalidURL => [RequestException; ValueError]
  end.

Fixpoint issubclass_upto (depth : nat) (c d : cls) : bool :=
  bool_decide (c = d) ||
  match depth with
  | O => false
  | S depth' => existsb (fun b => issubclass_upto depth' b d) (bases c)
  end.

(** [issubclass(c, d)]; no chain of bases is longer than five. *)
Definition issubclass (c d : cls) : bool := issubclass_upto 5 c d.

(** An exception object: its class and [str(e)]. *)
Record exn := mk { class : cls; message : string }.

#[global] Instance exn_eq_dec : EqDecision exn.
Proof. solve_decision. Defined.

Definition isinstance (e : exn) (d : cls) : bool := issubclass (class e) d.

(** What a call gives: a value, or a raised exception. *)
Inductive result (A : Type) :=
| Ok (a : A)
| Raised (e : exn).
Arguments Ok {A} a.
Arguments Raised {A} e.

End Exn.
Export Exn(result, Ok, Raised, exn).

(** ** [urllib.parse]

    [download_file] uses [urlparse(url).path] and [unquote]. The script
    fixes neither the Python version nor the text encoding, so the
    downloader is stated over this interface; [Url.cpython] below is the
    model used to evaluate it on concrete URLs. *)
Module Url.

Record ParseResult := mkParse {
  scheme : string; netloc : string; path : string;
  params : string; query : string; fragment : string }.

Class Lib := {
  urlparse : string -> result ParseResult;
  unquote : string -> string }.

(** *** A model of CPython's [urllib.parse] on byte strings

    [urlsplit] as CPython 3.12 has it, without the two checks of the
    host that only raise on bracketed or non-ASCII hosts
    ([_check_bracketed_host], [_checknetloc]). *)

Definition code (c : ascii) : nat := nat_of_ascii c.

Definition is_alpha (c : ascii) : bool :=
  ((65 <=? code c) && (code c <=? 90) || (97 <=? code c) && (code c <=? 122))%nat.
Definition is_digit (c : ascii) : bool :=
  ((48 <=? code c) && (code c <=? 57))%nat.
(** [scheme_chars]: letters, digits and ["+-."]. *)
Definition is_scheme_char (c : ascii) : bool :=
  is_alpha c || is_digit c || Py.contains c "+-.".

Definition lower_char (c : ascii) : ascii :=
  if ((65 <=? code c) && (code c <=? 90))%nat then ascii_of_nat (code c + 32) else c.
Fixpoint lower (s : string) : string :=
  match s with
  | EmptyString => EmptyString
  | String c s' => String (lower_char c) (lower s')
  end.

Fixpoint all_chars (p : ascii -> bool) (s : string) : bool :=
  match s with
  | EmptyString => true
  | String c s' => p c && all_chars p s'
  end.

(** [url.lstrip(_WHATWG_C0_CONTROL_OR_SPACE)]. *)
Fixpoint lstrip_c0 (s : string) : string :=
  match s with
  | String c s' => if (code c <=? 32)%nat then lstrip_c0 s' else s
  | EmptyString => EmptyString
  end.

(** Removal of the [_UNSAFE_URL_BYTES_TO_REMOVE]: tab, CR and LF. *)
Fixpoint remove_unsafe (s : string) : string :=
  match s with
  | EmptyString => EmptyString
  | String c s' =>
      if ((code c =? 9) || (code c =? 10) || (code c =? 13))%nat
      then remove_unsafe s' else String c (remove_unsafe s')
  end.

(** The text before the first character of [set], and the text from
    that character on. *)
Fixpoint span_until (set : string) (s : string) : string * string :=
  match s with
  | EmptyString => (EmptyString, EmptyString)
  | String c s' =>
      if Py.contains c set then (EmptyString, s)
      else let '(a, b) := span_until set s' in (String c a, b)
  end.

(** [s.split(c, 1)] when [c in s]: before and after the first [c]. *)
Definition split_once (c : ascii) (s : string) : string * string :=
  let '(a, b) := span_until (String c EmptyString) s in (a, Py.drop 1 b).

(** [s.find(c, start)]. *)
Definition find_from (c : ascii) (start : Z) (s : string) : Z :=
  let r := Py.find c (Py.slice_from start s) in
  if 0 <=? r then r + start else -1.

(** [_splitparams]. *)
Definition splitparams (url : string) : string * string :=
  if Py.contains "/" url then
    let i := find_from ";" (Py.rfind "/" url) url in
    if i <? 0 then (url, EmptyString)
    else (Py.slice_to i url, Py.slice_from (i + 1) url)
  else
    let i := Py.find ";" url in
    (Py.slice_to i url, Py.slice_from (i + 1) url).

Definition uses_params : list string :=
  [""; "ftp"; "hdl"; "prospero"; "http"; "imap"; "https"; "shttp";
   "rtsp"; "rtspu"; "sip"; "sips"; "mms"; "sftp"; "tel"].

Definition invalid_ipv6 : exn := Exn.mk Exn.ValueError "Invalid IPv6 URL".

(** [urlparse]: [urlsplit] followed by the split of the parameters of
    the last path segment. *)
Definition cpython_urlparse (url : string) : result ParseResult :=
  let url := remove_unsafe (lstrip_c0 url) in
  let i := Py.find ":" url in
  let '(scheme, url) :=
    if (0 <? i) && all_chars is_scheme_char (Py.slice_to i url)
       && match url with String c _ => is_alpha c | EmptyString => false end
    then (lower (Py.slice_to i url), Py.slice_from (i + 1) url)
    else (EmptyString, url) in
  let '(netloc, url) :=
    if Py.startswith "//" url then span_until "/?#" (Py.drop 2 url)
    else (EmptyString, url) in
  if xorb (Py.contains "[" netloc) (Py.contains "]" netloc)
  then Raised invalid_ipv6
  else
    let '(url, fragment) :=
      if Py.contains "#" url then split_once "#" url else (url, EmptyString) in
    let '(url, query) :=
      if Py.contains "?" url then split_once "?" url else (url, EmptyString) in
    let '(url, params) :=
      if bool_decide (scheme ∈ uses_params) && Py.contains ";" url
      then splitparams url else (url, EmptyString) in
    Ok (mkParse scheme netloc url params query fragment).

Definition hex_value (c : ascii) : option nat :=
  if is_digit c then Some (code c - 48)%nat
  else if ((65 <=? code c) && (code c <=? 70))%nat then Some (code c - 55)%nat
  else if ((97 <=? code c) && (code c <=? 102))%nat then Some (code c - 87)%nat
  else None.

(** [unquote]: every ["%"] followed by two hexadecimal digits becomes
    the byte they name; any other ["%"] stays. A [str] is held as its
    UTF-8 bytes, so this is [unquote] whenever the decoded bytes are
    well-formed UTF-8 (on others Python substitutes U+FFFD). *)
Fixpoint cpython_unquote (s : string) : string :=
  match s with
  | EmptyString => EmptyString
  | String c rest =>
      if Ascii.eqb c "%" then
        match rest with
        | String a (String b rest') =>
            match hex_value a, hex_value b with
            | Some x, Some y =>
                String (ascii_of_nat (16 * x + y)) (cpython_unquote rest')
            | _, _ => String c (cpython_unquote rest)
            end
        | _ => String c (cpython_unquote rest)
        end
      else String c (cpython_unquote rest)
  end.

Definition cpython : Lib :=
  {| urlparse := cpython_urlparse; unquote := cpython_unquote |}.

End Url.

(** ** The machine: file system and standard output *)
Module Os.

(** A node of the file system: a regular file with its bytes, or a
    directory. Nodes are keyed by the path string they were reached
    by; two spellings of one path are two keys. The paths the scripts
    build themselves are a folder joined with one name; where that name
    is ["."] or [".."], [open] resolves it to a directory (see
    [names_directory]). *)
Inductive node :=
| File (content : string)
| Dir.

#[global] Instance node_eq_dec : EqDecision node.
Proof. solve_decision. Defined.

Definition is_dir (n : option node) : bool :=
  match n with Some Dir => true | _ => false end.
Definition is_file (n : option node) : bool :=
  match n with Some (File _) => true | _ => false end.

(** A line written by [print], kept structured; [render] gives the
    text of the f-string. *)
Inductive event :=
| ErrorDownloading (url : string) (e : exn)
| TimeoutDownloading (url : string)
| UsingWorkers (max_workers cpu_count : Z)
| SuccessfullyDownloaded (file_path : string)
| DownloadFailed (url : string) (e : exn).

Definition render (ev : event) : string :=
  match ev with
  | ErrorDownloading url e =>
      "Error downloading " ++ url ++ ": " ++ Exn.message e
  | TimeoutDownloading url => "Timeout error downloading " ++ url
  | UsingWorkers mw cpu =>
      "Using " ++ Py.str_of_int mw ++ " workers based on "
      ++ Py.str_of_int cpu ++ " CPU cores"
  | SuccessfullyDownloaded file_path => "Successfully downloaded: " ++ file_path
  | DownloadFailed url e =>
      "Download failed for " ++ url ++ ": " ++ Exn.message e
  end.

Record state := mkState {
  fs : gmap string node;
  stdout : list event;
  (** the thread pools created so far, by their [max_workers] *)
  pools : list Z }.

(** A computation that reads and updates the machine and either
    returns or raises. *)
Definition M (A : Type) : Type := state -> result A * state.

Definition ret {A} (a : A) : M A := fun s => (Ok a, s).
Definition raise {A} (e : exn) : M A := fun s => (Raised e, s).
Definition bind {A B} (m : M A) (k : A -> M B) : M B :=
  fun s =>
    match m s with
    | (Ok a, s') => k a s'
    | (Raised e, s') => (Raised e, s')
    end.
Definition lift {A} (r : result A) : M A := fun s => (r, s).

(** [try: m  except ...: handler e]. *)
Definition try_except {A} (m : M A) (handler : exn -> M A) : M A :=
  fun s =>
    match m s with
    | (Ok a, s') => (Ok a, s')
    | (Raised e, s') => handler e s'
    end.

(** Running [m] and looking at how it ended, as the caller of
    [future.result()] does inside its own [try]. *)
Definition attempt {A} (m : M A) : M (result A) :=
  fun s => let '(r, s') := m s in (Ok r, s').

Definition print (ev : event) : M unit :=
  fun s => (Ok tt, mkState (fs s) (stdout s ++ [ev]) (pools s)).

Definition get_fs : M (gmap string node) := fun s => (Ok (fs s), s).
Definition put_fs (f : gmap string node) : M unit :=
  fun s => (Ok tt, mkState f (stdout s) (pools s)).

Definition error (c : Exn.cls) (msg : string) : exn := Exn.mk c msg.

Fixpoint all_slashes (s : string) : bool :=
  match s with
  | EmptyString => true
  | String c s' => Ascii.eqb c "/" && all_slashes s'
  end.

(** The directories above [seen ++ rest] that end inside [rest]: for
    each ["/"] of [rest] that follows a name and is followed by
    another one, the text before it. *)
Fixpoint ancestors_from (seen rest : string) : list string :=
  match rest with
  | EmptyString => []
  | String c rest' =>
      if Ascii.eqb c "/" then
        (if Py.is_empty seen || Py.endswith "/" seen || all_slashes rest'
         then [] else [seen]) ++
        ancestors_from (seen ++ "/") rest'
      else ancestors_from (seen ++ String c EmptyString) rest'
  end.

(** The directories above [name], outermost first: those that
    [os.makedirs] makes before [name] itself (the heads it reaches
    through [os.path.split]). For ["a/b/c"] they are ["a"] and
    ["a/b"]; for ["/a/b/"], ["/a"]. *)
Definition ancestors (name : string) : list string :=
  ancestors_from EmptyString name.

Definition insert_dirs (paths : list string) (f : gmap string node)
    : gmap string node :=
  foldr (fun p g => <[p := Dir]> g) f paths.

(** The tree once [name] and the directories above it are there. *)
Definition mkdirs (f : gmap string node) (name : string) : gmap string node :=
  insert_dirs (name :: ancestors name) f.

(** A directory above [name] is a regular file. *)
Definition blocked (f : gmap string node) (name : string) : bool :=
  existsb (fun p => is_file (f !! p)) (ancestors name).

(** [os.makedirs(name, exist_ok=True)]: [FileExistsError] when [name]
    is a regular file, [NotADirectoryError] when a directory above it
    is one; otherwise [name] and the directories above it are made
    where they are missing. [makedirs("")] raises
    [FileNotFoundError]. *)
Definition makedirs_exist_ok (name : string) : M unit :=
  bind get_fs (fun f =>
    if Py.is_empty name then raise (error Exn.FileNotFoundError name)
    else if is_file (f !! name) then raise (error Exn.FileExistsError name)
    else if blocked f name then raise (error Exn.NotADirectoryError name)
    else put_fs (mkdirs f name)).

(** [open(path, "r")] followed by reading the whole file. *)
Definition open_read (path : string) : M string :=
  bind get_fs (fun f =>
    match f !! path with
    | Some (File c) => ret c
    | Some Dir => raise (error Exn.IsADirectoryError path)
    | None => raise (error Exn.FileNotFoundError path)
    end).

(** A path that ends with ["/"], ["."] or [".."] names a directory:
    no regular file is created under such a name. *)
Definition names_directory (path : string) : bool :=
  let name := Py.basename path in
  Py.is_empty name || String.eqb name "." || String.eqb name "..".

(** [open(path, "w")] finds a directory at [path]. *)
Definition opens_directory (f : gmap string node) (path : string) : bool :=
  match f !! path with
  | Some Dir => true
  | Some (File _) => false
  | None => names_directory path
  end.

(** [open(path, "w")] and [open(path, "wb")]: creates the file or
    truncates it; [IsADirectoryError] on a directory,
    [FileNotFoundError] on the empty path. The directory the file is
    in is there where the scripts open a file for writing:
    [os.makedirs] made it, or the file was just read from it. *)
Definition open_write (path : string) : M unit :=
  bind get_fs (fun f =>
    if opens_directory f path then
      raise (error (if Py.is_empty path then Exn.FileNotFoundError
                    else Exn.IsADirectoryError) path)
    else put_fs (<[path := File EmptyString]> f)).

(** [file.write(chunk)] on the file opened at [path]. *)
Definition file_write (path : string) (chunk : string) : M unit :=
  bind get_fs (fun f =>
    match f !! path with
    | Some (File c) => put_fs (<[path := File (c ++ chunk)]> f)
    | _ => ret tt
    end).

End Os.
Export Os(node, File, Dir, event, state, M).

Declare Scope py_scope.
Delimit Scope py_scope with py.
Notation "'let*' x ':=' m 'in' k" := (Os.bind m (fun x => k))
  (at level 10, x name, m at level 100, k at level 200) : py_scope.
Notation "m '>>' k" := (Os.bind m (fun _ => k))
  (at level 100, k at level 200, right associativity) : py_scope.

(** ** [requests]

    What the network does to one request is given from outside: either
    [requests.get] raises, or it returns a response with a status, a
    [content-length] header and a body that arrives in chunks and may
    break off with an exception. *)
Module Requests.

Inductive header :=
| Absent
| Present (int_value : option Z).   (** [int(value)], [None] when it raises *)

Inductive stream_end :=
| EndOfStream
| StreamRaises (e : exn).

Record Response := mkResponse {
  status_code : Z;
  content_length : header;
  chunks : list string;
  ending : stream_end }.

Inductive get_outcome :=
| GetRaises (e : exn)
| GetReturns (r : Response).

(** [requests.get(url, stream=True, timeout=timeout)]. *)
Definition network := string -> Z -> get_outcome.

Definition get (net : network) (url : string) (timeout : Z) : M Response :=
  match net url timeout with
  | GetRaises e => Os.raise e
  | GetReturns r => Os.ret r
  end.

(** The statuses on which [raise_for_status] raises. *)
Definition is_http_error (status : Z) : bool :=
  (400 <=? status) && (status <? 600).

(** The exception [raise_for_status] raises, with the start of its
    message. *)
Definition http_error (r : Response) : exn :=
  Exn.mk Exn.HTTPError
    (Py.str_of_int (status_code r) ++
     (if status_code r <? 500 then " Client Error" else " Server Error")).

Definition raise_for_status (r : Response) : M unit :=
  if is_http_error (status_code r) then Os.raise (http_error r)
  else Os.ret tt.

(** [int(response.headers.get("content-length", 0))]. *)
Definition int_content_length (r : Response) : M Z :=
  match content_length r with
  | Absent => Os.ret 0
  | Present (Some n) => Os.ret n
  | Present None =>
      Os.raise (Exn.mk Exn.ValueError "invalid literal for int() with base 10")
  end.

End Requests.

(** ** download_files.py *)
Module DownloadFiles.
Section WithUrlLib.
Context {lib : Url.Lib}.
Local Open Scope py_scope.

(** Lines 27-36: the file name for [url], given [parsed_url]. *)
Definition filename_of (parsed_url : Url.ParseResult) (url : string) : string :=
  let filename := Py.basename (Url.unquote (Url.path parsed_url)) in
  let filename :=
    if Py.is_empty filename then Py.last_item (Py.split "/" url) else filename in
  let filename :=
    if Py.is_empty filename then "downloaded_file" else filename in
  filename.

(** Lines 58-61: the loop over [response.iter_content]. *)
Fixpoint write_chunks (file_path : string) (chunks : list string) : M unit :=
  match chunks with
  | [] => Os.ret tt
  | chunk :: rest =>
      (if Py.is_empty chunk then Os.ret tt else Os.file_write file_path chunk) >>
      write_chunks file_path rest
  end.

Definition iter_content_end (e : Requests.stream_end) : M unit :=
  match e with
  | Requests.EndOfStream => Os.ret tt
  | Requests.StreamRaises e => Os.raise e
  end.

(** Lines 23-63: the body of the [try]. The [tqdm] bar only draws on
    the terminal and is left out. *)
Definition download_file_try (net : Requests.network)
    (url folder_path : string) (timeout : Z) : M (option string) :=
  Os.makedirs_exist_ok folder_path >>
  let* parsed_url := Os.lift (Url.urlparse url) in
  let filename := filename_of parsed_url url in
  let file_path := Py.join folder_path filename in
  let* response := Requests.get net url timeout in
  Requests.raise_for_status response >>
  let* total_size := Requests.int_content_length response in
  Os.open_write file_path >>
  write_chunks file_path (Requests.chunks response) >>
  iter_content_end (Requests.ending response) >>
  Os.ret (Some file_path).

(** Lines 65-70: the two [except] clauses, tried in order. *)
Definition download_file_except (url : string) (e : exn) : M (option string) :=
  if Exn.isinstance e Exn.RequestException then
    Os.print (Os.ErrorDownloading url e) >> Os.ret None
  else if Exn.isinstance e Exn.Timeout then
    Os.print (Os.TimeoutDownloading url) >> Os.ret None
  else Os.raise e.

Definition download_file (net : Requests.network)
    (url folder_path : string) (timeout : Z) : M (option string) :=
  Os.try_except (download_file_try net url folder_path timeout)
                (download_file_except url).

(** Lines 87-95. *)
Definition default_max_workers (cpu_count : Z)
    (max_workers : option Z) : M Z :=
  match max_workers with
  | None =>
      let max_workers := Z.min (cpu_count * 2) 32 in
      Os.print (Os.UsingWorkers max_workers cpu_count) >>
      Os.ret max_workers
  | Some n => Os.ret n
  end.

(** [ThreadPoolExecutor(max_workers=n)]. *)
Definition ThreadPoolExecutor (max_workers : Z) : M unit :=
  if max_workers <=? 0 then
    Os.raise (Exn.mk Exn.ValueError "max_workers must be greater than 0")
  else fun s => (Ok tt, Os.mkState (Os.fs s) (Os.stdout s) (Os.pools s ++ [max_workers])).

(** Lines 106-114. A future is the index of its URL in [urls];
    [completed] is the order in which [as_completed] yields the
    futures. The call made by a worker is taken as one step on the
    machine, made when its future completes; [future.result()] is
    what that call returned or raised. [nets i] is the network as the
    [i]-th request meets it; [30] is the default [timeout]. *)
Fixpoint collect (nets : nat -> Requests.network) (urls : list string)
    (folder_path : string) (completed : list nat)
    (downloaded_files : list string) : M (list string) :=
  match completed with
  | [] => Os.ret downloaded_files
  | future :: rest =>
      match urls !! future with
      | None => collect nets urls folder_path rest downloaded_files
      | Some url =>
          let* outcome :=
            Os.attempt (download_file (nets future) url folder_path 30) in
          match outcome with
          | Ok (Some file_path) =>
              if negb (Py.is_empty file_path) then
                Os.print (Os.SuccessfullyDownloaded file_path) >>
                collect nets urls folder_path rest
                  (downloaded_files ++ [file_path])
              else collect nets urls folder_path rest downloaded_files
          | Ok None => collect nets urls folder_path rest downloaded_files
          | Raised e =>
              if Exn.isinstance e Exn.Exception then
                Os.print (Os.DownloadFailed url e) >>
                collect nets urls folder_path rest downloaded_files
              else Os.raise e
          end
      end
  end.

(** Lines 73-116. *)
Definition download_files_parallel (cpu_count : Z)
    (nets : nat -> Requests.network) (completed : list nat)
    (urls : list string) (folder_path : string)
    (max_workers : option Z) : M (list string) :=
  let* max_workers := default_max_workers cpu_count max_workers in
  ThreadPoolExecutor max_workers >>
  collect nets urls folder_path completed [].

End WithUrlLib.
End DownloadFiles.

(** ** remove_first_line_in_file.py *)
Module RemoveFirstLine.
Local Open Scope py_scope.

Definition LF : ascii := "010"%char.
Definition CR : ascii := "013"%char.

(** The lines of a decoded text with their line ends, where
    ["\r\n"] and a lone ["\r"] are read as ["\n"] (universal
    newlines, the default of [open]). The bytes of ["\r"] and ["\n"]
    occur in UTF-8 only as these characters. *)
Fixpoint text_lines (text : string) : list string :=
  match text with
  | EmptyString => []
  | String c rest =>
      if Ascii.eqb c LF then String LF EmptyString :: text_lines rest
      else if Ascii.eqb c CR then
        match rest with
        | String d rest' =>
            if Ascii.eqb d LF then String LF EmptyString :: text_lines rest'
            else String LF EmptyString :: text_lines rest
        | EmptyString => String LF EmptyString :: text_lines rest
        end
      else
        match text_lines rest with
        | [] => [String c EmptyString]
        | line :: lines => String c line :: lines
        end
  end.

Definition cannot_decode : exn :=
  Exn.mk Exn.UnicodeDecodeError "'utf-8' codec can't decode byte".

(** [file.readlines()] on a file opened with [open(file_path, 'r')]:
    the bytes are decoded with the encoding of the locale, taken to be
    UTF-8 (what Python uses under a UTF-8 locale, under the C locale
    and in UTF-8 mode), and the text is cut into lines. Bytes that do
    not decode raise [UnicodeDecodeError]. *)
Definition readlines (content : string) : result (list string) :=
  if Py.utf8_valid content then Ok (text_lines content)
  else Raised cannot_decode.

(** [file.writelines(lines)]; the lines are encoded as they were
    decoded, and ["\n"] is written as it is. *)
Fixpoint writelines (path : string) (lines : list string) : M unit :=
  match lines with
  | [] => Os.ret tt
  | line :: rest => Os.file_write path line >> writelines path rest
  end.

(** Lines 3-8; [lines[2:]] is [drop 2 lines]. *)
Definition remove_first_line (file_path : string) : M unit :=
  let* content := Os.open_read file_path in
  let* lines := Os.lift (readlines content) in
  Os.open_write file_path >>
  writelines file_path (drop 2 lines).

(** Lines 11-14: the loop over the names [os.listdir] returned. *)
Fixpoint remove_first_line_each (directory : string)
    (filenames : list string) : M unit :=
  match filenames with
  | [] => Os.ret tt
  | filename :: rest =>
      (if Py.endswith ".md" filename then
         let file_path := Py.join directory filename in
         remove_first_line file_path
       else Os.ret tt) >>
      remove_first_line_each directory rest
  end.

(** Lines 10-14. [listdir] is [os.listdir] as the machine answers it:
    the names in the directory, or an exception. *)
Definition remove_first_line_in_directory
    (listdir : string -> M (list string)) (directory : string) : M unit :=
  let* filenames := listdir directory in
  remove_first_line_each directory filenames.

End RemoveFirstLine.

(** ** rename_file.py *)
Module RenameFile.

(** An entry of the working directory [DIR]. *)
Inductive entry :=
| RegularFile
| Directory (empty : bool).

(** [fnmatch] for patterns made of ["*"], ["?"] and literal
    characters. *)
Fixpoint fnmatch (pat : string) (name : string) : bool :=
  match pat with
  | EmptyString => Py.is_empty name
  | String c pat' =>
      if Ascii.eqb c "*" then
        (fix star (n : string) : bool :=
           fnmatch pat' n ||
           match n with
           | EmptyString => false
           | String _ n' => star n'
           end) name
      else
        match name with
        | EmptyString => false
        | String d name' =>
            (Ascii.eqb c "?" || Ascii.eqb c d) && fnmatch pat' name'
        end
  end.

(** [glob._ishidden]. *)
Definition ishidden (name : string) : bool := Py.startswith "." name.

(** [glob.glob(pattern)] for a pattern without a directory part, on
    the names of the working directory: hidden names are skipped
    unless the pattern is hidden too. *)
Definition glob (pattern : string) (names : list string) : list string :=
  List.filter
    (fun name => (ishidden pattern || negb (ishidden name)) && fnmatch pattern name)
    names.

(** [os.rename(src, dst)] inside one directory (POSIX [rename]). *)
Definition rename (src dst : string) (d : gmap string entry)
    : result (gmap string entry) :=
  match d !! src with
  | None => Raised (Os.error Exn.FileNotFoundError src)
  | Some e =>
      if Py.is_empty dst then Raised (Os.error Exn.FileNotFoundError dst)
      else if bool_decide (src = dst) then Ok d
      else
        match e, d !! dst with
        | _, None => Ok (<[dst := e]> (delete src d))
        | RegularFile, Some RegularFile => Ok (<[dst := e]> (delete src d))
        | RegularFile, Some (Directory _) =>
            Raised (Os.error Exn.IsADirectoryError dst)
        | Directory _, Some RegularFile =>
            Raised (Os.error Exn.NotADirectoryError dst)
        | Directory _, Some (Directory true) => Ok (<[dst := e]> (delete src d))
        | Directory _, Some (Directory false) =>
            Raised (Os.error Exn.OSError dst)
        end
  end.

(** Lines 8-10: the entries when the loop stops, and the exception
    that stopped it, if any. *)
Fixpoint rename_loop (files : list string) (d : gmap string entry)
    : option exn * gmap string entry :=
  match files with
  | [] => (None, d)
  | file :: rest =>
      match rename file (Py.replace "." EmptyString file) d with
      | Ok d' => rename_loop rest d'
      | Raised e => (Some e, d)
      end
  end.

Section Script.
(** [os.scandir] on the working directory: its names, in the order
    the file system gives them. *)
Variable scandir : gmap string entry -> list string.

(** The whole script after [os.chdir(DIR)], from the entries [d] of
    [DIR]: the uncaught exception if a rename raised, the entries at
    the end, and the lines printed by the second loop (lines 12-13),
    which is not reached after an exception. *)
Definition script (d : gmap string entry)
    : option exn * gmap string entry * list string :=
  match rename_loop (glob "*.mp4" (scandir d)) d with
  | (None, d') => (None, d', glob "*.mp4" (scandir d'))
  | (Some e, d') => (Some e, d', [])
  end.
End Script.

(** A listing of the names: the order of the underlying map. *)
Definition scandir_keys (d : gmap string entry) : list string :=
  (map_to_list d).*1.

End RenameFile.

(** ** Definitions used to state the properties *)
Module Spec.
Section WithUrlLib.
Context {lib : Url.Lib}.

(** The final segment of a path: what follows its last ["/"]. *)
Definition final_segment (decoded_path : string) : string :=
  Py.last_item (Py.split "/" decoded_path).

Fixpoint first_nonempty (candidates : list string) (fallback : string) : string :=
  match candidates with
  | [] => fallback
  | c :: rest => if String.eqb c EmptyString then first_nonempty rest fallback else c
  end.

(** The file name in the words of the specification: the final
    segment of the percent-decoded URL path; if empty, the last
    ["/"]-delimited token of the raw URL; if still empty, the fixed
    default. *)
Definition destination_filename (url_path url : string) : string :=
  first_nonempty
    [final_segment (Url.unquote url_path); Py.last_item (Py.split "/" url)]
    "downloaded_file".

(** The path [download_file] writes to for [url], when [url] parses. *)
Definition destination (folder_path url : string) : option string :=
  match Url.urlparse url with
  | Ok parsed_url =>
      Some (Py.join folder_path (DownloadFiles.filename_of parsed_url url))
  | Raised _ => None
  end.

(** The bytes of a response body. *)
Definition body (r : Requests.Response) : string :=
  foldr String.append EmptyString (Requests.chunks r).

(** A response that [download_file] stores: no error status, a usable
    [content-length], a body that arrives whole. *)
Definition storable (r : Requests.Response) : Prop :=
  Requests.is_http_error (Requests.status_code r) = false /\
  Requests.content_length r <> Requests.Present None /\
  Requests.ending r = Requests.EndOfStream.

Definition with_fs (s : state) (f : gmap string node) : state :=
  Os.mkState f (Os.stdout s) (Os.pools s).

(** [os.makedirs(folder_path, exist_ok=True)] can return: the folder
    has a name and neither it nor a directory above it is a regular
    file. *)
Definition can_make (folder_path : string) (s : state) : Prop :=
  Py.is_empty folder_path = false /\
  Os.is_file (Os.fs s !! folder_path) = false /\
  Os.blocked (Os.fs s) folder_path = false.

(** [open(file_path, "wb")] can return: the path does not end with
    ["/"], ["."] or [".."], which name directories, and no directory
    is there. *)
Definition can_open (s : state) (file_path : string) : Prop :=
  Os.names_directory file_path = false /\
  Os.is_dir (Os.fs s !! file_path) = false.

(** The state after [os.makedirs(folder_path, exist_ok=True)]
    returned. *)
Definition made (folder_path : string) (s : state) : state :=
  with_fs s (Os.mkdirs (Os.fs s) folder_path).

(** The state after the response [r] was stored at [file_path]. *)
Definition stored (file_path : string) (r : Requests.Response) (s : state) : state :=
  with_fs s (<[file_path := File (body r)]> (Os.fs s)).

(** The state after [print] wrote the line [ev]. *)
Definition logged (s : state) (ev : event) : state :=
  Os.mkState (Os.fs s) (Os.stdout s ++ [ev]) (Os.pools s).

Definition is_failure_line (ev : event) : bool :=
  match ev with
  | Os.ErrorDownloading _ _ | Os.TimeoutDownloading _ | Os.DownloadFailed _ _ => true
  | _ => false
  end.

Definition is_success_line (ev : event) : bool :=
  match ev with
  | Os.SuccessfullyDownloaded _ => true
  | _ => false
  end.

(** The failure lines that name [url]. *)
Definition failure_line_for (url : string) (ev : event) : Prop :=
  match ev with
  | Os.ErrorDownloading u _ | Os.TimeoutDownloading u | Os.DownloadFailed u _ => u = url
  | _ => False
  end.

(** How one request of a batch ended, as the dispatcher sees it: a
    path appended to [downloaded_files], or a failure line printed (by
    [download_file] or by the dispatcher) and nothing appended. *)
Inductive outcome :=
| Succeeded (file_path : string)
| Failed (line : event).

Definition line_of (o : outcome) : event :=
  match o with
  | Succeeded file_path => Os.SuccessfullyDownloaded file_path
  | Failed line => line
  end.

Definition path_of (o : outcome) : option string :=
  match o with
  | Succeeded file_path => Some file_path
  | Failed _ => None
  end.

(** The futures of [completed] that were submitted, with their URLs. *)
Definition submitted (urls : list string) (completed : list nat)
    : list (nat * string) :=
  omap (fun future => (fun url => (future, url)) <$> urls !! future) completed.

(** [o] is an outcome of request [future] for [url]: the destination
    of the URL, for a response that [download_file] stores; or a
    failure line naming the URL, printed by [download_file] for a
    [requests] exception or by the dispatcher for any other. *)
Definition outcome_of (nets : nat -> Requests.network) (folder_path : string)
    (request : nat * string) (o : outcome) : Prop :=
  let '(future, url) := request in
  match o with
  | Succeeded file_path =>
      destination folder_path url = Some file_path /\
      exists resp, nets future url 30 = Requests.GetReturns resp /\ storable resp
  | Failed line =>
      is_failure_line line = true /\ failure_line_for url line /\
      exists e,
        (line = Os.ErrorDownloading url e /\
         Exn.isinstance e Exn.RequestException = true) \/
        (line = Os.DownloadFailed url e /\
         Exn.isinstance e Exn.RequestException = false)
  end.

(** The network answers the request of the dispatcher for [url] with
    a response that [download_file] stores. *)
Definition answered_storable (net : Requests.network) (url : string) : bool :=
  match net url 30 with
  | Requests.GetRaises _ => false
  | Requests.GetReturns r =>
      negb (Requests.is_http_error (Requests.status_code r)) &&
      match Requests.content_length r with
      | Requests.Present None => false
      | _ => true
      end &&
      match Requests.ending r with
      | Requests.EndOfStream => true
      | Requests.StreamRaises _ => false
      end
  end.

(** The file system lets every request of a batch be stored: the
    folder can be made, every URL parses, and no destination is a
    directory. *)
Definition batch_can_store (folder_path : string) (urls : list string)
    (s : state) : Prop :=
  can_make folder_path s /\
  forall url, url ∈ urls ->
    exists file_path,
      destination folder_path url = Some file_path /\
      can_open s file_path.

(** The path a request adds to the list returned, when the file
    system lets it be stored. *)
Definition stored_path (nets : nat -> Requests.network) (folder_path : string)
    (request : nat * string) : option string :=
  if answered_storable (nets request.1) request.2
  then destination folder_path request.2 else None.

(** The pool size the dispatcher settles on, and the line it prints
    when it had to choose it. *)
Definition pool_size (cpu_count : Z) (max_workers : option Z) : Z :=
  match max_workers with
  | None => Z.min (cpu_count * 2) 32
  | Some n => n
  end.

Definition workers_line (cpu_count : Z) (max_workers : option Z) : list event :=
  match max_workers with
  | None => [Os.UsingWorkers (Z.min (cpu_count * 2) 32) cpu_count]
  | Some _ => []
  end.

(** The request for [url] fails with the [requests] exception [e]:
    [requests.get] raises it (a timeout, a refused connection, ...),
    or the answer has an error status and [raise_for_status] raises
    it. *)
Definition request_fails (net : Requests.network) (url : string)
    (timeout : Z) (e : exn) : Prop :=
  (net url timeout = Requests.GetRaises e /\
   Exn.isinstance e Exn.RequestException = true) \/
  (exists r, net url timeout = Requests.GetReturns r /\
             Requests.is_http_error (Requests.status_code r) = true /\
             e = Requests.http_error r).



(** [as_completed] yields every submitted future once. *)
Definition completion_order (urls : list string) (completed : list nat) : Prop :=
  Permutation completed (seq 0 (length urls)).

(** A [max_workers] that [ThreadPoolExecutor] accepts. *)
Definition valid_workers (cpu_count : Z) (max_workers : option Z) : Prop :=
  match max_workers with
  | None => 0 < cpu_count
  | Some n => 0 < n
  end.

End WithUrlLib.

(** *** Directory listings *)

(** [scandir] lists the names of the directory, each once. *)
Definition lists_names
    (scandir : gmap string RenameFile.entry -> list string) : Prop :=
  forall d, NoDup (scandir d) /\
            forall name, name ∈ scandir d <-> is_Some (d !! name).

(** A directory that holds regular files only. *)
Definition regular_files_only (d : gmap string RenameFile.entry) : Prop :=
  forall name e, d !! name = Some e -> e = RenameFile.RegularFile.

(** *** Text files *)

(** The content [writelines] leaves in a file opened for writing. *)
Definition join_lines (lines : list string) : string :=
  foldr String.append EmptyString lines.

Fixpoint no_newline (s : string) : bool :=
  match s with
  | EmptyString => true
  | String c s' =>
      negb (Ascii.eqb c RemoveFirstLine.LF) &&
      negb (Ascii.eqb c RemoveFirstLine.CR) && no_newline s'
  end.

(** A line that ends with its line feed, and a last line without one. *)
Definition terminated (line : string) : Prop :=
  exists t, line = (t ++ String RemoveFirstLine.LF EmptyString)%string /\
            no_newline t = true.
Definition unterminated (line : string) : Prop :=
  line <> EmptyString /\ no_newline line = true.

(** The shape of the lines [readlines] returns. *)
Fixpoint lines_of_a_file (lines : list string) : Prop :=
  match lines with
  | [] => True
  | line :: rest =>
      (terminated line \/ (unterminated line /\ rest = [])) /\
      lines_of_a_file rest
  end.

End Spec.

(** ** Machines and networks used in the examples *)
Module Examples.

Definition empty_machine : state := Os.mkState ∅ [] [].

(** A server that answers every request with [status] and [chunks]. *)
Definition answers (status : Z) (chunks : list string) : Requests.network :=
  fun _ _ =>
    Requests.GetReturns
      (Requests.mkResponse status Requests.Absent chunks Requests.EndOfStream).

Definition read_timeout : exn :=
  Exn.mk Exn.ReadTimeout "Read timed out. (read timeout=30)".
Definition connection_refused : exn :=
  Exn.mk Exn.ConnectionError "Connection refused".

(** A network on which [requests.get] raises [e]. *)
Definition fails_with (e : exn) : Requests.network :=
  fun _ _ => Requests.GetRaises e.

End Examples.

(** ** Further definitions used to state properties *)
Module Props.


(** The paths [remove_first_line_in_directory] passes to
    [remove_first_line], in order. *)
Definition md_paths (directory : string) (filenames : list string) : list string :=
  map (Py.join directory) (List.filter (Py.endswith ".md") filenames).

(** The file at [path] is a text file: a regular file whose bytes
    decode. *)
Definition text_file (s : state) (path : string) : Prop :=
  exists content lines,
    Os.fs s !! path = Some (File content) /\
    RemoveFirstLine.readlines content = Ok lines.

(** An [os.listdir] that returns [filenames]. *)
Definition listing (filenames : list string) : string -> M (list string) :=
  fun _ => Os.ret filenames.

End Props.

(** * Facts about the built-ins *)
Module PyFacts.

Lemma is_empty_true s : Py.is_empty s = true <-> s = EmptyString.
Proof. destruct s; simpl; split; congruence. Qed.

Lemma is_empty_false s : Py.is_empty s = false <-> s <> EmptyString.
Proof. destruct s; simpl; split; congruence. Qed.

Lemma split_cons sep s :
  Py.split sep s = (Py.split_tokens sep s).1 :: (Py.split_tokens sep s).2.
Proof. unfold Py.split. by destruct (Py.split_tokens sep s). Qed.

Lemma split_String sep c s :
  Py.split sep (String c s) =
  if Ascii.eqb c sep then EmptyString :: Py.split sep s
  else match Py.split sep s with
       | tok :: rest => String c tok :: rest
       | [] => []
       end.
Proof.
  unfold Py.split; simpl.
  destruct (Py.split_tokens sep s) as [tok rest].
  by destruct (Ascii.eqb c sep).
Qed.

Lemma split_not_nil sep s : Py.split sep s <> [].
Proof. rewrite split_cons. discriminate. Qed.

Lemma last_item_cons x y l :
  Py.last_item (x :: y :: l) = Py.last_item (y :: l).
Proof. reflexivity. Qed.

(** [rfind] is [-1] or an index into the string. *)
Lemma rfind_range c s : -1 <= Py.rfind c s < Z.of_nat (String.length s).
Proof.
  induction s as [|a s IH]; simpl; [lia|].
  destruct (Z.leb_spec 0 (Py.rfind c s)); [lia|].
  destruct (Ascii.eqb a c); lia.
Qed.

(** With no separator the whole string is the only token. *)
Lemma split_no_sep sep s :
  Py.rfind sep s = -1 -> Py.split sep s = [s].
Proof.
  induction s as [|a s IH]; [done|].
  simpl. rewrite split_String.
  destruct (Z.leb_spec 0 (Py.rfind sep s)) as [Hr|Hr].
  - pose proof (rfind_range sep s). lia.
  - destruct (Ascii.eqb a sep); [discriminate|].
    intros _. rewrite IH; [done|]. pose proof (rfind_range sep s). lia.
Qed.

(** What follows the last separator is the last token. *)
Lemma slice_after_rfind sep s :
  Py.slice_from (Py.rfind sep s + 1) s = Py.last_item (Py.split sep s).
Proof.
  induction s as [|a s IH]; [done|].
  simpl. rewrite split_String.
  pose proof (rfind_range sep s) as Hrange.
  destruct (Z.leb_spec 0 (Py.rfind sep s)) as [Hr|Hr].
  - unfold Py.slice_from in *.
    replace (Z.to_nat (Py.rfind sep s + 1 + 1))
      with (S (Z.to_nat (Py.rfind sep s + 1))) by lia.
    simpl. rewrite IH.
    destruct (Ascii.eqb a sep).
    + pose proof (split_not_nil sep s).
      by destruct (Py.split sep s).
    + pose proof (split_not_nil sep s).
      destruct (Py.split sep s) as [|tok [|tok' rest]] eqn:Hs; [done| |done].
      (* one token only: there would be no separator *)
      exfalso. revert Hs Hr. clear. revert tok.
      induction s as [|b s IHs]; intros tok; simpl; [lia|].
      rewrite split_String.
      destruct (Z.leb_spec 0 (Py.rfind sep s)).
      * destruct (Ascii.eqb b sep).
        -- pose proof (split_not_nil sep s). by destruct (Py.split sep s).
        -- destruct (Py.split sep s) as [|t [|? ?]] eqn:E; try done.
           intros _ _. eapply IHs; eauto.
      * destruct (Ascii.eqb b sep) eqn:Eb; [|lia].
        pose proof (split_not_nil sep s). by destruct (Py.split sep s).
  - assert (Py.rfind sep s = -1) as Hm by lia.
    rewrite (split_no_sep _ _ Hm).
    destruct (Ascii.eqb a sep); reflexivity.
Qed.

Lemma basename_last_token p :
  Py.basename p = Py.last_item (Py.split "/" p).
Proof. apply slice_after_rfind. Qed.

End PyFacts.

(** * download_files.py: the fetcher *)
Module FetcherFacts.
Section WithUrlLib.
Context {lib : Url.Lib}.
Import DownloadFiles Spec.

Lemma append_String c (a b : string) :
  (String c a ++ b)%string = String c (a ++ b).
Proof. reflexivity. Qed.

Lemma append_nil_r s : (s ++ "")%string = s.
Proof. induction s as [|c s IH]; [done|]. by rewrite append_String, IH. Qed.

Lemma append_assoc (a b c : string) : ((a ++ b) ++ c = a ++ (b ++ c))%string.
Proof. induction a as [|x a IH]; [done|]. by rewrite !append_String, IH. Qed.

Lemma append_nonempty_r (a b : string) :
  b <> EmptyString -> (a ++ b)%string <> EmptyString.
Proof. destruct a, b; try done. Qed.

Lemma filename_of_nonempty parsed_url url :
  filename_of parsed_url url <> EmptyString.
Proof.
  unfold filename_of.
  repeat match goal with
         | |- context [Py.is_empty ?x] => destruct (Py.is_empty x) eqn:?
         end; try discriminate;
    by apply PyFacts.is_empty_false.
Qed.

Lemma join_nonempty a b : b <> EmptyString -> Py.join a b <> EmptyString.
Proof.
  intros Hb. unfold Py.join.
  destruct (Py.startswith "/" b); [done|].
  destruct (Py.is_empty a || Py.endswith "/" a);
    apply append_nonempty_r; [done|].
  by apply (append_nonempty_r "/").
Qed.

Lemma length_append (a b : string) :
  String.length (a ++ b) = (String.length a + String.length b)%nat.
Proof. induction a as [|x a IH]; [done|]. rewrite append_String. simpl. lia. Qed.

(** No token of a split holds the separator. *)
Lemma split_tokens_no_sep sep s tok :
  tok ∈ Py.split sep s -> Py.contains sep tok = false.
Proof.
  revert tok. induction s as [|c s IH]; intros tok.
  - change (Py.split sep "") with [EmptyString].
    rewrite list_elem_of_singleton. by intros ->.
  - rewrite PyFacts.split_String.
    destruct (Ascii.eqb c sep) eqn:Hc.
    + rewrite elem_of_cons. intros [->|Hin]; [done|by apply IH].
    + destruct (Py.split sep s) as [|t rest]; [by rewrite elem_of_nil|].
      rewrite elem_of_cons. intros [->|Hin].
      * simpl. rewrite Hc. apply IH. by left.
      * apply IH. by right.
Qed.

Lemma last_item_elem l : l <> [] -> Py.last_item l ∈ l.
Proof.
  induction l as [|x [|y l] IH]; intros Hl; [done|by left|].
  rewrite PyFacts.last_item_cons. right. by apply IH.
Qed.

Lemma last_token_no_sep sep s :
  Py.contains sep (Py.last_item (Py.split sep s)) = false.
Proof.
  apply (split_tokens_no_sep sep s), last_item_elem, PyFacts.split_not_nil.
Qed.

Lemma filename_of_no_slash parsed_url url :
  Py.contains "/" (filename_of parsed_url url) = false.
Proof.
  unfold filename_of.
  repeat match goal with
         | |- context [Py.is_empty ?x] => destruct (Py.is_empty x) eqn:?
         end; try reflexivity.
  - apply last_token_no_sep.
  - rewrite PyFacts.basename_last_token. apply last_token_no_sep.
Qed.

(** For a file name without ["/"], [join] appends it to the folder,
    after a ["/"] where the folder does not end with one. *)
Lemma join_filename a b :
  Py.contains "/" b = false ->
  Py.join a b = (a ++ b)%string \/ Py.join a b = (a ++ "/" ++ b)%string.
Proof.
  intros Hb. unfold Py.join.
  assert (Py.startswith "/" b = false) as ->.
  { destruct b as [|c b]; [done|]. simpl in *.
    apply orb_false_iff in Hb as [Hc _].
    rewrite Ascii.eqb_sym, Hc. done. }
  destruct (Py.is_empty a || Py.endswith "/" a); auto.
Qed.

Lemma join_not_folder a b :
  b <> EmptyString -> Py.contains "/" b = false -> Py.join a b <> a.
Proof.
  intros Hb Hs Heq.
  assert (String.length (Py.join a b) = String.length a) as Hlen by by rewrite Heq.
  destruct b as [|c b]; [done|].
  destruct (join_filename a _ Hs) as [E|E]; rewrite E in Hlen;
    rewrite ?length_append in Hlen; simpl in Hlen; lia.
Qed.

(** *** Running the body of the [try] *)

(** The loop over the chunks appends the body to the opened file. *)
Lemma write_chunks_run file_path chunks s c :
  Os.fs s !! file_path = Some (File c) ->
  write_chunks file_path chunks s =
  (Ok tt, with_fs s (<[file_path := File (c ++ foldr String.append EmptyString chunks)]> (Os.fs s))).
Proof.
  revert s c. induction chunks as [|chunk rest IH]; intros s c Hc.
  - simpl. rewrite append_nil_r. unfold Os.ret, with_fs.
    rewrite insert_id by done. by destruct s.
  - simpl. unfold Os.bind at 1.
    destruct (Py.is_empty chunk) eqn:He.
    + apply PyFacts.is_empty_true in He as ->.
      unfold Os.ret. rewrite (IH s c Hc). done.
    + unfold Os.file_write, Os.bind, Os.get_fs, Os.put_fs. rewrite Hc.
      erewrite IH; [|simpl; apply lookup_insert_eq].
      unfold with_fs; simpl. rewrite insert_insert_eq, append_assoc. done.
Qed.

Lemma with_fs_id s : with_fs s (Os.fs s) = s.
Proof. by destruct s. Qed.

(** *** The directories [os.makedirs] makes *)

Lemma ancestors_from_String seen c rest :
  Os.ancestors_from seen (String c rest) =
  if Ascii.eqb c "/" then
    ((if Py.is_empty seen || Py.endswith "/" seen || Os.all_slashes rest
      then [] else [seen]) ++
     Os.ancestors_from (seen ++ "/") rest)%list
  else Os.ancestors_from (seen ++ String c EmptyString) rest.
Proof. reflexivity. Qed.

Lemma ancestors_from_shorter seen rest p :
  p ∈ Os.ancestors_from seen rest ->
  (String.length p < String.length seen + String.length rest)%nat.
Proof.
  revert seen. induction rest as [|c rest IH]; intros seen Hin.
  - apply elem_of_nil in Hin. destruct Hin.
  - rewrite ancestors_from_String in Hin. simpl String.length.
    destruct (Ascii.eqb c "/").
    + apply elem_of_app in Hin as [Hin|Hin].
      * destruct (Py.is_empty seen || Py.endswith "/" seen || Os.all_slashes rest).
        -- apply elem_of_nil in Hin. destruct Hin.
        -- apply list_elem_of_singleton in Hin as ->. lia.
      * apply IH in Hin. rewrite length_append in Hin. simpl in Hin. lia.
    + apply IH in Hin. rewrite length_append in Hin. simpl in Hin. lia.
Qed.

(** A directory above [name] has a shorter name. *)
Lemma ancestors_shorter name p :
  p ∈ Os.ancestors name -> (String.length p < String.length name)%nat.
Proof. intros Hin. by apply ancestors_from_shorter in Hin. Qed.

Lemma lookup_insert_dirs_in paths f p :
  p ∈ paths -> Os.insert_dirs paths f !! p = Some Dir.
Proof.
  induction paths as [|q paths IH]; intros Hin.
  - apply elem_of_nil in Hin. destruct Hin.
  - simpl. destruct (decide (q = p)) as [->|Hne]; [apply lookup_insert_eq|].
    rewrite lookup_insert_ne by done. apply IH.
    by apply elem_of_cons in Hin as [->|Hin].
Qed.

Lemma lookup_insert_dirs_out paths f p :
  p ∉ paths -> Os.insert_dirs paths f !! p = f !! p.
Proof.
  induction paths as [|q paths IH]; intros Hnot; [done|].
  apply not_elem_of_cons in Hnot as [Hne Hnot]. simpl.
  rewrite lookup_insert_ne by done. by apply IH.
Qed.

Lemma insert_dirs_id paths f :
  (forall p, p ∈ paths -> f !! p = Some Dir) -> Os.insert_dirs paths f = f.
Proof.
  induction paths as [|q paths IH]; intros Hall; [done|].
  simpl. rewrite IH by (intros p Hp; apply Hall; by right).
  apply insert_id, Hall. by left.
Qed.

Lemma blocked_false f name :
  Os.blocked f name = false <->
  forall p, p ∈ Os.ancestors name -> Os.is_file (f !! p) = false.
Proof.
  unfold Os.blocked. induction (Os.ancestors name) as [|q l IH]; simpl.
  - split; [|done]. intros _ p Hp. apply elem_of_nil in Hp. destruct Hp.
  - rewrite orb_false_iff, IH. split.
    + intros [Hq Hl] p Hp. apply elem_of_cons in Hp as [->|Hp]; auto.
    + intros Hall. split; [apply Hall; by left|].
      intros p Hp. apply Hall. by right.
Qed.

(** After [os.makedirs] the folder and the directories above it are
    directories, and the other paths are as they were. *)
Lemma lookup_made_in folder_path s p :
  p = folder_path \/ p ∈ Os.ancestors folder_path ->
  Os.fs (made folder_path s) !! p = Some Dir.
Proof.
  intros Hin. unfold made, with_fs, Os.mkdirs. cbn [Os.fs].
  apply lookup_insert_dirs_in. apply elem_of_cons. tauto.
Qed.

Lemma lookup_made_out folder_path s p :
  p <> folder_path -> p ∉ Os.ancestors folder_path ->
  Os.fs (made folder_path s) !! p = Os.fs s !! p.
Proof.
  intros Hne Hnot. unfold made, with_fs, Os.mkdirs. cbn [Os.fs].
  apply lookup_insert_dirs_out. apply not_elem_of_cons. done.
Qed.

Lemma made_id folder_path s :
  Os.fs s !! folder_path = Some Dir ->
  (forall p, p ∈ Os.ancestors folder_path -> Os.fs s !! p = Some Dir) ->
  made folder_path s = s.
Proof.
  intros Hdir Hup. unfold made, Os.mkdirs.
  rewrite insert_dirs_id; [apply with_fs_id|].
  intros p Hp. apply elem_of_cons in Hp as [->|Hp]; auto.
Qed.

Lemma made_made folder_path s :
  made folder_path (made folder_path s) = made folder_path s.
Proof.
  apply made_id.
  - apply lookup_made_in. by left.
  - intros p Hp. apply lookup_made_in. by right.
Qed.

(** A file name joined to a folder is longer than the folder, so it is
    neither the folder nor a directory above it. *)
Lemma join_longer a b :
  b <> EmptyString -> Py.contains "/" b = false ->
  (String.length a < String.length (Py.join a b))%nat.
Proof.
  intros Hb Hs. destruct b as [|c b]; [done|].
  destruct (join_filename a _ Hs) as [E|E]; rewrite E;
    rewrite ?length_append; simpl; lia.
Qed.

Lemma join_not_made a b :
  b <> EmptyString -> Py.contains "/" b = false ->
  Py.join a b <> a /\ Py.join a b ∉ Os.ancestors a.
Proof.
  intros Hb Hs. pose proof (join_longer a b Hb Hs) as Hlen. split.
  - intros Heq. rewrite Heq in Hlen. lia.
  - intros Hin. apply ancestors_shorter in Hin. lia.
Qed.

Lemma lookup_made_join folder_path filename s :
  filename <> EmptyString -> Py.contains "/" filename = false ->
  Os.fs (made folder_path s) !! Py.join folder_path filename
  = Os.fs s !! Py.join folder_path filename.
Proof.
  intros Hb Hs. destruct (join_not_made folder_path filename Hb Hs).
  by apply lookup_made_out.
Qed.


Lemma opens_directory_made folder_path filename s :
  filename <> EmptyString -> Py.contains "/" filename = false ->
  Os.opens_directory (Os.fs (made folder_path s)) (Py.join folder_path filename)
  = Os.opens_directory (Os.fs s) (Py.join folder_path filename).
Proof.
  intros Hb Hs. unfold Os.opens_directory. by rewrite lookup_made_join.
Qed.

Lemma makedirs_run folder_path s :
  Os.makedirs_exist_ok folder_path s =
  if Py.is_empty folder_path
  then (Raised (Os.error Exn.FileNotFoundError folder_path), s)
  else if Os.is_file (Os.fs s !! folder_path)
  then (Raised (Os.error Exn.FileExistsError folder_path), s)
  else if Os.blocked (Os.fs s) folder_path
  then (Raised (Os.error Exn.NotADirectoryError folder_path), s)
  else (Ok tt, made folder_path s).
Proof.
  unfold Os.makedirs_exist_ok, Os.bind, Os.get_fs, made.
  destruct (Py.is_empty folder_path); [done|].
  destruct (Os.is_file (Os.fs s !! folder_path)); [done|].
  by destruct (Os.blocked (Os.fs s) folder_path).
Qed.

Lemma store_run file_path r s :
  (Os.bind (Os.open_write file_path)
     (fun _ => Os.bind (write_chunks file_path (Requests.chunks r))
        (fun _ => Os.bind (iter_content_end (Requests.ending r))
           (fun _ => Os.ret (Some file_path))))) s =
  if Os.opens_directory (Os.fs s) file_path
  then (Raised (Os.error (if Py.is_empty file_path then Exn.FileNotFoundError
                          else Exn.IsADirectoryError) file_path), s)
  else match Requests.ending r with
       | Requests.EndOfStream => (Ok (Some file_path), stored file_path r s)
       | Requests.StreamRaises e => (Raised e, stored file_path r s)
       end.
Proof.
  unfold Os.bind at 1. unfold Os.open_write, Os.bind at 1, Os.get_fs.
  destruct (Os.opens_directory (Os.fs s) file_path); [done|].
  unfold Os.put_fs.
  fold (with_fs s (<[file_path := File EmptyString]> (Os.fs s))).
  unfold Os.bind at 1.
  rewrite (write_chunks_run _ _ _ EmptyString)
    by (simpl; apply lookup_insert_eq).
  unfold Os.bind, iter_content_end, stored, body, with_fs; simpl.
  rewrite insert_insert_eq.
  by destruct (Requests.ending r).
Qed.

(** The body of the [try], step by step. *)
Lemma download_file_try_run net url folder_path timeout s :
  download_file_try net url folder_path timeout s =
  if Py.is_empty folder_path
  then (Raised (Os.error Exn.FileNotFoundError folder_path), s)
  else if Os.is_file (Os.fs s !! folder_path)
  then (Raised (Os.error Exn.FileExistsError folder_path), s)
  else if Os.blocked (Os.fs s) folder_path
  then (Raised (Os.error Exn.NotADirectoryError folder_path), s)
  else
    let s1 := made folder_path s in
    match Url.urlparse url with
    | Raised e => (Raised e, s1)
    | Ok parsed_url =>
        let file_path := Py.join folder_path (filename_of parsed_url url) in
        match net url timeout with
        | Requests.GetRaises e => (Raised e, s1)
        | Requests.GetReturns r =>
            if Requests.is_http_error (Requests.status_code r)
            then (Raised (Requests.http_error r), s1)
            else
              match Requests.content_length r with
              | Requests.Present None =>
                  (Raised (Exn.mk Exn.ValueError
                             "invalid literal for int() with base 10"), s1)
              | _ =>
                  if Os.opens_directory (Os.fs s) file_path
                  then (Raised (Os.error Exn.IsADirectoryError file_path), s1)
                  else match Requests.ending r with
                       | Requests.EndOfStream =>
                           (Ok (Some file_path), stored file_path r s1)
                       | Requests.StreamRaises e =>
                           (Raised e, stored file_path r s1)
                       end
              end
        end
    end.
Proof.
  unfold download_file_try. unfold Os.bind at 1. rewrite makedirs_run.
  destruct (Py.is_empty folder_path); [done|].
  destruct (Os.is_file (Os.fs s !! folder_path)); [done|].
  destruct (Os.blocked (Os.fs s) folder_path); [done|].
  cbv zeta. unfold Os.bind at 1, Os.lift.
  destruct (Url.urlparse url) as [parsed_url|e]; [|done].
  unfold Os.bind at 1, Requests.get.
  destruct (net url timeout) as [e|r]; [done|]. unfold Os.ret at 1.
  unfold Os.bind at 1, Requests.raise_for_status.
  destruct (Requests.is_http_error (Requests.status_code r)); [done|].
  unfold Os.ret at 1.
  unfold Os.bind at 1, Requests.int_content_length.
  assert (Py.is_empty (Py.join folder_path (filename_of parsed_url url)) = false)
    as Hpath.
  { apply PyFacts.is_empty_false, join_nonempty, filename_of_nonempty. }
  destruct (Requests.content_length r) as [|[n|]]; try done;
    unfold Os.ret at 1; rewrite store_run, Hpath;
    rewrite opens_directory_made
      by (apply filename_of_nonempty || apply filename_of_no_slash);
    done.
Qed.

(** *** The [except] clauses *)

Lemma issubclass_Exception c : Exn.issubclass c Exn.Exception = true.
Proof. by destruct c. Qed.

(** [requests.Timeout] and its subclasses are [RequestException]s, so
    the first clause takes them. *)
Lemma timeout_is_request_exception c :
  Exn.issubclass c Exn.Timeout = true ->
  Exn.issubclass c Exn.RequestException = true.
Proof. by destruct c. Qed.

Lemma download_file_except_run url e s :
  download_file_except url e s =
  if Exn.isinstance e Exn.RequestException
  then (Ok None, logged s (Os.ErrorDownloading url e))
  else (Raised e, s).
Proof.
  unfold download_file_except.
  destruct (Exn.isinstance e Exn.RequestException) eqn:Hreq; [done|].
  destruct (Exn.isinstance e Exn.Timeout) eqn:Ht; [|done].
  apply timeout_is_request_exception in Ht.
  unfold Exn.isinstance in Hreq. congruence.
Qed.

Lemma download_file_run net url folder_path timeout s :
  download_file net url folder_path timeout s =
  match download_file_try net url folder_path timeout s with
  | (Ok a, s') => (Ok a, s')
  | (Raised e, s') =>
      if Exn.isinstance e Exn.RequestException
      then (Ok None, logged s' (Os.ErrorDownloading url e))
      else (Raised e, s')
  end.
Proof.
  unfold download_file, Os.try_except.
  destruct (download_file_try net url folder_path timeout s) as [[a|e] s'];
    [done|apply download_file_except_run].
Qed.

(** How a call of [download_file] can end: with the path of the stored
    file and nothing printed; with [None] and one error line; or with
    an exception that is no [RequestException] and nothing printed. *)
Lemma download_file_outcome net url folder_path timeout s r s' :
  download_file net url folder_path timeout s = (r, s') ->
  Os.pools s' = Os.pools s /\
  match r with
  | Ok (Some file_path) =>
      Os.stdout s' = Os.stdout s /\
      exists parsed_url resp,
        Url.urlparse url = Ok parsed_url /\
        file_path = Py.join folder_path (filename_of parsed_url url) /\
        net url timeout = Requests.GetReturns resp /\
        storable resp /\
        can_make folder_path s /\
        Os.opens_directory (Os.fs s) file_path = false /\
        s' = stored file_path resp (made folder_path s)
  | Ok None =>
      exists e, Exn.isinstance e Exn.RequestException = true /\
                Os.stdout s' = (Os.stdout s ++ [Os.ErrorDownloading url e])%list
  | Raised e =>
      Exn.isinstance e Exn.RequestException = false /\
      Os.stdout s' = Os.stdout s
  end.
Proof.
  rewrite download_file_run, download_file_try_run. cbv zeta.
  unfold storable, can_make.
  intros H.
  repeat case_match; simplify_eq; simpl; (split; [done|]);
    try (split; [done|]); try done;
    try (eexists; split; [eassumption|done]).
  all: eexists _, _; repeat split; try done; congruence.
Qed.

(** What a call of [download_file] can do to the file system: nothing;
    or the folder is made; or the folder is made and a file written at
    the destination of the URL. *)
Lemma download_file_fs net url folder_path timeout s r s' :
  download_file net url folder_path timeout s = (r, s') ->
  Os.fs s' = Os.fs s \/
  (can_make folder_path s /\
   (Os.fs s' = Os.fs (made folder_path s) \/
    exists file_path content,
      destination folder_path url = Some file_path /\
      Os.opens_directory (Os.fs s) file_path = false /\
      Os.fs s' = <[file_path := File content]> (Os.fs (made folder_path s)))).
Proof.
  rewrite download_file_run, download_file_try_run. cbv zeta.
  unfold can_make, destination. intros H.
  repeat case_match; simplify_eq; simpl; auto;
    right; (split; [done|]); auto;
    right; eexists _, _; repeat split; done.
Qed.

(** A call changes the file system at the folder, at the directories
    above it and at the destination of the URL, nowhere else. *)
Lemma download_file_frame net url folder_path timeout s r s' path :
  download_file net url folder_path timeout s = (r, s') ->
  path <> folder_path ->
  path ∉ Os.ancestors folder_path ->
  destination folder_path url <> Some path ->
  Os.fs s' !! path = Os.fs s !! path.
Proof.
  intros Hrun Hfolder Hup Hdest.
  apply download_file_fs in Hrun
    as [->|[_ [->|(file_path & content & Hd & _ & ->)]]]; [done| |].
  - by apply lookup_made_out.
  - rewrite lookup_insert_ne by congruence. by apply lookup_made_out.
Qed.

End WithUrlLib.
End FetcherFacts.

(** * download_files.py: the dispatcher *)
Module DispatcherFacts.
Section WithUrlLib.
Context {lib : Url.Lib}.
Import DownloadFiles Spec FetcherFacts.
Local Open Scope list_scope.

Lemma submitted_cons urls future rest :
  submitted urls (future :: rest) =
  match urls !! future with
  | Some url => (future, url) :: submitted urls rest
  | None => submitted urls rest
  end.
Proof. unfold submitted; simpl. by destruct (urls !! future). Qed.

(** The loop over the completed futures never raises: it ends with the
    paths of the requests that succeeded appended to
    [downloaded_files], one line printed per request, and one outcome
    per submitted future, in the order of completion. *)
Lemma collect_trace nets urls folder_path completed :
  forall downloaded_files s,
  exists trace s',
    collect nets urls folder_path completed downloaded_files s =
      (Ok (downloaded_files ++ omap path_of trace), s') /\
    Os.pools s' = Os.pools s /\
    Os.stdout s' = Os.stdout s ++ map line_of trace /\
    Forall2 (outcome_of nets folder_path) (submitted urls completed) trace.
Proof.
  induction completed as [|future rest IH]; intros acc s.
  - exists [], s. simpl. rewrite !app_nil_r. by repeat split.
  - rewrite submitted_cons. simpl.
    destruct (urls !! future) as [url|] eqn:Hurl; [|apply IH].
    unfold Os.bind at 1, Os.attempt.
    destruct (download_file (nets future) url folder_path 30 s)
      as [r s1] eqn:Hrun.
    pose proof (download_file_outcome _ _ _ _ _ _ _ Hrun) as [Hpools Hout].
    destruct r as [[file_path|]|e].
    + destruct Hout as (Hstd & parsed_url & resp & Hparse & Hpath & Hnet & Hst & _).
      assert (Py.is_empty file_path = false) as ->.
      { apply PyFacts.is_empty_false. subst file_path.
        apply join_nonempty, filename_of_nonempty. }
      simpl. unfold Os.bind at 1, Os.print.
      destruct (IH (acc ++ [file_path])
                  (Os.mkState (Os.fs s1) (Os.stdout s1 ++ [Os.SuccessfullyDownloaded file_path]) (Os.pools s1)))
        as (trace & s' & Hc & Hp & Hs & Hall).
      exists (Succeeded file_path :: trace), s'. simpl in *.
      rewrite Hc, Hp, Hs, Hstd, Hpools, <- !app_assoc. simpl.
      repeat split; try done.
      constructor; [|done]. simpl. split; [|by eauto].
      unfold destination. by rewrite Hparse, Hpath.
    + destruct Hout as (e & He & Hstd).
      destruct (IH acc s1) as (trace & s' & Hc & Hp & Hs & Hall).
      exists (Failed (Os.ErrorDownloading url e) :: trace), s'. simpl.
      rewrite Hc, Hp, Hs, Hstd, Hpools, <- !app_assoc. simpl.
      repeat split; try done. constructor; [|done].
      simpl. repeat split; eauto.
    + destruct Hout as (He & Hstd).
      unfold Exn.isinstance. rewrite issubclass_Exception.
      unfold Os.bind at 1, Os.print.
      destruct (IH acc
                  (Os.mkState (Os.fs s1) (Os.stdout s1 ++ [Os.DownloadFailed url e]) (Os.pools s1)))
        as (trace & s' & Hc & Hp & Hs & Hall).
      exists (Failed (Os.DownloadFailed url e) :: trace), s'. simpl in *.
      rewrite Hc, Hp, Hs, Hstd, Hpools, <- !app_assoc. simpl.
      repeat split; try done. constructor; [|done].
      simpl. repeat split; eauto.
Qed.

Lemma pool_size_pos cpu_count max_workers :
  valid_workers cpu_count max_workers -> 0 < pool_size cpu_count max_workers.
Proof. destruct max_workers; simpl; lia. Qed.

(** A whole run of the dispatcher. *)
Lemma download_files_parallel_trace cpu_count nets completed urls
    folder_path max_workers s :
  valid_workers cpu_count max_workers ->
  exists trace s',
    download_files_parallel cpu_count nets completed urls folder_path
      max_workers s = (Ok (omap path_of trace), s') /\
    Os.pools s' = Os.pools s ++ [pool_size cpu_count max_workers] /\
    Os.stdout s' =
      Os.stdout s ++ workers_line cpu_count max_workers ++ map line_of trace /\
    Forall2 (outcome_of nets folder_path) (submitted urls completed) trace.
Proof.
  intros Hvalid. apply pool_size_pos in Hvalid.
  unfold download_files_parallel, Os.bind at 1.
  set (s1 := Os.mkState (Os.fs s)
               (Os.stdout s ++ workers_line cpu_count max_workers) (Os.pools s)).
  assert (default_max_workers cpu_count max_workers s =
          (Ok (pool_size cpu_count max_workers), s1)) as ->.
  { unfold default_max_workers, s1.
    destruct max_workers; simpl; [|done].
    unfold Os.ret. rewrite app_nil_r. by destruct s. }
  unfold Os.bind at 1, ThreadPoolExecutor.
  destruct (Z.leb_spec (pool_size cpu_count max_workers) 0); [lia|].
  destruct (collect_trace nets urls folder_path completed []
              (Os.mkState (Os.fs s1) (Os.stdout s1)
                 (Os.pools s1 ++ [pool_size cpu_count max_workers])))
    as (trace & s' & Hc & Hp & Hs & Hall).
  exists trace, s'. rewrite Hc, Hp, Hs. simpl. rewrite <- app_assoc.
  by repeat split.
Qed.

Lemma elem_of_submitted urls completed future url :
  (future, url) ∈ submitted urls completed <->
  future ∈ completed /\ urls !! future = Some url.
Proof.
  unfold submitted. rewrite list_elem_of_omap. split.
  - intros (i & Hin & Hi).
    destruct (urls !! i) as [u|] eqn:Hu; simplify_eq/=. done.
  - intros [Hin Hu]. exists future. by rewrite Hu.
Qed.





(** *** Batches the file system lets be stored *)













End WithUrlLib.
End DispatcherFacts.

(** * download_files.py: the file name (lines 26-38) *)
Module FilenameTheorems.
Import DownloadFiles Spec FetcherFacts.

Lemma first_nonempty_two {lib : Url.Lib} (a b fallback : string) :
  first_nonempty [a; b] fallback =
  if Py.is_empty a then (if Py.is_empty b then fallback else b) else a.
Proof. by destruct a, b. Qed.

(** C5. For every URL the file name computed by [download_file] is the
    one the specification describes: the final segment of the
    percent-decoded URL path, else the last ["/"]-delimited token of
    the raw URL, else ["downloaded_file"]. For
    ["https://host/a/b/photo.jpg"] the name is [photo.jpg], and a call
    with the folder [downloads] stores it at [downloads/photo.jpg]. *)
Theorem C5_filename_derivation :
  (forall (lib : Url.Lib) (parsed_url : Url.ParseResult) (url : string),
      filename_of parsed_url url =
      destination_filename (Url.path parsed_url) url) /\
  (exists parsed_url,
      Url.urlparse (Lib := Url.cpython) "https://host/a/b/photo.jpg" = Ok parsed_url /\
      Url.path parsed_url = "/a/b/photo.jpg" /\
      filename_of (lib := Url.cpython) parsed_url "https://host/a/b/photo.jpg"
        = "photo.jpg") /\
  (fst (download_file (lib := Url.cpython) (Examples.answers 200 ["JPEG"])
          "https://host/a/b/photo.jpg" "downloads" 30 Examples.empty_machine)
     = Ok (Some "downloads/photo.jpg")).
Proof.
  split; [|split].
  - intros lib parsed_url url.
    unfold filename_of, destination_filename, final_segment.
    rewrite first_nonempty_two, PyFacts.basename_last_token.
    repeat match goal with
           | |- context [Py.is_empty ?x] => destruct (Py.is_empty x) eqn:?
           end; try done; congruence.
  - eexists. split; [vm_compute; reflexivity|]. split; by vm_compute.
  - by vm_compute.
Qed.

(** C6 as worded fails: ["https://host"] has an empty path, so no
    segment of it is non-empty, and its file name is the last token
    of the raw URL, ["host"], not the default. *)
Lemma C6_counterexample_bare_host :
  exists parsed_url,
    Url.urlparse (Lib := Url.cpython) "https://host" = Ok parsed_url /\
    Url.path parsed_url = EmptyString /\
    Forall (fun seg => seg = EmptyString)
           (Py.split "/" (Url.unquote (Lib := Url.cpython) (Url.path parsed_url))) /\
    filename_of (lib := Url.cpython) parsed_url "https://host" = "host" /\
    "host" <> "downloaded_file".
Proof.
  eexists. split; [vm_compute; reflexivity|].
  split; [done|]. split; [vm_compute; by repeat constructor|].
  split; [by vm_compute|done].
Qed.

Lemma last_item_all_empty (l : list string) :
  Forall (fun seg => seg = EmptyString) l -> Py.last_item l = EmptyString.
Proof.
  induction 1 as [|x [|y l] Hx Hl IH]; [done|done|].
  rewrite PyFacts.last_item_cons. apply IH.
Qed.

Lemma split_app_sep sep (a b : string) :
  Py.split sep (a ++ String sep b)%string =
  (Py.split sep a ++ Py.split sep b)%list.
Proof.
  induction a as [|c a IH].
  - change ("" ++ String sep b)%string with (String sep b).
    rewrite PyFacts.split_String, Ascii.eqb_refl. done.
  - rewrite append_String, !PyFacts.split_String, IH.
    destruct (Ascii.eqb c sep); [done|].
    pose proof (PyFacts.split_not_nil sep a).
    by destruct (Py.split sep a).
Qed.

Lemma last_token_app_sep sep (a b : string) :
  Py.last_item (Py.split sep (a ++ String sep b)%string) =
  Py.last_item (Py.split sep b).
Proof.
  rewrite split_app_sep. unfold Py.last_item.
  pose proof (PyFacts.split_not_nil sep b).
  destruct (Py.split sep b) as [|t l] using rev_ind; [done|].
  by rewrite app_assoc, !last_last.
Qed.

(** A string that ends with the separator has an empty last token. *)
Lemma last_token_endswith sep (s : string) :
  Py.endswith (String sep EmptyString) s = true ->
  Py.last_item (Py.split sep s) = EmptyString.
Proof.
  unfold Py.endswith. intros H. apply andb_true_iff in H as [Hlen Hdrop].
  apply Nat.leb_le in Hlen. apply String.eqb_eq in Hdrop.
  simpl in Hlen.
  assert (forall n (t : string), (n <= String.length t)%nat ->
            t = (Py.take n t ++ Py.drop n t)%string) as Hsplit.
  { induction n as [|n IHn]; intros [|c t] Ht; simpl in *; try done; try lia.
    rewrite append_String. f_equal. apply IHn. lia. }
  rewrite (Hsplit (String.length s - 1)%nat s) by lia.
  simpl in Hdrop. rewrite Hdrop.
  by rewrite last_token_app_sep.
Qed.

(** C6, amended: when no segment of the decoded path is non-empty and
    the raw URL is empty or ends with ["/"], the name is
    ["downloaded_file"]. *)
Theorem C6_default_name (lib : Url.Lib) (url : string)
    (parsed_url : Url.ParseResult) :
  Forall (fun seg => seg = EmptyString)
         (Py.split "/" (Url.unquote (Url.path parsed_url))) ->
  url = EmptyString \/ Py.endswith "/" url = true ->
  filename_of parsed_url url = "downloaded_file".
Proof.
  intros Hsegs Hurl. unfold filename_of.
  rewrite PyFacts.basename_last_token, (last_item_all_empty _ Hsegs). simpl.
  assert (Py.last_item (Py.split "/" url) = EmptyString) as ->; [|done].
  destruct Hurl as [->|Hends]; [done|].
  by apply last_token_endswith.
Qed.

Lemma C6_default_name_witness :
  Forall (fun seg => seg = EmptyString)
         (Py.split "/" (Url.unquote (Lib := Url.cpython) "/")) /\
  ("https://host/" = EmptyString \/ Py.endswith "/" "https://host/" = true) /\
  filename_of (lib := Url.cpython)
    (Url.mkParse "https" "host" "/" "" "" "") "https://host/" = "downloaded_file".
Proof.
  assert (Forall (fun seg => seg = EmptyString)
            (Py.split "/" (Url.unquote (Lib := Url.cpython) "/"))) as H1.
  { vm_compute. repeat constructor. }
  assert ("https://host/" = EmptyString \/ Py.endswith "/" "https://host/" = true) as H2.
  { right. vm_compute. reflexivity. }
  split; [exact H1|]. split; [exact H2|].
  exact (C6_default_name Url.cpython "https://host/"
           (Url.mkParse "https" "host" "/" "" "" "") H1 H2).
Defined.

End FilenameTheorems.

(** * download_files.py: the dispatcher (lines 73-116) *)
Module DispatcherTheorems.
Import DownloadFiles Spec FetcherFacts DispatcherFacts.
Local Open Scope list_scope.

(** C8. With [max_workers] unset, the pool the dispatcher creates has
    [min(cpu_count * 2, 32)] workers, and that is the number it
    prints. *)
Theorem C8_default_pool_size (lib : Url.Lib) (cpu_count : Z)
    (nets : nat -> Requests.network) (completed : list nat)
    (urls : list string) (folder_path : string) (s : state) :
  0 < cpu_count ->
  exists downloaded_files lines s',
    download_files_parallel cpu_count nets completed urls folder_path None s
      = (Ok downloaded_files, s') /\
    Os.pools s' = Os.pools s ++ [Z.min (cpu_count * 2) 32] /\
    Os.stdout s' =
      Os.stdout s ++
      Os.UsingWorkers (Z.min (cpu_count * 2) 32) cpu_count :: lines.
Proof.
  intros Hcpu.
  destruct (download_files_parallel_trace cpu_count nets completed urls
              folder_path None s Hcpu) as (trace & s' & Hrun & Hpools & Hout & _).
  exists (omap path_of trace), (map line_of trace), s'. by repeat split.
Qed.

Lemma C8_default_pool_size_witness :
  0 < 4 /\
  exists downloaded_files lines s',
    download_files_parallel (lib := Url.cpython) 4
      (fun _ => Examples.answers 200 ["x"]) [0%nat] ["https://host/a.bin"]
      "downloads" None Examples.empty_machine
      = (Ok downloaded_files, s') /\
    Os.pools s' = Os.pools Examples.empty_machine ++ [Z.min (4 * 2) 32] /\
    Os.stdout s' =
      Os.stdout Examples.empty_machine ++
      Os.UsingWorkers (Z.min (4 * 2) 32) 4 :: lines.
Proof.
  assert (0 < 4) as H by lia.
  split; [exact H|].
  exact (C8_default_pool_size Url.cpython 4
           (fun _ => Examples.answers 200 ["x"]) [0%nat] ["https://host/a.bin"]
           "downloads" Examples.empty_machine H).
Defined.



Lemma request_of_outcome {lib : Url.Lib} nets urls folder_path completed trace o :
  Forall2 (outcome_of nets folder_path) (submitted urls completed) trace ->
  o ∈ trace ->
  exists i url, i ∈ completed /\ urls !! i = Some url /\
                outcome_of nets folder_path (i, url) o.
Proof.
  intros Hall Ho.
  apply list_elem_of_lookup in Ho as [k Hk].
  destruct (Forall2_lookup_r _ _ _ _ _ Hall Hk) as ([i url] & Hr & Hout).
  exists i, url.
  assert ((i, url) ∈ submitted urls completed) as Hin.
  { apply list_elem_of_lookup. eauto. }
  apply elem_of_submitted in Hin as [? ?]. done.
Qed.





(** That batch on the empty file system: it can be stored, and the
    list returned is the path of the one request that was answered
    with a response to store. *)
Example batch_of_two :
  let urls := ["https://host/a.bin"; "https://host/missing.bin"] in
  let nets := fun i : nat =>
    if Nat.eqb i 0 then Examples.answers 200 ["x"] else Examples.answers 404 [] in
  batch_can_store (lib := Url.cpython) "downloads" urls Examples.empty_machine /\
  omap (stored_path (lib := Url.cpython) nets "downloads")
       (submitted urls [1%nat; 0%nat]) = ["downloads/a.bin"] /\
  fst (download_files_parallel (lib := Url.cpython) 4 nets [1%nat; 0%nat] urls
         "downloads" None Examples.empty_machine) = Ok ["downloads/a.bin"].
Proof.
  split; [|split; by vm_compute].
  split; [repeat split; by vm_compute|].
  intros url Hin.
  apply elem_of_cons in Hin as [->|Hin];
    [eexists; repeat split; vm_compute; reflexivity|].
  apply elem_of_cons in Hin as [->|Hin];
    [eexists; repeat split; vm_compute; reflexivity|].
  apply elem_of_nil in Hin. destruct Hin.
Qed.




(** That batch on the empty file system can be stored: the refused
    request leaves the other one its entry. *)
Example batch_with_a_refusal :
  let urls := ["https://host/a.bin"; "https://host/b.bin"] in
  let nets := fun i : nat =>
    if Nat.eqb i 0 then Examples.answers 200 ["x"]
    else Examples.fails_with Examples.connection_refused in
  batch_can_store (lib := Url.cpython) "downloads" urls Examples.empty_machine /\
  omap (stored_path (lib := Url.cpython) nets "downloads")
       (submitted urls [1%nat; 0%nat]) = ["downloads/a.bin"].
Proof.
  split; [|by vm_compute].
  split; [repeat split; by vm_compute|].
  intros url Hin.
  apply elem_of_cons in Hin as [->|Hin];
    [eexists; repeat split; vm_compute; reflexivity|].
  apply elem_of_cons in Hin as [->|Hin];
    [eexists; repeat split; vm_compute; reflexivity|].
  apply elem_of_nil in Hin. destruct Hin.
Qed.

(** C4 as worded fails: two URLs share the destination
    [downloads/x.jpg]; the first is answered with 404, the second is
    stored, and the path of the first URL is in the returned list.
    And a status outside 2xx on which [raise_for_status] does not
    raise, such as 304, is stored and returned like a success. *)
Lemma C4_counterexample_shared_name :
  let urls := ["https://a.example/x.jpg"; "https://b.example/x.jpg"] in
  let nets := fun i : nat =>
    if Nat.eqb i 0 then Examples.answers 404 []
    else Examples.answers 200 ["JPEG"] in
  completion_order urls [0%nat; 1%nat] /\
  Requests.is_http_error 404 = true /\
  destination (lib := Url.cpython) "downloads" "https://a.example/x.jpg"
    = Some "downloads/x.jpg" /\
  (exists s',
    download_files_parallel (lib := Url.cpython) 4 nets [0%nat; 1%nat] urls
      "downloads" None Examples.empty_machine
      = (Ok ["downloads/x.jpg"], s') /\
    "downloads/x.jpg" ∈ ["downloads/x.jpg"]) /\
  Requests.is_http_error 304 = false /\
  (exists s',
    download_files_parallel (lib := Url.cpython) 4
      (fun _ => Examples.answers 304 []) [0%nat] ["https://a.example/x.jpg"]
      "downloads" None Examples.empty_machine
      = (Ok ["downloads/x.jpg"], s')).
Proof.
  split; [by vm_compute|]. split; [done|]. split; [by vm_compute|].
  split; [eexists; split; [by vm_compute|by left]|].
  split; [done|]. eexists. by vm_compute.
Qed.

(** C4, amended: a request answered with an error status (4xx, 5xx)
    never makes [download_file] return a path, and it adds no entry to
    the returned list: wherever the path of its URL occurs in the
    list, another request of the batch with the same destination was
    stored there. *)
Theorem C4_http_error_adds_no_entry (lib : Url.Lib) (cpu_count : Z)
    (nets : nat -> Requests.network) (completed : list nat)
    (urls : list string) (folder_path : string)
    (max_workers : option Z) (s : state)
    (i : nat) (url : string) (r : Requests.Response) :
  completion_order urls completed ->
  valid_workers cpu_count max_workers ->
  urls !! i = Some url ->
  nets i url 30 = Requests.GetReturns r ->
  Requests.is_http_error (Requests.status_code r) = true ->
  (forall s0 file_path s1,
      download_file (nets i) url folder_path 30 s0 <> (Ok (Some file_path), s1)) /\
  exists downloaded_files s',
    download_files_parallel cpu_count nets completed urls folder_path
      max_workers s = (Ok downloaded_files, s') /\
    forall file_path,
      destination folder_path url = Some file_path ->
      file_path ∈ downloaded_files ->
      exists j url' resp,
        j <> i /\ urls !! j = Some url' /\
        destination folder_path url' = Some file_path /\
        nets j url' 30 = Requests.GetReturns resp /\ storable resp.
Proof.
  intros Horder Hvalid Hurl Hnet Herr. split.
  - intros s0 file_path s1 Hrun.
    apply download_file_outcome in Hrun as (_ & _ & ? & resp & _ & _ & Hnet' & Hst & _).
    rewrite Hnet in Hnet'. injection Hnet' as <-.
    destruct Hst as [Hok _]. congruence.
  - destruct (download_files_parallel_trace cpu_count nets completed urls
                folder_path max_workers s Hvalid)
      as (trace & s' & Hrun & _ & _ & Hall).
    exists (omap path_of trace), s'. split; [done|].
    intros file_path _ Hin.
    apply list_elem_of_omap in Hin as (o & Ho & Hpath).
    destruct o as [p|line]; simplify_eq/=.
    destruct (request_of_outcome _ _ _ _ _ _ Hall Ho)
      as (j & url' & _ & Hj & Hdest & resp & Hnet' & Hst).
    exists j, url', resp. split; [|done].
    intros ->. rewrite Hurl in Hj. injection Hj as <-.
    rewrite Hnet in Hnet'. injection Hnet' as <-.
    destruct Hst as [Hok _]. congruence.
Qed.

Lemma C4_http_error_adds_no_entry_witness :
  let urls := ["https://a.example/x.jpg"; "https://b.example/x.jpg"] in
  let nets := fun i : nat =>
    if Nat.eqb i 0 then Examples.answers 404 []
    else Examples.answers 200 ["JPEG"] in
  let r := Requests.mkResponse 404 Requests.Absent [] Requests.EndOfStream in
  completion_order urls [1%nat; 0%nat] /\
  valid_workers 4 None /\
  urls !! 0%nat = Some "https://a.example/x.jpg" /\
  nets 0%nat "https://a.example/x.jpg" 30 = Requests.GetReturns r /\
  Requests.is_http_error (Requests.status_code r) = true /\
  (forall s0 file_path s1,
      download_file (lib := Url.cpython) (nets 0%nat) "https://a.example/x.jpg"
        "downloads" 30 s0 <> (Ok (Some file_path), s1)) /\
  exists downloaded_files s',
    download_files_parallel (lib := Url.cpython) 4 nets [1%nat; 0%nat] urls
      "downloads" None Examples.empty_machine = (Ok downloaded_files, s') /\
    forall file_path,
      destination (lib := Url.cpython) "downloads" "https://a.example/x.jpg"
        = Some file_path ->
      file_path ∈ downloaded_files ->
      exists j url' resp,
        j <> 0%nat /\ urls !! j = Some url' /\
        destination (lib := Url.cpython) "downloads" url' = Some file_path /\
        nets j url' 30 = Requests.GetReturns resp /\ storable resp.
Proof.
  intros urls nets r.
  assert (completion_order urls [1%nat; 0%nat]) as H1.
  { unfold completion_order, urls. simpl. apply perm_swap. }
  assert (valid_workers 4 None) as H2 by (simpl; lia).
  assert (urls !! 0%nat = Some "https://a.example/x.jpg") as H3 by reflexivity.
  assert (nets 0%nat "https://a.example/x.jpg" 30 = Requests.GetReturns r)
    as H4 by reflexivity.
  assert (Requests.is_http_error (Requests.status_code r) = true)
    as H5 by reflexivity.
  split; [exact H1|]. split; [exact H2|]. split; [exact H3|].
  split; [exact H4|]. split; [exact H5|].
  exact (C4_http_error_adds_no_entry Url.cpython 4 nets _ urls "downloads"
           None Examples.empty_machine 0%nat _ r H1 H2 H3 H4 H5).
Defined.

End DispatcherTheorems.

(** * download_files.py: the fetcher (lines 10-70) *)
Module FetcherTheorems.
Import DownloadFiles Spec FetcherFacts.
Local Open Scope list_scope.

(** C2 as worded fails: a read timeout, a 404 and a refused connection
    all end in the same outcome, [None]; the timeout is reported by
    the clause for [RequestException], as the other two are, and the
    line of the [Timeout] clause is not printed. A status outside 2xx
    that [raise_for_status] lets pass, such as 304, is no failure at
    all: the body is stored and the path returned. *)
Lemma C2_counterexample_same_outcome :
  let url := "https://host/slow.bin" in
  let run := fun net =>
    download_file (lib := Url.cpython) net url "downloads" 30
      Examples.empty_machine in
  Exn.isinstance Examples.read_timeout Exn.Timeout = true /\
  fst (run (Examples.fails_with Examples.read_timeout)) = Ok None /\
  fst (run (Examples.answers 404 [])) = Ok None /\
  fst (run (Examples.fails_with Examples.connection_refused)) = Ok None /\
  Os.stdout (snd (run (Examples.fails_with Examples.read_timeout)))
    = [Os.ErrorDownloading url Examples.read_timeout] /\
  Os.stdout (snd (run (Examples.fails_with Examples.read_timeout)))
    <> [Os.TimeoutDownloading url] /\
  fst (run (Examples.answers 304 [])) = Ok (Some "downloads/slow.bin").
Proof. repeat split; by vm_compute. Qed.

Lemma http_error_is_request_exception r :
  Exn.isinstance (Requests.http_error r) Exn.RequestException = true.
Proof. reflexivity. Qed.

(** C2, amended: when the call reaches its request (the folder can be
    made, the URL parses) and the request times out, is answered with
    an error status (4xx, 5xx) or fails in transport with another
    [requests] exception, [download_file] does not raise: it prints
    one line naming the URL and returns [None], having made the folder
    and the directories above it and nothing else. Error statuses and
    transport failures other than timeouts are reported alike, by the
    line ["Error downloading <url>: <e>"]. *)
Theorem C2_request_failures_return_None (lib : Url.Lib)
    (net : Requests.network) (url folder_path : string) (timeout : Z)
    (s : state) (parsed_url : Url.ParseResult) (e : exn) :
  can_make folder_path s ->
  Url.urlparse url = Ok parsed_url ->
  request_fails net url timeout e ->
  exists s',
    download_file net url folder_path timeout s = (Ok None, s') /\
    Os.fs s' = Os.fs (made folder_path s) /\
    (exists line, Os.stdout s' = Os.stdout s ++ [line] /\
                  failure_line_for url line) /\
    (Exn.isinstance e Exn.Timeout = false ->
     Os.stdout s' = Os.stdout s ++ [Os.ErrorDownloading url e]).
Proof.
  intros (Hfolder & Hfile & Hup) Hparse Hfails.
  exists (logged (made folder_path s) (Os.ErrorDownloading url e)).
  assert (download_file net url folder_path timeout s =
          (Ok None, logged (made folder_path s) (Os.ErrorDownloading url e)))
    as Hrun.
  { rewrite download_file_run, download_file_try_run, Hfolder, Hfile, Hup, Hparse.
    cbv zeta.
    destruct Hfails as [[-> He]|(r & -> & Herr & ->)].
    - by rewrite He.
    - by rewrite Herr, http_error_is_request_exception. }
  split; [done|]. split; [done|]. split; [|done].
  by exists (Os.ErrorDownloading url e).
Qed.

Lemma C2_request_failures_return_None_witness :
  let url := "https://host/slow.bin" in
  let net := Examples.fails_with Examples.connection_refused in
  let parsed_url := Url.mkParse "https" "host" "/slow.bin" "" "" "" in
  let s := Os.mkState {["var" := Dir]} [] [] in
  can_make "var/cache/downloads" s /\
  Url.urlparse (Lib := Url.cpython) url = Ok parsed_url /\
  request_fails net url 30 Examples.connection_refused /\
  exists s',
    download_file (lib := Url.cpython) net url "var/cache/downloads" 30 s
      = (Ok None, s') /\
    Os.fs s' = Os.fs (made "var/cache/downloads" s) /\
    (exists line, Os.stdout s' = Os.stdout s ++ [line] /\
                  failure_line_for url line) /\
    (Exn.isinstance Examples.connection_refused Exn.Timeout = false ->
     Os.stdout s' = Os.stdout s
                      ++ [Os.ErrorDownloading url Examples.connection_refused]).
Proof.
  intros url net parsed_url s.
  assert (can_make "var/cache/downloads" s) as H1
    by (repeat split; vm_compute; reflexivity).
  assert (Url.urlparse (Lib := Url.cpython) url = Ok parsed_url)
    as H2 by (vm_compute; reflexivity).
  assert (request_fails net url 30 Examples.connection_refused) as H3.
  { left. split; reflexivity. }
  split; [exact H1|]. split; [exact H2|]. split; [exact H3|].
  exact (C2_request_failures_return_None Url.cpython net url
           "var/cache/downloads" 30 s parsed_url Examples.connection_refused
           H1 H2 H3).
Defined.

(** The folder made in that run, with the directories above it. *)
Example nested_folder_is_made :
  let s := Os.mkState {["var" := Dir]} [] [] in
  Os.ancestors "var/cache/downloads" = ["var"; "var/cache"] /\
  Os.fs (made "var/cache/downloads" s) !! "var/cache" = Some Dir /\
  Os.fs (made "var/cache/downloads" s) !! "var/cache/downloads" = Some Dir /\
  Os.ancestors "/srv/files/" = ["/srv"] /\
  Os.ancestors "a//b" = ["a"].
Proof. repeat split; by vm_compute. Qed.

(** X1. An exception of class [requests.Timeout] (or of a subclass) is
    taken by the first [except] clause, the one for
    [requests.RequestException]: the line printed is ["Error
    downloading ..."], and the clause written for timeouts is not
    reached. *)
Theorem X1_timeout_taken_by_first_clause (url : string) (e : exn) (s : state) :
  Exn.isinstance e Exn.Timeout = true ->
  download_file_except url e s =
  (Ok None, logged s (Os.ErrorDownloading url e)).
Proof.
  intros Htimeout. unfold download_file_except.
  assert (Exn.isinstance e Exn.RequestException = true) as ->; [|done].
  unfold Exn.isinstance in *. by destruct (Exn.class e).
Qed.

Lemma X1_timeout_taken_by_first_clause_witness :
  Exn.isinstance Examples.read_timeout Exn.Timeout = true /\
  download_file_except "https://host/slow.bin" Examples.read_timeout
    Examples.empty_machine =
  (Ok None, logged Examples.empty_machine
              (Os.ErrorDownloading "https://host/slow.bin" Examples.read_timeout)).
Proof.
  assert (Exn.isinstance Examples.read_timeout Exn.Timeout = true) as H
    by reflexivity.
  split; [exact H|].
  exact (X1_timeout_taken_by_first_clause "https://host/slow.bin"
           Examples.read_timeout Examples.empty_machine H).
Defined.

Lemma dom_stored file_path r s :
  is_Some (Os.fs s !! file_path) ->
  dom (Os.fs (stored file_path r s)) = dom (Os.fs s).
Proof.
  intros Hin. unfold stored, with_fs; simpl.
  rewrite dom_insert_L.
  apply subseteq_union_1_L, singleton_subseteq_l. by apply elem_of_dom.
Qed.

(** C7. After a call of [download_file] that stored a file, a second
    call with the same URL and folder creates no new file or
    directory whatever the network does, can only return the same
    path, and, when the response is one it stores, returns that path
    without raising, the file now holding the new body. *)
Theorem C7_second_call_same_path (lib : Url.Lib)
    (net1 net2 : Requests.network) (url folder_path : string)
    (timeout1 timeout2 : Z) (s0 s1 : state) (file_path : string) :
  download_file net1 url folder_path timeout1 s0 = (Ok (Some file_path), s1) ->
  (forall r2 s2,
      download_file net2 url folder_path timeout2 s1 = (r2, s2) ->
      dom (Os.fs s2) = dom (Os.fs s1) /\
      forall file_path', r2 = Ok (Some file_path') -> file_path' = file_path) /\
  (forall resp,
      net2 url timeout2 = Requests.GetReturns resp ->
      storable resp ->
      exists s2,
        download_file net2 url folder_path timeout2 s1
          = (Ok (Some file_path), s2) /\
        Os.fs s2 = <[file_path := File (body resp)]> (Os.fs s1)).
Proof.
  intros Hfirst.
  apply download_file_outcome in Hfirst
    as (_ & _ & parsed_url & resp1 & Hparse & Hpath & _ & _ & Hmake & _ & Hs1).
  destruct Hmake as (Hfolder & _ & _).
  destruct (join_not_made folder_path _ (filename_of_nonempty parsed_url url)
              (filename_of_no_slash parsed_url url)) as [Hne Hup].
  rewrite <- Hpath in Hne, Hup.
  assert (forall p, p = folder_path \/ p ∈ Os.ancestors folder_path ->
                    Os.fs s1 !! p = Some Dir) as Hdirs.
  { intros p Hp. subst s1. unfold stored, with_fs. cbn [Os.fs].
    rewrite lookup_insert_ne; [by apply lookup_made_in|].
    intros <-. by destruct Hp. }
  assert (Os.fs s1 !! file_path = Some (File (body resp1))) as Hfile.
  { subst s1. unfold stored, with_fs. cbn [Os.fs]. apply lookup_insert_eq. }
  assert (made folder_path s1 = s1) as Hmade.
  { apply made_id; [|intros p Hp]; apply Hdirs; auto. }
  assert (Os.is_file (Os.fs s1 !! folder_path) = false) as Hisfile.
  { rewrite Hdirs; auto. }
  assert (Os.blocked (Os.fs s1) folder_path = false) as Hblocked.
  { apply blocked_false. intros p Hp. rewrite Hdirs; auto. }
  assert (Os.opens_directory (Os.fs s1) file_path = false) as Hopen.
  { unfold Os.opens_directory. by rewrite Hfile. }
  assert (forall r2 s2,
    download_file net2 url folder_path timeout2 s1 = (r2, s2) ->
    (Os.fs s2 = Os.fs s1 \/ exists resp, Os.fs s2 = Os.fs (stored file_path resp s1)) /\
    forall file_path', r2 = Ok (Some file_path') -> file_path' = file_path) as Hsecond.
  { intros r2 s2.
    rewrite download_file_run, download_file_try_run, Hfolder, Hisfile,
      Hblocked, Hparse.
    cbv zeta. rewrite Hmade, <- Hpath, Hopen.
    intros Hrun.
    repeat case_match; simplify_eq; simpl; split; eauto; congruence. }
  split.
  - intros r2 s2 Hrun. destruct (Hsecond _ _ Hrun) as [Hfs Hsame].
    split; [|done].
    destruct Hfs as [->|[resp ->]]; [done|]. by apply dom_stored.
  - intros resp Hnet (Hstatus & Hlen & Hend).
    exists (stored file_path resp s1). split; [|done].
    rewrite download_file_run, download_file_try_run, Hfolder, Hisfile,
      Hblocked, Hparse.
    cbv zeta. rewrite Hmade, <- Hpath, Hopen, Hnet, Hstatus, Hend.
    by destruct (Requests.content_length resp) as [|[n|]].
Qed.

Lemma C7_second_call_same_path_witness :
  let url := "https://host/a/b/photo.jpg" in
  let net1 := Examples.answers 200 ["old"] in
  let net2 := Examples.answers 200 ["new"; ""; "er"] in
  let first := download_file (lib := Url.cpython) net1 url "downloads" 30
                 Examples.empty_machine in
  first = (Ok (Some "downloads/photo.jpg"), snd first) /\
  (forall r2 s2,
      download_file (lib := Url.cpython) net2 url "downloads" 5 (snd first)
        = (r2, s2) ->
      dom (Os.fs s2) = dom (Os.fs (snd first)) /\
      forall file_path', r2 = Ok (Some file_path') ->
                         file_path' = "downloads/photo.jpg") /\
  (forall resp,
      net2 url 5 = Requests.GetReturns resp ->
      storable resp ->
      exists s2,
        download_file (lib := Url.cpython) net2 url "downloads" 5 (snd first)
          = (Ok (Some "downloads/photo.jpg"), s2) /\
        Os.fs s2 = <["downloads/photo.jpg" := File (body resp)]>
                     (Os.fs (snd first))).
Proof.
  intros url net1 net2 first.
  assert (first = (Ok (Some "downloads/photo.jpg"), snd first)) as H
    by (vm_compute; reflexivity).
  split; [exact H|].
  exact (C7_second_call_same_path Url.cpython net1 net2 url "downloads" 30 5
           Examples.empty_machine (snd first) "downloads/photo.jpg" H).
Defined.

End FetcherTheorems.

(** * remove_first_line_in_file.py (lines 3-8) *)
Module RemoveFirstLineTheorems.
Import RemoveFirstLine Spec FetcherFacts.
Local Open Scope list_scope.

Lemma writelines_run path lines s c :
  Os.fs s !! path = Some (File c) ->
  writelines path lines s =
  (Ok tt, with_fs s (<[path := File (c ++ join_lines lines)]> (Os.fs s))).
Proof.
  revert s c. induction lines as [|line rest IH]; intros s c Hc.
  - simpl. rewrite append_nil_r. unfold Os.ret.
    rewrite insert_id by done. by rewrite with_fs_id.
  - simpl. unfold Os.bind at 1.
    unfold Os.file_write, Os.bind, Os.get_fs, Os.put_fs. rewrite Hc.
    erewrite IH; [|simpl; apply lookup_insert_eq].
    unfold with_fs; simpl. by rewrite insert_insert_eq, append_assoc.
Qed.

Lemma text_lines_String c rest :
  Ascii.eqb c LF = false -> Ascii.eqb c CR = false ->
  text_lines (String c rest) =
  match text_lines rest with
  | [] => [String c EmptyString]
  | line :: lines => String c line :: lines
  end.
Proof. intros H1 H2. simpl. by rewrite H1, H2. Qed.

Lemma no_newline_String c s :
  no_newline (String c s) = true <->
  Ascii.eqb c LF = false /\ Ascii.eqb c CR = false /\ no_newline s = true.
Proof.
  simpl. rewrite !andb_true_iff, !negb_true_iff. tauto.
Qed.

Lemma terminated_String c line :
  Ascii.eqb c LF = false -> Ascii.eqb c CR = false ->
  terminated line -> terminated (String c line).
Proof.
  intros H1 H2 (t & -> & Ht). exists (String c t). split; [done|].
  by apply no_newline_String.
Qed.

(** The lines of a text end with a line feed, except possibly the
    last one. *)
Lemma text_lines_shape content : lines_of_a_file (text_lines content).
Proof.
  assert (forall n content, (String.length content <= n)%nat ->
                            lines_of_a_file (text_lines content)) as H;
    [|by apply (H (String.length content))].
  clear content. induction n as [|n IH]; intros [|c rest] Hlen; simpl in Hlen;
    try done; try lia.
  assert (terminated (String LF EmptyString)) as Hlf by by exists EmptyString.
  simpl.
  destruct (Ascii.eqb c LF) eqn:H1.
  { split; [by left|]. apply IH. lia. }
  destruct (Ascii.eqb c CR) eqn:H2.
  { destruct rest as [|d rest']; [by split; [left|]|].
    destruct (Ascii.eqb d LF); (split; [by left|]); apply IH; simpl in *; lia. }
  assert (lines_of_a_file (text_lines rest)) as Hrest by (apply IH; lia).
  destruct (text_lines rest) as [|line lines].
  - split; [|done]. right. split; [|done]. split; [done|].
    by apply no_newline_String.
  - destruct Hrest as [[Ht|[[Hne Hnn] ->]] Hlines]; (split; [|done]).
    + left. by apply terminated_String.
    + right. split; [|done]. split; [done|]. by apply no_newline_String.
Qed.

Lemma lines_of_a_file_drop k lines :
  lines_of_a_file lines -> lines_of_a_file (drop k lines).
Proof.
  revert lines. induction k as [|k IH]; intros [|line rest]; try done.
  intros [_ Hrest]. by apply IH.
Qed.

Lemma text_lines_terminated t rest :
  no_newline t = true ->
  text_lines (t ++ String LF rest)%string =
  (t ++ String LF EmptyString)%string :: text_lines rest.
Proof.
  induction t as [|c t IH]; intros Ht.
  - change (text_lines (String LF rest) =
            String LF EmptyString :: text_lines rest).
    reflexivity.
  - apply no_newline_String in Ht as (H1 & H2 & Ht).
    rewrite !append_String, text_lines_String, IH by done. done.
Qed.

Lemma text_lines_unterminated line :
  unterminated line -> text_lines line = [line].
Proof.
  intros [Hne Hnn]. induction line as [|c line IH]; [done|].
  apply no_newline_String in Hnn as (H1 & H2 & Hnn).
  rewrite text_lines_String by done.
  destruct line as [|d line]; [done|].
  by rewrite IH.
Qed.

(** Reading back what [writelines] wrote gives the lines written. *)
Lemma text_lines_join_lines lines :
  lines_of_a_file lines -> text_lines (join_lines lines) = lines.
Proof.
  induction lines as [|line rest IH]; [done|].
  intros [[(t & -> & Ht)|[Hun ->]] Hrest]; simpl.
  - rewrite append_assoc. change (String LF "" ++ join_lines rest)%string
      with (String LF (join_lines rest)).
    by rewrite text_lines_terminated, IH.
  - rewrite append_nil_r. by apply text_lines_unterminated.
Qed.

(** *** Decoding *)

Lemma utf8_valid_run s :
  Py.utf8_valid s = true <-> Py.utf8_run Py.Utf8Start s = Some Py.Utf8Start.
Proof.
  unfold Py.utf8_valid.
  destruct (Py.utf8_run Py.Utf8Start s) as [[]|]; split; congruence.
Qed.

Lemma utf8_run_String st c s :
  Py.utf8_run st (String c s) =
  match Py.utf8_step st (nat_of_ascii c) with
  | Some st' => Py.utf8_run st' s
  | None => None
  end.
Proof. reflexivity. Qed.

Lemma utf8_run_app st (a b : string) :
  Py.utf8_run st (a ++ b) =
  match Py.utf8_run st a with
  | Some st' => Py.utf8_run st' b
  | None => None
  end.
Proof.
  revert st. induction a as [|c a IH]; intros st; [done|].
  rewrite append_String, !utf8_run_String.
  destruct (Py.utf8_step st (nat_of_ascii c)); [apply IH|done].
Qed.

(** A line end is a character of its own: the decoder takes it at the
    start of a character only. *)
Lemma utf8_step_newline st c :
  c = LF \/ c = CR ->
  Py.utf8_step st (nat_of_ascii c) =
  match st with Py.Utf8Start => Some Py.Utf8Start | _ => None end.
Proof. intros [->| ->]; by destruct st. Qed.

Lemma utf8_valid_app (a b : string) :
  Py.utf8_valid a = true -> Py.utf8_valid b = true ->
  Py.utf8_valid (a ++ b) = true.
Proof.
  rewrite !utf8_valid_run, utf8_run_app. by intros ->.
Qed.

Lemma utf8_valid_join_lines lines :
  Forall (fun line => Py.utf8_valid line = true) lines ->
  Py.utf8_valid (join_lines lines) = true.
Proof.
  induction 1 as [|line lines Hline _ IH]; [done|].
  simpl. by apply utf8_valid_app.
Qed.

(** Each line of a text that decodes decodes by itself. *)
Lemma text_lines_decode n :
  forall text st,
    (String.length text <= n)%nat ->
    Py.utf8_run st text = Some Py.Utf8Start ->
    match text_lines text with
    | [] => st = Py.Utf8Start
    | line :: lines =>
        Py.utf8_run st line = Some Py.Utf8Start /\
        Forall (fun l => Py.utf8_valid l = true) lines
    end.
Proof.
  induction n as [|n IH]; intros [|c rest] st Hlen Hrun; simpl in Hlen;
    try lia; try (simpl in *; congruence).
  assert (forall text, (String.length text <= n)%nat ->
            Py.utf8_run Py.Utf8Start text = Some Py.Utf8Start ->
            Forall (fun l => Py.utf8_valid l = true) (text_lines text)) as Hall.
  { intros text Ht Hr. specialize (IH text _ Ht Hr).
    destruct (text_lines text) as [|l ls]; [constructor|].
    destruct IH as [Hl Hls]. constructor; [by apply utf8_valid_run|done]. }
  rewrite utf8_run_String in Hrun.
  cbn [text_lines].
  destruct (Ascii.eqb c LF) eqn:H1.
  { apply Ascii.eqb_eq in H1 as ->.
    rewrite utf8_step_newline in Hrun by auto.
    destruct st; try discriminate Hrun.
    split; [done|]. apply Hall; [lia|done]. }
  destruct (Ascii.eqb c CR) eqn:H2.
  { apply Ascii.eqb_eq in H2 as ->.
    rewrite utf8_step_newline in Hrun by auto.
    destruct st; try discriminate Hrun.
    destruct rest as [|d rest']; [by split|].
    destruct (Ascii.eqb d LF) eqn:H3.
    - apply Ascii.eqb_eq in H3 as ->.
      rewrite utf8_run_String, utf8_step_newline in Hrun by auto.
      split; [done|]. apply Hall; [simpl in Hlen; lia|done].
    - split; [done|]. apply Hall; [lia|done]. }
  destruct (Py.utf8_step st (nat_of_ascii c)) as [st1|] eqn:Hstep;
    [|discriminate Hrun].
  specialize (IH rest st1 ltac:(lia) Hrun).
  destruct (text_lines rest) as [|line lines].
  - subst st1. split; [|constructor]. by rewrite utf8_run_String, Hstep.
  - destruct IH as [Hl Hls]. split; [|done]. by rewrite utf8_run_String, Hstep.
Qed.

Lemma text_lines_valid text :
  Py.utf8_valid text = true ->
  Forall (fun l => Py.utf8_valid l = true) (text_lines text).
Proof.
  intros Hv. apply utf8_valid_run in Hv.
  pose proof (text_lines_decode _ text _ (le_n _) Hv) as H.
  destruct (text_lines text) as [|l ls]; [constructor|].
  destruct H as [Hl Hls]. constructor; [by apply utf8_valid_run|done].
Qed.

(** What [readlines] returns when it returns. *)
Lemma readlines_Ok content lines :
  readlines content = Ok lines <->
  Py.utf8_valid content = true /\ lines = text_lines content.
Proof.
  unfold readlines. destruct (Py.utf8_valid content); split.
  - by intros [= <-].
  - by intros [_ ->].
  - discriminate.
  - by intros [? _].
Qed.

Lemma readlines_shape content lines :
  readlines content = Ok lines -> lines_of_a_file lines.
Proof. intros [_ ->]%readlines_Ok. apply text_lines_shape. Qed.

(** Reading back what [writelines] wrote, from lines that were read,
    gives the lines written. *)
Lemma readlines_join_lines content lines k :
  readlines content = Ok lines ->
  readlines (join_lines (drop k lines)) = Ok (drop k lines).
Proof.
  intros [Hv ->]%readlines_Ok. apply readlines_Ok. split.
  - apply utf8_valid_join_lines, Forall_drop. by apply text_lines_valid.
  - symmetry. apply text_lines_join_lines, lines_of_a_file_drop, text_lines_shape.
Qed.

(** How a call of [remove_first_line] ends: with an exception and
    nothing changed when the path is no regular file or its bytes do
    not decode, with the file rewritten otherwise. *)
Lemma remove_first_line_cases file_path s :
  remove_first_line file_path s =
  match Os.fs s !! file_path with
  | Some (File content) =>
      match readlines content with
      | Ok lines =>
          (Ok tt, with_fs s (<[file_path := File (join_lines (drop 2 lines))]>
                               (Os.fs s)))
      | Raised e => (Raised e, s)
      end
  | Some Dir => (Raised (Os.error Exn.IsADirectoryError file_path), s)
  | None => (Raised (Os.error Exn.FileNotFoundError file_path), s)
  end.
Proof.
  unfold remove_first_line.
  unfold Os.bind at 1, Os.open_read, Os.bind at 1, Os.get_fs.
  destruct (Os.fs s !! file_path) as [[content|]|] eqn:Hc; try done.
  unfold Os.ret at 1. unfold Os.bind at 1, Os.lift.
  destruct (readlines content) as [lines|e]; [|done].
  unfold Os.bind at 1, Os.open_write, Os.bind at 1, Os.get_fs.
  unfold Os.opens_directory. rewrite Hc. unfold Os.put_fs.
  erewrite writelines_run; [|simpl; apply lookup_insert_eq].
  unfold with_fs; simpl. by rewrite insert_insert_eq.
Qed.

Lemma remove_first_line_run file_path content lines s :
  Os.fs s !! file_path = Some (File content) ->
  readlines content = Ok lines ->
  remove_first_line file_path s =
  (Ok tt, with_fs s (<[file_path := File (join_lines (drop 2 lines))]> (Os.fs s))).
Proof. intros Hc Hl. by rewrite remove_first_line_cases, Hc, Hl. Qed.

(** C9 as worded fails: "for every file" takes in the files whose
    bytes are no text in the encoding [open] uses. On this one, whose
    third line holds the byte [0xff], [readlines] raises
    [UnicodeDecodeError]; the file is not opened for writing and keeps
    its four lines. *)
Lemma C9_counterexample_undecodable :
  let content :=
    ("a" ++ String LF ("b" ++ String LF
       (String "c" (String "255" (String LF ("d" ++ String LF ""))))))%string in
  let s := Os.mkState {["note.md" := File content]} [] [] in
  Os.fs s !! "note.md" = Some (File content) /\
  length (text_lines content) = 4%nat /\
  (exists e, remove_first_line "note.md" s = (Raised e, s) /\
             Exn.class e = Exn.UnicodeDecodeError) /\
  Os.fs (snd (remove_first_line "note.md" s)) !! "note.md" = Some (File content) /\
  content <> join_lines (drop 2 (text_lines content)).
Proof.
  split; [by vm_compute|]. split; [by vm_compute|].
  split; [eexists; split; by vm_compute|].
  split; [by vm_compute|]. vm_compute. discriminate.
Qed.

(** C9, amended. On a regular file whose bytes decode,
    [remove_first_line] returns normally and leaves in it the lines
    from index 2 on: reading the file again gives [lines[2:]] of the
    lines read before, which is not [lines[1:]] when there were at
    least two lines, and a file of at most two lines becomes empty.
    Nothing else changes. *)
Theorem C9_remove_first_line_drops_two (file_path content : string)
    (lines : list string) (s : state) :
  Os.fs s !! file_path = Some (File content) ->
  readlines content = Ok lines ->
  exists s' content',
    remove_first_line file_path s = (Ok tt, s') /\
    Os.fs s' = <[file_path := File content']> (Os.fs s) /\
    Os.stdout s' = Os.stdout s /\
    content' = join_lines (drop 2 lines) /\
    readlines content' = Ok (drop 2 lines) /\
    ((2 <= length lines)%nat -> readlines content' <> Ok (drop 1 lines)) /\
    ((length lines <= 2)%nat -> content' = EmptyString).
Proof.
  intros Hc Hl.
  eexists _, (join_lines (drop 2 lines)).
  split; [by apply (remove_first_line_run _ content)|].
  pose proof (readlines_join_lines content lines 2 Hl) as Hread.
  repeat split; try done.
  - intros Hlen. rewrite Hread. intros [= Heq].
    apply (f_equal length) in Heq. rewrite !length_drop in Heq. lia.
  - intros Hlen. rewrite drop_ge by done. done.
Qed.

Lemma C9_remove_first_line_drops_two_witness :
  let content :=
    ("# title" ++ String LF ("" ++ String CR (String LF ("body" ++ String LF "end"))))%string in
  let lines :=
    [("# title" ++ String LF "")%string; String LF ""; ("body" ++ String LF "")%string;
     "end"] in
  let s := Os.mkState {["note.md" := File content]} [] [] in
  Os.fs s !! "note.md" = Some (File content) /\
  readlines content = Ok lines /\
  exists s' content',
    remove_first_line "note.md" s = (Ok tt, s') /\
    Os.fs s' = <["note.md" := File content']> (Os.fs s) /\
    Os.stdout s' = Os.stdout s /\
    content' = join_lines (drop 2 lines) /\
    readlines content' = Ok (drop 2 lines) /\
    ((2 <= length lines)%nat -> readlines content' <> Ok (drop 1 lines)) /\
    ((length lines <= 2)%nat -> content' = EmptyString).
Proof.
  intros content lines s.
  assert (Os.fs s !! "note.md" = Some (File content)) as H1
    by (vm_compute; reflexivity).
  assert (readlines content = Ok lines) as H2 by (vm_compute; reflexivity).
  split; [exact H1|]. split; [exact H2|].
  exact (C9_remove_first_line_drops_two "note.md" content lines s H1 H2).
Defined.

End RemoveFirstLineTheorems.

(** * rename_file.py (lines 8-13) *)
Module RenameFileTheorems.
Import RenameFile Spec.
Local Open Scope list_scope.

Lemma replace_removes c s : Py.contains c (Py.replace c EmptyString s) = false.
Proof.
  induction s as [|a s IH]; [done|].
  simpl. destruct (Ascii.eqb a c) eqn:Ha; [done|].
  simpl. by rewrite Ha.
Qed.

Lemma fnmatch_star pat name :
  fnmatch (String "*" pat) name =
  fnmatch pat name ||
  match name with
  | EmptyString => false
  | String _ name' => fnmatch (String "*" pat) name'
  end.
Proof. by destruct name. Qed.

Lemma fnmatch_literal c pat name :
  Ascii.eqb c "*" = false -> Ascii.eqb c "?" = false ->
  fnmatch (String c pat) name =
  match name with
  | EmptyString => false
  | String d name' => Ascii.eqb c d && fnmatch pat name'
  end.
Proof. intros H1 H2. simpl. rewrite H1. destruct name; [done|]. by rewrite H2. Qed.

(** A name matched by ["*.mp4"] holds a dot. *)
Lemma mp4_has_dot name :
  fnmatch "*.mp4" name = true -> Py.contains "." name = true.
Proof.
  induction name as [|c name IH]; rewrite fnmatch_star.
  - by rewrite fnmatch_literal.
  - rewrite fnmatch_literal by done. simpl.
    intros H. apply orb_true_iff in H as [H|H].
    + apply andb_true_iff in H as [H _].
      apply Ascii.eqb_eq in H as <-. done.
    + rewrite (IH H). apply orb_true_r.
Qed.

Lemma renamed_not_matched file :
  fnmatch "*.mp4" (Py.replace "." EmptyString file) = false.
Proof.
  destruct (fnmatch "*.mp4" (Py.replace "." EmptyString file)) eqn:H; [|done].
  apply mp4_has_dot in H. by rewrite replace_removes in H.
Qed.

Lemma elem_of_glob pattern names name :
  name ∈ glob pattern names <->
  name ∈ names /\
  (ishidden pattern || negb (ishidden name)) && fnmatch pattern name = true.
Proof. unfold glob. rewrite !list_elem_of_In, filter_In. done. Qed.

Lemma glob_has_dot names file :
  file ∈ glob "*.mp4" names -> Py.contains "." file = true.
Proof.
  rewrite elem_of_glob. intros [_ H].
  apply andb_true_iff in H as [_ H]. by apply mp4_has_dot.
Qed.

(** What a successful [rename] of a dotted name does to the entries. *)
Lemma rename_dotted file d d' :
  Py.contains "." file = true ->
  rename file (Py.replace "." EmptyString file) d = Ok d' ->
  exists e, d !! file = Some e /\
            d' = <[Py.replace "." EmptyString file := e]> (delete file d).
Proof.
  intros Hdot. unfold rename.
  destruct (d !! file) as [e|] eqn:He; [|done].
  destruct (Py.is_empty _); [done|].
  case_bool_decide as Heq.
  { rewrite Heq, replace_removes in Hdot. done. }
  intros H. exists e. split; [done|].
  destruct e, (d !! Py.replace "." "" file) as [[|[]]|]; by simplify_eq.
Qed.

(** When the rename loop ends normally, every name it was given is
    gone, its undotted name is there, and the dotted names left are
    names that were there before and were not given to the loop. *)
Lemma rename_loop_done files :
  forall d d',
  (forall file, file ∈ files -> Py.contains "." file = true) ->
  rename_loop files d = (None, d') ->
  (forall file, file ∈ files ->
      d' !! file = None /\ is_Some (d' !! Py.replace "." EmptyString file)) /\
  (forall name, Py.contains "." name = true -> is_Some (d' !! name) ->
      is_Some (d !! name) /\ name ∉ files) /\
  (forall name, Py.contains "." name = false -> is_Some (d !! name) ->
      is_Some (d' !! name)).
Proof.
  induction files as [|file rest IH]; intros d d' Hdots Hloop.
  - simpl in Hloop. simplify_eq. split; [|split].
    + intros file Hin. by apply elem_of_nil in Hin.
    + intros name _ Hname. split; [done|]. apply not_elem_of_nil.
    + done.
  - simpl in Hloop.
    assert (Py.contains "." file = true) as Hdot by (apply Hdots; by left).
    destruct (rename file (Py.replace "." "" file) d) as [d1|e] eqn:Hren; [|done].
    apply rename_dotted in Hren as (e & He & ->); [|done].
    set (dst := Py.replace "." "" file) in *.
    assert (Py.contains "." dst = false) as Hdst by apply replace_removes.
    assert (dst <> file) as Hne by (intros Heq; congruence).
    destruct (IH _ _ (fun f Hf => Hdots f (list_elem_of_further _ _ _ Hf)) Hloop)
      as (IH1 & IH2 & IH3).
    split; [|split].
    + intros f Hf. apply elem_of_cons in Hf as [->|Hf]; [|by apply IH1].
      split.
      * destruct (d' !! file) as [x|] eqn:Hx; [|done].
        destruct (IH2 file Hdot (mk_is_Some _ _ Hx)) as [Hin _].
        rewrite lookup_insert_ne, lookup_delete_eq in Hin by done.
        by destruct Hin.
      * apply IH3; [done|]. rewrite lookup_insert_eq. eauto.
    + intros name Hname Hin.
      destruct (IH2 name Hname Hin) as [Hd1 Hrest].
      assert (name <> dst) as Hnd by (intros ->; congruence).
      rewrite lookup_insert_ne in Hd1 by done.
      destruct (decide (name = file)) as [->|Hnf].
      { rewrite lookup_delete_eq in Hd1. by destruct Hd1. }
      rewrite lookup_delete_ne in Hd1 by done.
      split; [done|]. rewrite not_elem_of_cons. done.
    + intros name Hname Hin. apply IH3; [done|].
      destruct (decide (name = dst)) as [->|Hnd].
      { rewrite lookup_insert_eq. eauto. }
      rewrite lookup_insert_ne by done.
      rewrite lookup_delete_ne; [done|]. intros ->. congruence.
Qed.

(** Among regular files no rename raises. *)
Lemma rename_loop_regular files :
  forall d,
  regular_files_only d -> NoDup files ->
  (forall file, file ∈ files -> Py.contains "." file = true /\
                                 is_Some (d !! file) /\
                                 Py.is_empty (Py.replace "." EmptyString file) = false) ->
  exists d', rename_loop files d = (None, d').
Proof.
  induction files as [|file rest IH]; intros d Hreg Hnd Hfiles; [by eexists|].
  apply NoDup_cons in Hnd as [Hnotin Hnd].
  destruct (Hfiles file) as (Hdot & [e He] & Hne); [by left|].
  pose proof (Hreg _ _ He) as ->.
  set (dst := Py.replace "." "" file) in *.
  assert (Py.contains "." dst = false) as Hdst by apply replace_removes.
  assert (rename file dst d = Ok (<[dst := RegularFile]> (delete file d))) as Hren.
  { unfold rename. rewrite He, Hne.
    case_bool_decide as Heq; [rewrite Heq in Hdot; congruence|].
    destruct (d !! dst) as [x|] eqn:Hx; [|done].
    by rewrite (Hreg _ _ Hx). }
  simpl. fold dst. rewrite Hren. apply IH; [|done|].
  - intros name x Hx.
    destruct (decide (name = dst)) as [->|Hn].
    { rewrite lookup_insert_eq in Hx. by simplify_eq. }
    rewrite lookup_insert_ne in Hx by done.
    apply lookup_delete_Some in Hx as [_ Hx]. by eapply Hreg.
  - intros f Hf. destruct (Hfiles f) as (Hfdot & Hfin & Hfne); [by right|].
    repeat split; try done.
    assert (f <> dst) by (intros ->; congruence).
    assert (f <> file) by (intros ->; done).
    by rewrite lookup_insert_ne, lookup_delete_ne.
Qed.

Lemma glob_target_nonempty names file :
  file ∈ glob "*.mp4" names ->
  Py.is_empty (Py.replace "." EmptyString file) = false.
Proof.
  rewrite elem_of_glob. intros [_ H].
  apply andb_true_iff in H as [Hhid Hmatch].
  destruct file as [|c file]; [done|].
  simpl in Hhid. unfold ishidden in Hhid. simpl in Hhid.
  rewrite andb_true_r in Hhid. apply negb_true_iff in Hhid.
  simpl. rewrite Ascii.eqb_sym, Hhid. done.
Qed.

Lemma scandir_keys_lists_names : lists_names scandir_keys.
Proof.
  intros d. unfold scandir_keys. split.
  - apply NoDup_fst_map_to_list.
  - intros name. rewrite list_elem_of_fmap. split.
    + intros ([k e] & -> & Hin). apply elem_of_map_to_list in Hin. by eexists.
    + intros [e He]. exists (name, e). split; [done|].
      by apply elem_of_map_to_list.
Qed.

(** C10. The rename loop removes every ["."] of a name, so a renamed
    name is never matched by ["*.mp4"] (["a.b.mp4"] becomes
    ["abmp4"]); the script prints nothing; when no rename raised,
    every matched file is gone from under its old name and is there
    under the new one, and the second listing is empty; and among
    regular files no rename raises. *)
Theorem C10_rename_drops_extension_dot
    (scandir : gmap string entry -> list string) :
  lists_names scandir ->
  (forall file, Py.contains "." (Py.replace "." EmptyString file) = false) /\
  (forall file, fnmatch "*.mp4" (Py.replace "." EmptyString file) = false) /\
  (fnmatch "*.mp4" "a.b.mp4" = true /\
   Py.replace "." EmptyString "a.b.mp4" = "abmp4") /\
  forall d, exists exc d',
    script scandir d = (exc, d', []) /\
    (exc = None ->
     glob "*.mp4" (scandir d') = [] /\
     forall file, file ∈ glob "*.mp4" (scandir d) ->
       d' !! file = None /\
       is_Some (d' !! Py.replace "." EmptyString file)) /\
    (regular_files_only d -> exc = None).
Proof.
  intros Hscan.
  split; [apply replace_removes|]. split; [apply renamed_not_matched|].
  split; [by vm_compute|].
  intros d. unfold script.
  set (files := glob "*.mp4" (scandir d)).
  assert (forall file, file ∈ files -> Py.contains "." file = true) as Hdots
    by (intros file; apply glob_has_dot).
  assert (regular_files_only d -> exists d', rename_loop files d = (None, d'))
    as Hregular.
  { intros Hreg. apply rename_loop_regular; [done| |].
    - unfold files, glob. apply NoDup_ListNoDup, List.NoDup_filter, NoDup_ListNoDup.
      apply Hscan.
    - intros file Hin. split; [by apply Hdots|]. split.
      + apply elem_of_glob in Hin as [Hin _]. by apply Hscan.
      + by apply (glob_target_nonempty (scandir d)). }
  destruct (rename_loop files d) as [[e|] d'] eqn:Hloop.
  - exists (Some e), d'. split; [done|]. split; [done|].
    intros Hreg. destruct (Hregular Hreg) as [d'' ?]. congruence.
  - destruct (rename_loop_done files d d' Hdots Hloop) as (Hgone & Hleft & _).
    assert (glob "*.mp4" (scandir d') = []) as Hempty.
    { destruct (glob "*.mp4" (scandir d')) as [|name rest] eqn:Hglob; [done|].
      assert (name ∈ glob "*.mp4" (scandir d')) as Hin by (rewrite Hglob; by left).
      pose proof (glob_has_dot _ _ Hin) as Hdot.
      apply elem_of_glob in Hin as [Hin Hmatch].
      apply Hscan in Hin.
      destruct (Hleft name Hdot Hin) as [Hd Hnot].
      exfalso. apply Hnot. apply elem_of_glob. split; [|done].
      by apply Hscan. }
    exists None, d'. rewrite Hempty. split; [done|]. split; [|done].
    intros _. split; [done|]. exact Hgone.
Qed.

Lemma C10_rename_drops_extension_dot_witness :
  lists_names scandir_keys /\
  (forall file, Py.contains "." (Py.replace "." EmptyString file) = false) /\
  (forall file, fnmatch "*.mp4" (Py.replace "." EmptyString file) = false) /\
  (fnmatch "*.mp4" "a.b.mp4" = true /\
   Py.replace "." EmptyString "a.b.mp4" = "abmp4") /\
  forall d, exists exc d',
    script scandir_keys d = (exc, d', []) /\
    (exc = None ->
     glob "*.mp4" (scandir_keys d') = [] /\
     forall file, file ∈ glob "*.mp4" (scandir_keys d) ->
       d' !! file = None /\
       is_Some (d' !! Py.replace "." EmptyString file)) /\
    (regular_files_only d -> exc = None).
Proof.
  split; [exact scandir_keys_lists_names|].
  exact (C10_rename_drops_extension_dot scandir_keys scandir_keys_lists_names).
Defined.

(** The script on a directory of three files. *)
Example script_run :
  let d : gmap string entry :=
    <["a.b.mp4" := RegularFile]>
      (<["ab.mp4" := RegularFile]> (<["notes.txt" := RegularFile]> ∅)) in
  script scandir_keys d =
  (None, <["abmp4" := RegularFile]> (<["notes.txt" := RegularFile]> ∅), []).
Proof. by vm_compute. Qed.

End RenameFileTheorems.

(** * download_files.py: further properties of the fetcher *)
Module FetcherExtras.
Import DownloadFiles Spec Props FetcherFacts.
Local Open Scope list_scope.

(** X2. Whatever the outcome, [download_file] changes nothing in the
    file system except at [folder_path], at the directories above it
    and at the destination path of the URL; and what it does to the
    folder and to the directories above it is to make them where they
    were missing. *)
Theorem X2_download_file_touches_its_paths (lib : Url.Lib)
    (net : Requests.network) (url folder_path : string) (timeout : Z)
    (s s' : state) (r : result (option string)) :
  download_file net url folder_path timeout s = (r, s') ->
  (forall path,
      path <> folder_path ->
      path ∉ Os.ancestors folder_path ->
      destination folder_path url <> Some path ->
      Os.fs s' !! path = Os.fs s !! path) /\
  (forall path,
      path = folder_path \/ path ∈ Os.ancestors folder_path ->
      Os.fs s' !! path = Os.fs s !! path \/
      (Os.fs s !! path = None /\ Os.fs s' !! path = Some Dir)).
Proof.
  intros Hrun. split.
  - intros path. by apply (download_file_frame _ _ _ _ _ _ _ _ Hrun).
  - intros path Hpath.
    assert (can_make folder_path s ->
            Os.fs (made folder_path s) !! path = Os.fs s !! path \/
            (Os.fs s !! path = None /\
             Os.fs (made folder_path s) !! path = Some Dir)) as Hmade.
    { intros (_ & Hfile & Hup). rewrite lookup_made_in by done.
      assert (Os.is_file (Os.fs s !! path) = false) as Hnofile.
      { destruct Hpath as [->|Hin]; [done|].
        by apply (proj1 (blocked_false _ _) Hup). }
      destruct (Os.fs s !! path) as [[c|]|]; [done|by left|by right]. }
    apply download_file_fs in Hrun
      as [->|[Hmake [->|(file_path & content & Hd & _ & ->)]]];
      [by left|by apply Hmade|].
    rewrite lookup_insert_ne; [by apply Hmade|].
    unfold destination in Hd.
    destruct (Url.urlparse url) as [parsed_url|e]; [|done].
    injection Hd as <-.
    destruct (join_not_made folder_path _ (filename_of_nonempty parsed_url url)
                (filename_of_no_slash parsed_url url)) as [Hne Hnot].
    intros Heq. rewrite Heq in Hne, Hnot. by destruct Hpath.
Qed.

Lemma X2_download_file_touches_its_paths_witness :
  let s := Os.mkState {["srv/keep.txt" := File "kept"]} [] [] in
  let run := download_file (lib := Url.cpython) (Examples.answers 200 ["x"])
               "https://host/a.bin" "srv/files" 30 s in
  run = (fst run, snd run) /\
  (forall path,
      path <> "srv/files" ->
      path ∉ Os.ancestors "srv/files" ->
      destination (lib := Url.cpython) "srv/files" "https://host/a.bin"
        <> Some path ->
      Os.fs (snd run) !! path = Os.fs s !! path) /\
  (forall path,
      path = "srv/files" \/ path ∈ Os.ancestors "srv/files" ->
      Os.fs (snd run) !! path = Os.fs s !! path \/
      (Os.fs s !! path = None /\ Os.fs (snd run) !! path = Some Dir)).
Proof.
  intros s run.
  assert (run = (fst run, snd run)) as H1 by (by destruct run).
  split; [exact H1|].
  exact (X2_download_file_touches_its_paths Url.cpython _ _ _ _ _ _ _ H1).
Defined.

(** In that run the directory above the folder is made with it, the
    file is stored, and the file beside the folder is kept. *)
Example nested_folder_run :
  let s := Os.mkState {["srv/keep.txt" := File "kept"]} [] [] in
  let run := download_file (lib := Url.cpython) (Examples.answers 200 ["x"])
               "https://host/a.bin" "srv/files" 30 s in
  fst run = Ok (Some "srv/files/a.bin") /\
  Os.fs (snd run) !! "srv" = Some Dir /\
  Os.fs (snd run) !! "srv/files" = Some Dir /\
  Os.fs (snd run) !! "srv/files/a.bin" = Some (File "x") /\
  Os.fs (snd run) !! "srv/keep.txt" = Some (File "kept").
Proof. repeat split; by vm_compute. Qed.



(** X4. [download_file] never lets a [requests] exception out: what it
    raises is no [RequestException] (an error of the file system, a
    [ValueError]), and it has printed nothing when it raises. *)
Theorem X4_raises_no_request_exception (lib : Url.Lib)
    (net : Requests.network) (url folder_path : string) (timeout : Z)
    (s s' : state) (e : exn) :
  download_file net url folder_path timeout s = (Raised e, s') ->
  Exn.isinstance e Exn.RequestException = false /\
  Os.stdout s' = Os.stdout s.
Proof. intros Hrun. by apply download_file_outcome in Hrun as [_ ?]. Qed.

Lemma X4_raises_no_request_exception_witness :
  let s := Os.mkState ∅ [] [] in
  let e := Exn.mk Exn.ValueError "Invalid IPv6 URL" in
  download_file (lib := Url.cpython) (Examples.answers 200 ["x"])
    "http://[::1/a.bin" "downloads" 30 s = (Raised e, made "downloads" s) /\
  Exn.isinstance e Exn.RequestException = false /\
  Os.stdout (made "downloads" s) = Os.stdout s.
Proof.
  intros s e.
  assert (download_file (lib := Url.cpython) (Examples.answers 200 ["x"])
            "http://[::1/a.bin" "downloads" 30 s = (Raised e, made "downloads" s))
    as H by (vm_compute; reflexivity).
  split; [exact H|].
  exact (X4_raises_no_request_exception Url.cpython _ _ _ _ _ _ _ H).
Defined.

Lemma makedirs_on_a_file {lib : Url.Lib} net url folder_path
    timeout s content :
  Py.is_empty folder_path = false ->
  Os.fs s !! folder_path = Some (File content) ->
  download_file net url folder_path timeout s =
  (Raised (Os.error Exn.FileExistsError folder_path), s).
Proof.
  intros Hne Hfile.
  by rewrite download_file_run, download_file_try_run, Hne, Hfile.
Qed.

(** X5. When [folder_path] is an existing regular file, [download_file]
    raises [FileExistsError] out of [os.makedirs]: it does not return
    [None], makes no request, prints nothing and changes nothing. *)
Theorem X5_folder_is_a_regular_file (lib : Url.Lib)
    (net : Requests.network) (url folder_path : string) (timeout : Z)
    (s : state) (content : string) :
  Py.is_empty folder_path = false ->
  Os.fs s !! folder_path = Some (File content) ->
  download_file net url folder_path timeout s =
  (Raised (Os.error Exn.FileExistsError folder_path), s).
Proof. apply makedirs_on_a_file. Qed.

Lemma X5_folder_is_a_regular_file_witness :
  let s := Os.mkState {["downloads" := File "not a folder"]} [] [] in
  Py.is_empty "downloads" = false /\
  Os.fs s !! "downloads" = Some (File "not a folder") /\
  download_file (lib := Url.cpython) (Examples.answers 200 ["x"])
    "https://host/a.bin" "downloads" 30 s =
  (Raised (Os.error Exn.FileExistsError "downloads"), s).
Proof.
  intros s.
  assert (Py.is_empty "downloads" = false) as H1 by reflexivity.
  assert (Os.fs s !! "downloads" = Some (File "not a folder")) as H2
    by (vm_compute; reflexivity).
  split; [exact H1|]. split; [exact H2|].
  exact (X5_folder_is_a_regular_file Url.cpython (Examples.answers 200 ["x"])
           "https://host/a.bin" "downloads" 30 s "not a folder" H1 H2).
Defined.

(** X6. A [content-length] header that [int] rejects makes
    [download_file] raise [ValueError] after the folder was made and
    before the file is opened: the destination is neither created nor
    truncated, although the header only feeds the progress bar. *)
Theorem X6_malformed_content_length (lib : Url.Lib)
    (net : Requests.network) (url folder_path : string) (timeout : Z)
    (s : state) (parsed_url : Url.ParseResult) (resp : Requests.Response) :
  can_make folder_path s ->
  Url.urlparse url = Ok parsed_url ->
  net url timeout = Requests.GetReturns resp ->
  Requests.is_http_error (Requests.status_code resp) = false ->
  Requests.content_length resp = Requests.Present None ->
  exists e,
    download_file net url folder_path timeout s = (Raised e, made folder_path s) /\
    Exn.class e = Exn.ValueError /\
    Os.fs (made folder_path s)
      !! Py.join folder_path (filename_of parsed_url url)
    = Os.fs s !! Py.join folder_path (filename_of parsed_url url).
Proof.
  intros (Hne & Hfile & Hup) Hparse Hnet Hstatus Hlen.
  eexists. split; [|split].
  - rewrite download_file_run, download_file_try_run, Hne, Hfile, Hup, Hparse.
    cbv zeta. rewrite Hnet, Hstatus, Hlen. reflexivity.
  - reflexivity.
  - apply lookup_made_join;
      [apply filename_of_nonempty|apply filename_of_no_slash].
Qed.

Lemma X6_malformed_content_length_witness :
  let url := "https://host/a.bin" in
  let parsed_url := Url.mkParse "https" "host" "/a.bin" "" "" "" in
  let resp := Requests.mkResponse 200 (Requests.Present None) ["abc"]
                Requests.EndOfStream in
  let net : Requests.network := fun _ _ => Requests.GetReturns resp in
  let s := Os.mkState {["srv/files/a.bin" := File "previous content"]} [] [] in
  can_make "srv/files" s /\
  Url.urlparse (Lib := Url.cpython) url = Ok parsed_url /\
  net url 30 = Requests.GetReturns resp /\
  Requests.is_http_error (Requests.status_code resp) = false /\
  Requests.content_length resp = Requests.Present None /\
  exists e,
    download_file (lib := Url.cpython) net url "srv/files" 30 s
      = (Raised e, made "srv/files" s) /\
    Exn.class e = Exn.ValueError /\
    Os.fs (made "srv/files" s)
      !! Py.join "srv/files" (filename_of (lib := Url.cpython) parsed_url url)
    = Os.fs s !! Py.join "srv/files" (filename_of (lib := Url.cpython) parsed_url url).
Proof.
  intros url parsed_url resp net s.
  assert (can_make "srv/files" s) as H1
    by (repeat split; vm_compute; reflexivity).
  assert (Url.urlparse (Lib := Url.cpython) url = Ok parsed_url) as H2
    by (vm_compute; reflexivity).
  assert (net url 30 = Requests.GetReturns resp) as H3 by reflexivity.
  assert (Requests.is_http_error (Requests.status_code resp) = false) as H4
    by reflexivity.
  assert (Requests.content_length resp = Requests.Present None) as H5
    by reflexivity.
  split; [exact H1|]. split; [exact H2|]. split; [exact H3|]. split; [exact H4|].
  split; [exact H5|].
  exact (X6_malformed_content_length Url.cpython net url "srv/files" 30 s
           parsed_url resp H1 H2 H3 H4 H5).
Defined.



(** *** The last component of the destination *)

Lemma split_without_sep sep s :
  Py.contains sep s = false -> Py.split sep s = [s].
Proof.
  induction s as [|c s IH]; [done|].
  simpl. intros H. apply orb_false_iff in H as [Hc Hs].
  by rewrite PyFacts.split_String, Hc, IH.
Qed.

Lemma endswith_sep sep (s : string) :
  Py.endswith (String sep EmptyString) s = true ->
  exists t, s = (t ++ String sep EmptyString)%string.
Proof.
  unfold Py.endswith. intros H. apply andb_true_iff in H as [Hlen Hdrop].
  apply Nat.leb_le in Hlen. apply String.eqb_eq in Hdrop.
  simpl in Hlen, Hdrop.
  assert (forall n (t : string), (n <= String.length t)%nat ->
            t = (Py.take n t ++ Py.drop n t)%string) as Hsplit.
  { induction n as [|n IHn]; intros [|c t] Ht; simpl in *; try done; try lia.
    rewrite append_String. f_equal. apply IHn. lia. }
  exists (Py.take (String.length s - 1) s).
  transitivity (Py.take (String.length s - 1) s
                ++ Py.drop (String.length s - 1) s)%string;
    [apply Hsplit; lia|by rewrite Hdrop].
Qed.

(** [os.path.basename] gives back the name that [os.path.join] put
    after the folder. *)
Lemma basename_join a b :
  Py.contains "/" b = false -> Py.basename (Py.join a b) = b.
Proof.
  intros Hb. rewrite PyFacts.basename_last_token.
  assert (Py.last_item (Py.split "/" b) = b) as Hlast
    by by rewrite split_without_sep.
  unfold Py.join.
  assert (Py.startswith "/" b = false) as ->.
  { destruct b as [|c b]; [done|]. simpl in *.
    apply orb_false_iff in Hb as [Hc _]. by rewrite Ascii.eqb_sym, Hc. }
  destruct (Py.is_empty a) eqn:Ha; simpl.
  { apply PyFacts.is_empty_true in Ha as ->. done. }
  destruct (Py.endswith "/" a) eqn:Hend.
  - apply endswith_sep in Hend as [t ->].
    rewrite append_assoc.
    change (String "/" "" ++ b)%string with (String "/" b).
    by rewrite FilenameTheorems.last_token_app_sep.
  - change ("/" ++ b)%string with (String "/" b).
    by rewrite FilenameTheorems.last_token_app_sep.
Qed.

Lemma names_directory_join a b :
  b <> EmptyString -> Py.contains "/" b = false ->
  Os.names_directory (Py.join a b) = String.eqb b "." || String.eqb b "..".
Proof.
  intros Hne Hb. unfold Os.names_directory. rewrite basename_join by done.
  by apply PyFacts.is_empty_false in Hne as ->.
Qed.

(** X8. No URL makes [download_file] put a file anywhere but directly
    inside the folder: a path that holds a regular file after a call
    and held none before is [folder_path] joined with one name, which
    is not empty, holds no ["/"] and is neither ["."] nor [".."]. *)
Theorem X8_files_appear_inside_the_folder (lib : Url.Lib)
    (net : Requests.network) (url folder_path : string) (timeout : Z)
    (s s' : state) (r : result (option string)) (path content : string) :
  download_file net url folder_path timeout s = (r, s') ->
  Os.fs s' !! path = Some (File content) ->
  Os.is_file (Os.fs s !! path) = false ->
  exists filename,
    path = Py.join folder_path filename /\
    path =
      (if Py.is_empty folder_path || Py.endswith "/" folder_path
       then folder_path ++ filename
       else folder_path ++ "/" ++ filename)%string /\
    filename <> EmptyString /\
    Py.contains "/" filename = false /\
    filename <> "." /\ filename <> "..".
Proof.
  intros Hrun Hafter Hbefore.
  assert (Os.fs (made folder_path s) !! path <> Some (File content)) as Hmade.
  { intros Hm.
    destruct (decide (path = folder_path \/ path ∈ Os.ancestors folder_path))
      as [Hin|Hout].
    - by rewrite lookup_made_in in Hm.
    - rewrite lookup_made_out in Hm by tauto. by rewrite Hm in Hbefore. }
  apply download_file_fs in Hrun
    as [Hfs|[_ [Hfs|(file_path & c & Hd & Hopen & Hfs)]]]; rewrite Hfs in Hafter.
  { by rewrite Hafter in Hbefore. }
  { done. }
  destruct (decide (file_path = path)) as [->|Hne];
    [|by rewrite lookup_insert_ne in Hafter].
  unfold destination in Hd.
  destruct (Url.urlparse url) as [parsed_url|e]; [|done].
  injection Hd as Hpath.
  pose proof (filename_of_nonempty parsed_url url) as Hname.
  pose proof (filename_of_no_slash parsed_url url) as Hslash.
  exists (filename_of parsed_url url).
  assert (Os.names_directory path = false) as Hdot.
  { unfold Os.opens_directory in Hopen.
    by destruct (Os.fs s !! path) as [[?|]|]. }
  rewrite <- Hpath, names_directory_join in Hdot by done.
  apply orb_false_iff in Hdot as [Hdot1 Hdot2].
  apply String.eqb_neq in Hdot1, Hdot2.
  repeat split; try done.
  rewrite <- Hpath. unfold Py.join.
  destruct (filename_of parsed_url url) as [|c0 name]; [done|].
  simpl in Hslash. apply orb_false_iff in Hslash as [Hc _].
  simpl. by rewrite Ascii.eqb_sym, Hc.
Qed.

Lemma X8_files_appear_inside_the_folder_witness :
  let s := Os.mkState ∅ [] [] in
  let url := "https://host/a%2Fb/..%2F..%2Fetc%2Fpasswd?x=1" in
  let run := download_file (lib := Url.cpython) (Examples.answers 200 ["x"])
               url "downloads/" 30 s in
  run = (fst run, snd run) /\
  Os.fs (snd run) !! "downloads/passwd" = Some (File "x") /\
  Os.is_file (Os.fs s !! "downloads/passwd") = false /\
  exists filename,
    "downloads/passwd" = Py.join "downloads/" filename /\
    "downloads/passwd" =
      (if Py.is_empty "downloads/" || Py.endswith "/" "downloads/"
       then "downloads/" ++ filename
       else "downloads/" ++ "/" ++ filename)%string /\
    filename <> EmptyString /\
    Py.contains "/" filename = false /\
    filename <> "." /\ filename <> "..".
Proof.
  intros s url run.
  assert (run = (fst run, snd run)) as H1 by (by destruct run).
  assert (Os.fs (snd run) !! "downloads/passwd" = Some (File "x")) as H2
    by (vm_compute; reflexivity).
  assert (Os.is_file (Os.fs s !! "downloads/passwd") = false) as H3
    by reflexivity.
  split; [exact H1|]. split; [exact H2|]. split; [exact H3|].
  exact (X8_files_appear_inside_the_folder Url.cpython _ _ _ _ _ _ _ _ _
           H1 H2 H3).
Defined.

(** X27. A URL whose file name is ["."] or [".."] names the folder or
    the directory above it: [open] raises [IsADirectoryError], which is
    no [requests] exception and leaves [download_file] after the
    request was made; the folder was made and no file is written. *)
Theorem X27_dot_name_is_a_directory (lib : Url.Lib)
    (net : Requests.network) (url folder_path : string) (timeout : Z)
    (s : state) (parsed_url : Url.ParseResult) (resp : Requests.Response) :
  let file_path := Py.join folder_path (filename_of parsed_url url) in
  can_make folder_path s ->
  Url.urlparse url = Ok parsed_url ->
  filename_of parsed_url url = "." \/ filename_of parsed_url url = ".." ->
  Os.is_file (Os.fs s !! file_path) = false ->
  net url timeout = Requests.GetReturns resp ->
  Requests.is_http_error (Requests.status_code resp) = false ->
  Requests.content_length resp <> Requests.Present None ->
  download_file net url folder_path timeout s =
  (Raised (Os.error Exn.IsADirectoryError file_path), made folder_path s).
Proof.
  intros file_path (Hfolder & Hfile & Hup) Hparse Hdot Hnofile Hnet Hstatus Hlen.
  assert (Os.opens_directory (Os.fs s) file_path = true) as Hopen.
  { unfold Os.opens_directory.
    destruct (Os.fs s !! file_path) as [[c|]|]; [done|done|].
    unfold file_path.
    rewrite names_directory_join
      by (apply filename_of_nonempty || apply filename_of_no_slash).
    by destruct Hdot as [->| ->]. }
  rewrite download_file_run, download_file_try_run, Hfolder, Hfile, Hup, Hparse.
  cbv zeta. fold file_path. rewrite Hnet, Hstatus, Hopen.
  by destruct (Requests.content_length resp) as [|[n|]].
Qed.

Lemma X27_dot_name_is_a_directory_witness :
  let url := "https://host/." in
  let parsed_url := Url.mkParse "https" "host" "/." "" "" "" in
  let resp := Requests.mkResponse 200 Requests.Absent ["x"] Requests.EndOfStream in
  let net : Requests.network := fun _ _ => Requests.GetReturns resp in
  let s := Os.mkState ∅ [] [] in
  let file_path := Py.join "downloads" (filename_of (lib := Url.cpython) parsed_url url) in
  can_make "downloads" s /\
  Url.urlparse (Lib := Url.cpython) url = Ok parsed_url /\
  (filename_of (lib := Url.cpython) parsed_url url = "." \/
   filename_of (lib := Url.cpython) parsed_url url = "..") /\
  Os.is_file (Os.fs s !! file_path) = false /\
  net url 30 = Requests.GetReturns resp /\
  Requests.is_http_error (Requests.status_code resp) = false /\
  Requests.content_length resp <> Requests.Present None /\
  download_file (lib := Url.cpython) net url "downloads" 30 s =
  (Raised (Os.error Exn.IsADirectoryError file_path), made "downloads" s).
Proof.
  intros url parsed_url resp net s file_path.
  assert (can_make "downloads" s) as H1
    by (repeat split; vm_compute; reflexivity).
  assert (Url.urlparse (Lib := Url.cpython) url = Ok parsed_url) as H2
    by (vm_compute; reflexivity).
  assert (filename_of (lib := Url.cpython) parsed_url url = "." \/
          filename_of (lib := Url.cpython) parsed_url url = "..") as H3
    by (left; vm_compute; reflexivity).
  assert (Os.is_file (Os.fs s !! file_path) = false) as H4 by reflexivity.
  assert (net url 30 = Requests.GetReturns resp) as H5 by reflexivity.
  assert (Requests.is_http_error (Requests.status_code resp) = false) as H6
    by reflexivity.
  assert (Requests.content_length resp <> Requests.Present None) as H7
    by discriminate.
  split; [exact H1|]. split; [exact H2|]. split; [exact H3|]. split; [exact H4|].
  split; [exact H5|]. split; [exact H6|]. split; [exact H7|].
  exact (X27_dot_name_is_a_directory Url.cpython net url "downloads" 30 s
           parsed_url resp H1 H2 H3 H4 H5 H6 H7).
Defined.

(** X28. When a directory above [folder_path] is a regular file,
    [os.makedirs] raises [NotADirectoryError]: [download_file] lets it
    out, makes no request, prints nothing and changes nothing. *)
Theorem X28_regular_file_above_the_folder (lib : Url.Lib)
    (net : Requests.network) (url folder_path : string) (timeout : Z)
    (s : state) (above content : string) :
  Py.is_empty folder_path = false ->
  Os.is_file (Os.fs s !! folder_path) = false ->
  above ∈ Os.ancestors folder_path ->
  Os.fs s !! above = Some (File content) ->
  download_file net url folder_path timeout s =
  (Raised (Os.error Exn.NotADirectoryError folder_path), s).
Proof.
  intros Hne Hfile Hin Habove.
  assert (Os.blocked (Os.fs s) folder_path = true) as Hblocked.
  { destruct (Os.blocked (Os.fs s) folder_path) eqn:Hb; [done|].
    rewrite blocked_false in Hb. specialize (Hb _ Hin).
    by rewrite Habove in Hb. }
  by rewrite download_file_run, download_file_try_run, Hne, Hfile, Hblocked.
Qed.

Lemma X28_regular_file_above_the_folder_witness :
  let s := Os.mkState {["srv" := File "not a directory"]} [] [] in
  Py.is_empty "srv/files" = false /\
  Os.is_file (Os.fs s !! "srv/files") = false /\
  "srv" ∈ Os.ancestors "srv/files" /\
  Os.fs s !! "srv" = Some (File "not a directory") /\
  download_file (lib := Url.cpython) (Examples.answers 200 ["x"])
    "https://host/a.bin" "srv/files" 30 s =
  (Raised (Os.error Exn.NotADirectoryError "srv/files"), s).
Proof.
  intros s.
  assert (Py.is_empty "srv/files" = false) as H1 by reflexivity.
  assert (Os.is_file (Os.fs s !! "srv/files") = false) as H2 by reflexivity.
  assert ("srv" ∈ Os.ancestors "srv/files") as H3
    by (vm_compute; repeat constructor).
  assert (Os.fs s !! "srv" = Some (File "not a directory")) as H4
    by (vm_compute; reflexivity).
  split; [exact H1|]. split; [exact H2|]. split; [exact H3|]. split; [exact H4|].
  exact (X28_regular_file_above_the_folder Url.cpython
           (Examples.answers 200 ["x"]) "https://host/a.bin" "srv/files" 30 s
           "srv" "not a directory" H1 H2 H3 H4).
Defined.

End FetcherExtras.

(** * download_files.py: further properties of the dispatcher *)
Module DispatcherExtras.
Import DownloadFiles Spec Props FetcherFacts DispatcherFacts.
Local Open Scope list_scope.

(** With no URL, no future of [completed] was submitted. *)
Lemma collect_no_urls {lib : Url.Lib} nets folder_path completed downloaded_files s :
  collect nets [] folder_path completed downloaded_files s = (Ok downloaded_files, s).
Proof. induction completed as [|future rest IH]; [done|]. simpl. apply IH. Qed.

(** A property of the machine kept by [print] and by every call of
    [download_file] of the batch is kept by the whole loop. *)
Lemma collect_preserves {lib : Url.Lib} nets urls folder_path (P : state -> Prop) :
  (forall s ev, P s -> P (Os.mkState (Os.fs s) (Os.stdout s ++ [ev]) (Os.pools s))) ->
  (forall i url s r s',
      urls !! i = Some url ->
      download_file (nets i) url folder_path 30 s = (r, s') -> P s -> P s') ->
  forall completed downloaded_files s r s',
    collect nets urls folder_path completed downloaded_files s = (r, s') ->
    P s -> P s'.
Proof.
  intros Hprint Hcall.
  induction completed as [|future rest IH]; intros acc s r s' Hrun HP.
  - simpl in Hrun. unfold Os.ret in Hrun. by simplify_eq.
  - simpl in Hrun.
    destruct (urls !! future) as [url|] eqn:Hurl; [|by eapply IH].
    unfold Os.bind at 1, Os.attempt in Hrun.
    destruct (download_file (nets future) url folder_path 30 s)
      as [r1 s1] eqn:Hcall1.
    pose proof (Hcall _ _ _ _ _ Hurl Hcall1 HP) as HP1.
    destruct r1 as [[file_path|]|e].
    + destruct (Py.is_empty file_path); simpl in Hrun; [by eapply IH|].
      unfold Os.bind at 1, Os.print in Hrun.
      eapply IH; [exact Hrun|]. by apply Hprint.
    + by eapply IH.
    + destruct (Exn.isinstance e Exn.Exception).
      * unfold Os.bind at 1, Os.print in Hrun.
        eapply IH; [exact Hrun|]. by apply Hprint.
      * unfold Os.raise in Hrun. by simplify_eq.
Qed.

(** X9. With an empty list of URLs the dispatcher returns [[]] after
    creating its pool: no request is made, and the file system is left
    as it was (the folder is not created). *)
Theorem X9_empty_batch (lib : Url.Lib) (cpu_count : Z)
    (nets : nat -> Requests.network) (completed : list nat)
    (folder_path : string) (max_workers : option Z) (s : state) :
  valid_workers cpu_count max_workers ->
  exists s',
    download_files_parallel cpu_count nets completed [] folder_path
      max_workers s = (Ok [], s') /\
    Os.fs s' = Os.fs s /\
    Os.stdout s' = Os.stdout s ++ workers_line cpu_count max_workers.
Proof.
  intros Hvalid. apply pool_size_pos in Hvalid.
  unfold download_files_parallel, Os.bind at 1.
  destruct max_workers as [n|]; simpl in *.
  - unfold Os.bind at 1, ThreadPoolExecutor.
    destruct (Z.leb_spec n 0); [lia|]. rewrite collect_no_urls.
    eexists. split; [done|]. simpl. by rewrite app_nil_r.
  - unfold Os.bind at 1, ThreadPoolExecutor.
    destruct (Z.leb_spec (Z.min (cpu_count * 2) 32) 0); [lia|].
    rewrite collect_no_urls. eexists. by split.
Qed.

Lemma X9_empty_batch_witness :
  valid_workers 8 None /\
  exists s',
    download_files_parallel (lib := Url.cpython) 8
      (fun _ => Examples.answers 200 ["x"]) [] [] "downloads" None
      Examples.empty_machine = (Ok [], s') /\
    Os.fs s' = Os.fs Examples.empty_machine /\
    Os.stdout s' = Os.stdout Examples.empty_machine ++ workers_line 8 None.
Proof.
  assert (valid_workers 8 None) as H by (simpl; lia).
  split; [exact H|].
  exact (X9_empty_batch Url.cpython 8 (fun _ => Examples.answers 200 ["x"]) []
           "downloads" None Examples.empty_machine H).
Defined.

(** X10. A [max_workers] of zero or less makes the dispatcher raise
    [ValueError] when it creates the pool: nothing is downloaded,
    printed or changed. *)
Theorem X10_no_workers_raises (lib : Url.Lib) (cpu_count : Z)
    (nets : nat -> Requests.network) (completed : list nat)
    (urls : list string) (folder_path : string) (n : Z) (s : state) :
  n <= 0 ->
  download_files_parallel cpu_count nets completed urls folder_path (Some n) s
  = (Raised (Exn.mk Exn.ValueError "max_workers must be greater than 0"), s).
Proof.
  intros Hn. unfold download_files_parallel, Os.bind at 1. simpl.
  unfold Os.bind at 1, ThreadPoolExecutor.
  by destruct (Z.leb_spec n 0); [|lia].
Qed.

Lemma X10_no_workers_raises_witness :
  0 <= 0 /\
  download_files_parallel (lib := Url.cpython) 8
    (fun _ => Examples.answers 200 ["x"]) [0%nat] ["https://host/a.bin"]
    "downloads" (Some 0) Examples.empty_machine
  = (Raised (Exn.mk Exn.ValueError "max_workers must be greater than 0"),
     Examples.empty_machine).
Proof.
  assert (0 <= 0) as H by lia.
  split; [exact H|].
  exact (X10_no_workers_raises Url.cpython 8 _ _ _ "downloads" 0
           Examples.empty_machine H).
Defined.

Lemma trace_lines {lib : Url.Lib} nets folder_path requests trace :
  Forall2 (outcome_of nets folder_path) requests trace ->
  Forall (fun ev => is_success_line ev || is_failure_line ev = true)
         (map line_of trace).
Proof.
  induction 1 as [|[i url] o requests trace Ho _ IH]; [by constructor|].
  rewrite map_cons. constructor; [|done].
  destruct o as [file_path|line]; [done|].
  destruct Ho as [Hfail _].
  change (is_success_line line || is_failure_line line = true).
  rewrite Hfail. apply orb_true_r.
Qed.

(** X11. A positive [max_workers] given by the caller is used as it
    is, without the cap of 32 that the default has, and without the
    line that announces the default: the pool has that many workers
    and only lines about requests are printed. *)
Theorem X11_explicit_workers_used_as_given (lib : Url.Lib) (cpu_count : Z)
    (nets : nat -> Requests.network) (completed : list nat)
    (urls : list string) (folder_path : string) (n : Z) (s : state) :
  0 < n ->
  exists downloaded_files lines s',
    download_files_parallel cpu_count nets completed urls folder_path
      (Some n) s = (Ok downloaded_files, s') /\
    Os.pools s' = Os.pools s ++ [n] /\
    Os.stdout s' = Os.stdout s ++ lines /\
    Forall (fun ev => is_success_line ev || is_failure_line ev = true) lines.
Proof.
  intros Hn.
  destruct (download_files_parallel_trace cpu_count nets completed urls
              folder_path (Some n) s Hn)
    as (trace & s' & Hrun & Hpools & Hout & Hall).
  exists (omap path_of trace), (map line_of trace), s'.
  repeat split; try done. by eapply trace_lines.
Qed.

Lemma X11_explicit_workers_used_as_given_witness :
  0 < 500 /\
  exists downloaded_files lines s',
    download_files_parallel (lib := Url.cpython) 8
      (fun _ => Examples.answers 200 ["x"]) [0%nat] ["https://host/a.bin"]
      "downloads" (Some 500) Examples.empty_machine = (Ok downloaded_files, s') /\
    Os.pools s' = Os.pools Examples.empty_machine ++ [500] /\
    Os.stdout s' = Os.stdout Examples.empty_machine ++ lines /\
    Forall (fun ev => is_success_line ev || is_failure_line ev = true) lines.
Proof.
  assert (0 < 500) as H by lia.
  split; [exact H|].
  exact (X11_explicit_workers_used_as_given Url.cpython 8 _ _ _ "downloads" 500
           Examples.empty_machine H).
Defined.

Lemma trace_picks {lib : Url.Lib} nets folder_path requests trace :
  Forall2 (outcome_of nets folder_path) requests trace ->
  exists picked,
    sublist picked requests /\
    Forall2 (fun request file_path =>
               destination folder_path request.2 = Some file_path)
            picked (omap path_of trace).
Proof.
  induction 1 as [|[i url] o requests trace Ho _ (picked & Hsub & Hpaths)].
  - exists []. by split; constructor.
  - destruct o as [file_path|line].
    + exists ((i, url) :: picked). split; [by constructor|].
      simpl. constructor; [by destruct Ho|done].
    + exists picked. split; [by constructor|done].
Qed.

(** X12. The list returned follows the order of completion, not the
    order of [urls]: it is the destinations of a subsequence of the
    submitted requests taken in the order their futures completed. *)
Theorem X12_result_in_completion_order (lib : Url.Lib) (cpu_count : Z)
    (nets : nat -> Requests.network) (completed : list nat)
    (urls : list string) (folder_path : string)
    (max_workers : option Z) (s : state) :
  valid_workers cpu_count max_workers ->
  exists downloaded_files picked s',
    download_files_parallel cpu_count nets completed urls folder_path
      max_workers s = (Ok downloaded_files, s') /\
    sublist picked (submitted urls completed) /\
    Forall2 (fun request file_path =>
               destination folder_path request.2 = Some file_path)
            picked downloaded_files.
Proof.
  intros Hvalid.
  destruct (download_files_parallel_trace cpu_count nets completed urls
              folder_path max_workers s Hvalid)
    as (trace & s' & Hrun & _ & _ & Hall).
  destruct (trace_picks _ _ _ _ Hall) as (picked & Hsub & Hpaths).
  by exists (omap path_of trace), picked, s'.
Qed.

Lemma X12_result_in_completion_order_witness :
  let urls := ["https://host/a.bin"; "https://host/b.bin"; "https://host/c.bin"] in
  let nets := fun i : nat =>
    if Nat.eqb i 1 then Examples.answers 404 [] else Examples.answers 200 ["x"] in
  valid_workers 8 (Some 2) /\
  exists downloaded_files picked s',
    download_files_parallel (lib := Url.cpython) 8 nets [2%nat; 1%nat; 0%nat]
      urls "downloads" (Some 2) Examples.empty_machine
      = (Ok downloaded_files, s') /\
    sublist picked (submitted urls [2%nat; 1%nat; 0%nat]) /\
    Forall2 (fun request file_path =>
               destination (lib := Url.cpython) "downloads" request.2
                 = Some file_path)
            picked downloaded_files.
Proof.
  intros urls nets.
  assert (valid_workers 8 (Some 2)) as H by (simpl; lia).
  split; [exact H|].
  exact (X12_result_in_completion_order Url.cpython 8 nets [2%nat; 1%nat; 0%nat]
           urls "downloads" (Some 2) Examples.empty_machine H).
Defined.

(** The order of completion shows in the result. *)
Example completion_order_shows :
  let urls := ["https://host/a.bin"; "https://host/b.bin"] in
  let run := fun completed =>
    fst (download_files_parallel (lib := Url.cpython) 8
           (fun _ => Examples.answers 200 ["x"]) completed urls "downloads"
           (Some 2) Examples.empty_machine) in
  run [0%nat; 1%nat] = Ok ["downloads/a.bin"; "downloads/b.bin"] /\
  run [1%nat; 0%nat] = Ok ["downloads/b.bin"; "downloads/a.bin"].
Proof. split; by vm_compute. Qed.

(** X13. A batch changes the file system only at [folder_path], at the
    directories above it and at the destinations of its URLs: any
    other path keeps what it held, however the batch ends. *)
Theorem X13_batch_touches_folder_and_destinations (lib : Url.Lib)
    (cpu_count : Z) (nets : nat -> Requests.network) (completed : list nat)
    (urls : list string) (folder_path : string) (max_workers : option Z)
    (s s' : state) (r : result (list string)) (path : string) :
  download_files_parallel cpu_count nets completed urls folder_path
    max_workers s = (r, s') ->
  path <> folder_path ->
  path ∉ Os.ancestors folder_path ->
  (forall url, url ∈ urls -> destination folder_path url <> Some path) ->
  Os.fs s' !! path = Os.fs s !! path.
Proof.
  intros Hrun Hfolder Hup Hdest.
  unfold download_files_parallel, Os.bind at 1 in Hrun.
  destruct (default_max_workers cpu_count max_workers s) as [r0 s0] eqn:Hdef.
  assert (Os.fs s0 = Os.fs s /\ exists n, r0 = Ok n) as [Hfs0 [n ->]].
  { unfold default_max_workers in Hdef.
    destruct max_workers; simpl in Hdef;
      unfold Os.bind, Os.print, Os.ret in Hdef; simplify_eq; simpl; eauto. }
  unfold Os.bind at 1, ThreadPoolExecutor in Hrun.
  destruct (n <=? 0).
  { unfold Os.raise in Hrun. simplify_eq. by rewrite Hfs0. }
  rewrite <- Hfs0.
  eapply (collect_preserves nets urls folder_path
            (fun st => Os.fs st !! path = Os.fs s0 !! path)); [| |exact Hrun|done].
  - done.
  - intros i url st r1 st' Hurl Hcall HP. rewrite <- HP.
    eapply download_file_frame; [exact Hcall|done|done|].
    apply Hdest. by eapply list_elem_of_lookup_2.
Qed.

Lemma X13_batch_touches_folder_and_destinations_witness :
  let urls := ["https://host/a.bin"; "https://host/b.bin"] in
  let s := Os.mkState {["srv/keep.txt" := File "kept"]} [] [] in
  let run := download_files_parallel (lib := Url.cpython) 8
               (fun _ => Examples.answers 200 ["x"]) [1%nat; 0%nat] urls
               "srv/files" None s in
  run = (fst run, snd run) /\
  "srv/keep.txt" <> "srv/files" /\
  ("srv/keep.txt" ∉ Os.ancestors "srv/files") /\
  (forall url, url ∈ urls ->
     destination (lib := Url.cpython) "srv/files" url <> Some "srv/keep.txt") /\
  Os.fs (snd run) !! "srv/keep.txt" = Os.fs s !! "srv/keep.txt".
Proof.
  intros urls s run.
  assert (run = (fst run, snd run)) as H1 by (by destruct run).
  assert ("srv/keep.txt" <> "srv/files") as H2 by discriminate.
  assert ("srv/keep.txt" ∉ Os.ancestors "srv/files") as H3.
  { vm_compute. intros Hin.
    apply elem_of_cons in Hin as [Hin|Hin]; [discriminate Hin|].
    apply elem_of_nil in Hin. destruct Hin. }
  assert (forall url, url ∈ urls ->
            destination (lib := Url.cpython) "srv/files" url
              <> Some "srv/keep.txt") as H4.
  { intros url Hin. unfold urls in Hin.
    apply elem_of_cons in Hin as [->|Hin]; [vm_compute; discriminate|].
    apply elem_of_cons in Hin as [->|Hin]; [vm_compute; discriminate|].
    apply elem_of_nil in Hin. destruct Hin. }
  split; [exact H1|]. split; [exact H2|]. split; [exact H3|]. split; [exact H4|].
  exact (X13_batch_touches_folder_and_destinations Url.cpython 8 _ _ urls
           "srv/files" None s _ _ _ H1 H2 H3 H4).
Defined.

Lemma collect_folder_is_a_file {lib : Url.Lib} nets urls folder_path content completed :
  Py.is_empty folder_path = false ->
  forall downloaded_files s,
    Os.fs s !! folder_path = Some (File content) ->
    collect nets urls folder_path completed downloaded_files s =
    (Ok downloaded_files,
     Os.mkState (Os.fs s)
       (Os.stdout s ++
        map (fun request : nat * string =>
               Os.DownloadFailed request.2
                 (Os.error Exn.FileExistsError folder_path))
            (submitted urls completed))
       (Os.pools s)).
Proof.
  intros Hne. induction completed as [|future rest IH]; intros acc s Hfile.
  - simpl. rewrite app_nil_r. unfold Os.ret. by destruct s.
  - rewrite submitted_cons. simpl.
    destruct (urls !! future) as [url|] eqn:Hurl; [|by apply IH].
    unfold Os.bind at 1, Os.attempt.
    rewrite (FetcherExtras.makedirs_on_a_file _ _ _ _ _ _ Hne Hfile).
    unfold Os.bind at 1, Os.print. simpl.
    rewrite IH by done. simpl. by rewrite <- app_assoc.
Qed.

(** X14. When [folder_path] is an existing regular file, every request
    of the batch fails inside [os.makedirs]: the dispatcher prints
    ["Download failed for <url>: ..."] for each one in the order of
    completion, returns [[]], and changes nothing in the file system. *)
Theorem X14_batch_into_a_regular_file (lib : Url.Lib) (cpu_count : Z)
    (nets : nat -> Requests.network) (completed : list nat)
    (urls : list string) (folder_path : string) (max_workers : option Z)
    (s : state) (content : string) :
  valid_workers cpu_count max_workers ->
  Py.is_empty folder_path = false ->
  Os.fs s !! folder_path = Some (File content) ->
  exists s',
    download_files_parallel cpu_count nets completed urls folder_path
      max_workers s = (Ok [], s') /\
    Os.fs s' = Os.fs s /\
    Os.stdout s' =
      Os.stdout s ++ workers_line cpu_count max_workers ++
      map (fun request : nat * string =>
             Os.DownloadFailed request.2
               (Os.error Exn.FileExistsError folder_path))
          (submitted urls completed).
Proof.
  intros Hvalid Hne Hfile. apply pool_size_pos in Hvalid.
  unfold download_files_parallel, Os.bind at 1.
  set (s1 := Os.mkState (Os.fs s)
               (Os.stdout s ++ workers_line cpu_count max_workers) (Os.pools s)).
  assert (default_max_workers cpu_count max_workers s =
          (Ok (pool_size cpu_count max_workers), s1)) as ->.
  { unfold default_max_workers, s1.
    destruct max_workers; simpl; [|done].
    unfold Os.ret. rewrite app_nil_r. by destruct s. }
  unfold Os.bind at 1, ThreadPoolExecutor.
  destruct (Z.leb_spec (pool_size cpu_count max_workers) 0); [lia|].
  erewrite collect_folder_is_a_file; [|done|exact Hfile].
  eexists. split; [done|]. simpl. by rewrite <- app_assoc.
Qed.

Lemma X14_batch_into_a_regular_file_witness :
  let urls := ["https://host/a.bin"; "https://host/b.bin"] in
  let s := Os.mkState {["downloads" := File "not a folder"]} [] [] in
  valid_workers 8 (Some 2) /\
  Py.is_empty "downloads" = false /\
  Os.fs s !! "downloads" = Some (File "not a folder") /\
  exists s',
    download_files_parallel (lib := Url.cpython) 8
      (fun _ => Examples.answers 200 ["x"]) [1%nat; 0%nat] urls
      "downloads" (Some 2) s = (Ok [], s') /\
    Os.fs s' = Os.fs s /\
    Os.stdout s' =
      Os.stdout s ++ workers_line 8 (Some 2) ++
      map (fun request : nat * string =>
             Os.DownloadFailed request.2
               (Os.error Exn.FileExistsError "downloads"))
          (submitted urls [1%nat; 0%nat]).
Proof.
  intros urls s.
  assert (valid_workers 8 (Some 2)) as H1 by (simpl; lia).
  assert (Py.is_empty "downloads" = false) as H2 by reflexivity.
  assert (Os.fs s !! "downloads" = Some (File "not a folder")) as H3
    by (vm_compute; reflexivity).
  split; [exact H1|]. split; [exact H2|]. split; [exact H3|].
  exact (X14_batch_into_a_regular_file Url.cpython 8 _ [1%nat; 0%nat] urls
           "downloads" (Some 2) s "not a folder" H1 H2 H3).
Defined.

End DispatcherExtras.

(** * remove_first_line_in_file.py: further properties *)
Module RemoveFirstLineExtras.
Import RemoveFirstLine Spec Props FetcherFacts RemoveFirstLineTheorems.
Local Open Scope list_scope.

(** X15. On a path that is no regular file [remove_first_line] raises
    from the first [open]: [IsADirectoryError] on a directory,
    [FileNotFoundError] on a missing path. The second [open], which
    would create the file, is not reached, and nothing changes. *)
Theorem X15_remove_first_line_needs_a_file (file_path : string) (s : state) :
  Os.is_file (Os.fs s !! file_path) = false ->
  exists e,
    remove_first_line file_path s = (Raised e, s) /\
    Exn.class e =
      if Os.is_dir (Os.fs s !! file_path)
      then Exn.IsADirectoryError else Exn.FileNotFoundError.
Proof.
  intros Hfile. rewrite remove_first_line_cases.
  destruct (Os.fs s !! file_path) as [[content|]|]; [done| |];
    eexists; (split; [reflexivity|done]).
Qed.

Lemma X15_remove_first_line_needs_a_file_witness :
  Os.is_file (Os.fs Examples.empty_machine !! "missing.md") = false /\
  exists e,
    remove_first_line "missing.md" Examples.empty_machine
      = (Raised e, Examples.empty_machine) /\
    Exn.class e =
      if Os.is_dir (Os.fs Examples.empty_machine !! "missing.md")
      then Exn.IsADirectoryError else Exn.FileNotFoundError.
Proof.
  assert (Os.is_file (Os.fs Examples.empty_machine !! "missing.md") = false)
    as H by reflexivity.
  split; [exact H|].
  exact (X15_remove_first_line_needs_a_file "missing.md" Examples.empty_machine H).
Defined.

(** X16. [remove_first_line] is not idempotent: on a file that
    decodes, a second call returns as the first did and removes two
    more lines, so after two calls the file holds the lines from index
    4 on. *)
Theorem X16_two_calls_drop_four (file_path content : string)
    (lines : list string) (s : state) :
  Os.fs s !! file_path = Some (File content) ->
  readlines content = Ok lines ->
  exists s1 s2,
    remove_first_line file_path s = (Ok tt, s1) /\
    remove_first_line file_path s1 = (Ok tt, s2) /\
    Os.fs s2 =
      <[file_path := File (join_lines (drop 4 lines))]> (Os.fs s).
Proof.
  intros Hc Hl.
  eexists _, _. split; [by apply (remove_first_line_run _ content)|].
  split.
  - eapply remove_first_line_run; [simpl; apply lookup_insert_eq|].
    by apply (readlines_join_lines content).
  - simpl. by rewrite insert_insert_eq, drop_drop.
Qed.

Lemma X16_two_calls_drop_four_witness :
  let content :=
    ("1" ++ String LF ("2" ++ String LF ("3" ++ String LF
       ("4" ++ String LF ("5" ++ String LF "")))))%string in
  let lines :=
    [("1" ++ String LF "")%string; ("2" ++ String LF "")%string;
     ("3" ++ String LF "")%string; ("4" ++ String LF "")%string;
     ("5" ++ String LF "")%string] in
  let s := Os.mkState {["note.md" := File content]} [] [] in
  Os.fs s !! "note.md" = Some (File content) /\
  readlines content = Ok lines /\
  exists s1 s2,
    remove_first_line "note.md" s = (Ok tt, s1) /\
    remove_first_line "note.md" s1 = (Ok tt, s2) /\
    Os.fs s2 =
      <["note.md" := File (join_lines (drop 4 lines))]> (Os.fs s).
Proof.
  intros content lines s.
  assert (Os.fs s !! "note.md" = Some (File content)) as H1
    by (vm_compute; reflexivity).
  assert (readlines content = Ok lines) as H2 by (vm_compute; reflexivity).
  split; [exact H1|]. split; [exact H2|].
  exact (X16_two_calls_drop_four "note.md" content lines s H1 H2).
Defined.

Lemma text_lines_nil content : text_lines content = [] -> content = EmptyString.
Proof.
  destruct content as [|c rest]; [done|]. simpl.
  destruct (Ascii.eqb c LF); [done|].
  destruct (Ascii.eqb c CR).
  - destruct rest as [|d rest']; [done|]. by destruct (Ascii.eqb d LF).
  - by destruct (text_lines rest).
Qed.

(** Without carriage returns, the lines read are the content cut at
    its line feeds. *)
Lemma join_text_lines content :
  Py.contains CR content = false -> join_lines (text_lines content) = content.
Proof.
  induction content as [|c rest IH]; [done|].
  simpl. intros Hcr. apply orb_false_iff in Hcr as [Hc Hrest].
  destruct (Ascii.eqb c LF) eqn:Hlf.
  - apply Ascii.eqb_eq in Hlf as ->. simpl. by rewrite IH.
  - rewrite Hc. specialize (IH Hrest).
    destruct (text_lines rest) as [|line lines] eqn:Hlines.
    + apply text_lines_nil in Hlines as ->. done.
    + simpl in *. by rewrite append_String, IH.
Qed.

Lemma join_lines_app (l1 l2 : list string) :
  join_lines (l1 ++ l2) = (join_lines l1 ++ join_lines l2)%string.
Proof.
  induction l1 as [|x l1 IH]; [done|].
  simpl. by rewrite IH, append_assoc.
Qed.

(** X17. On a file that decodes and holds no carriage return,
    [remove_first_line] cuts the first two lines off and leaves the
    rest byte for byte: the old content is the two lines removed
    followed by the new content. *)
Theorem X17_rest_is_kept_as_it_was (file_path content : string)
    (lines : list string) (s : state) :
  Py.contains CR content = false ->
  Os.fs s !! file_path = Some (File content) ->
  readlines content = Ok lines ->
  exists s' content',
    remove_first_line file_path s = (Ok tt, s') /\
    Os.fs s' !! file_path = Some (File content') /\
    content = (join_lines (take 2 lines) ++ content')%string.
Proof.
  intros Hcr Hc Hl.
  eexists _, (join_lines (drop 2 lines)).
  split; [by apply (remove_first_line_run _ content)|].
  split; [apply lookup_insert_eq|].
  apply readlines_Ok in Hl as [_ ->].
  by rewrite <- join_lines_app, take_drop, join_text_lines.
Qed.

Lemma X17_rest_is_kept_as_it_was_witness :
  let content :=
    ("# title" ++ String LF (String LF ("body" ++ String LF "end")))%string in
  let lines :=
    [("# title" ++ String LF "")%string; String LF ""; ("body" ++ String LF "")%string;
     "end"] in
  let s := Os.mkState {["note.md" := File content]} [] [] in
  Py.contains CR content = false /\
  Os.fs s !! "note.md" = Some (File content) /\
  readlines content = Ok lines /\
  exists s' content',
    remove_first_line "note.md" s = (Ok tt, s') /\
    Os.fs s' !! "note.md" = Some (File content') /\
    content = (join_lines (take 2 lines) ++ content')%string.
Proof.
  intros content lines s.
  assert (Py.contains CR content = false) as H1 by (vm_compute; reflexivity).
  assert (Os.fs s !! "note.md" = Some (File content)) as H2
    by (vm_compute; reflexivity).
  assert (readlines content = Ok lines) as H3 by (vm_compute; reflexivity).
  split; [exact H1|]. split; [exact H2|]. split; [exact H3|].
  exact (X17_rest_is_kept_as_it_was "note.md" content lines s H1 H2 H3).
Defined.

Lemma contains_append c (a b : string) :
  Py.contains c (a ++ b) = Py.contains c a || Py.contains c b.
Proof.
  induction a as [|x a IH]; [done|].
  rewrite append_String. simpl. by rewrite IH, orb_assoc.
Qed.

Lemma no_newline_no_CR t : no_newline t = true -> Py.contains CR t = false.
Proof.
  induction t as [|c t IH]; [done|].
  intros H. apply no_newline_String in H as (_ & Hcr & Ht).
  simpl. by rewrite Hcr, IH.
Qed.

Lemma lines_of_a_file_no_CR lines :
  lines_of_a_file lines -> Py.contains CR (join_lines lines) = false.
Proof.
  induction lines as [|line rest IH]; [done|].
  intros [Hline Hrest]. simpl. rewrite contains_append, (IH Hrest), orb_false_r.
  destruct Hline as [(t & -> & Ht)|[[_ Hnn] _]].
  - rewrite contains_append, (no_newline_no_CR _ Ht). done.
  - by apply no_newline_no_CR.
Qed.

(** X18. What [remove_first_line] writes back to a file that decodes
    holds no carriage return: the lines it keeps are rewritten with
    ["\n"] as their line end, whatever line ends the file had. *)
Theorem X18_line_ends_become_LF (file_path content : string)
    (lines : list string) (s : state) :
  Os.fs s !! file_path = Some (File content) ->
  readlines content = Ok lines ->
  exists s' content',
    remove_first_line file_path s = (Ok tt, s') /\
    Os.fs s' !! file_path = Some (File content') /\
    Py.contains CR content' = false.
Proof.
  intros Hc Hl.
  eexists _, (join_lines (drop 2 lines)).
  split; [by apply (remove_first_line_run _ content)|].
  split; [apply lookup_insert_eq|].
  apply lines_of_a_file_no_CR, lines_of_a_file_drop.
  by apply (readlines_shape content).
Qed.

Lemma X18_line_ends_become_LF_witness :
  let CRLF := String CR (String LF "") in
  let content := ("a" ++ CRLF ++ "b" ++ CRLF ++ "c" ++ CRLF ++ "d" ++ CRLF)%string in
  let lines :=
    [("a" ++ String LF "")%string; ("b" ++ String LF "")%string;
     ("c" ++ String LF "")%string; ("d" ++ String LF "")%string] in
  let s := Os.mkState {["note.md" := File content]} [] [] in
  Os.fs s !! "note.md" = Some (File content) /\
  readlines content = Ok lines /\
  exists s' content',
    remove_first_line "note.md" s = (Ok tt, s') /\
    Os.fs s' !! "note.md" = Some (File content') /\
    Py.contains CR content' = false.
Proof.
  intros CRLF content lines s.
  assert (Os.fs s !! "note.md" = Some (File content)) as H1
    by (vm_compute; reflexivity).
  assert (readlines content = Ok lines) as H2 by (vm_compute; reflexivity).
  split; [exact H1|]. split; [exact H2|].
  exact (X18_line_ends_become_LF "note.md" content lines s H1 H2).
Defined.

(** A file with Windows line ends: two lines go, the others change. *)
Example crlf_file_is_rewritten :
  let CRLF := String CR (String LF "") in
  let content := ("a" ++ CRLF ++ "b" ++ CRLF ++ "c" ++ CRLF ++ "d" ++ CRLF)%string in
  let s := Os.mkState {["note.md" := File content]} [] [] in
  Os.fs (snd (remove_first_line "note.md" s)) !! "note.md"
  = Some (File ("c" ++ String LF ("d" ++ String LF ""))%string).
Proof. by vm_compute. Qed.

(** X29. On a regular file whose bytes do not decode,
    [remove_first_line] raises [UnicodeDecodeError] out of
    [readlines]: the file is not opened for writing, and it keeps its
    content, the first two lines included. *)
Theorem X29_undecodable_file_is_left (file_path content : string) (s : state) :
  Os.fs s !! file_path = Some (File content) ->
  Py.utf8_valid content = false ->
  remove_first_line file_path s = (Raised cannot_decode, s) /\
  Exn.class cannot_decode = Exn.UnicodeDecodeError /\
  Exn.isinstance cannot_decode Exn.ValueError = true.
Proof.
  intros Hc Hv. split; [|done].
  rewrite remove_first_line_cases, Hc. unfold readlines. by rewrite Hv.
Qed.

Lemma X29_undecodable_file_is_left_witness :
  let content := String "233" ("t" ++ String "233" (String LF "latin-1"))%string in
  let s := Os.mkState {["note.md" := File content]} [] [] in
  Os.fs s !! "note.md" = Some (File content) /\
  Py.utf8_valid content = false /\
  remove_first_line "note.md" s = (Raised cannot_decode, s) /\
  Exn.class cannot_decode = Exn.UnicodeDecodeError /\
  Exn.isinstance cannot_decode Exn.ValueError = true.
Proof.
  intros content s.
  assert (Os.fs s !! "note.md" = Some (File content)) as H1
    by (vm_compute; reflexivity).
  assert (Py.utf8_valid content = false) as H2 by (vm_compute; reflexivity).
  split; [exact H1|]. split; [exact H2|].
  exact (X29_undecodable_file_is_left "note.md" content s H1 H2).
Defined.

(** What the decoder takes and what it refuses. *)
Example utf8_valid_examples :
  Py.utf8_valid "plain" = true /\
  (* U+00E9, U+20AC, U+1F600 *)
  Py.utf8_valid (String "195" (String "169" "")) = true /\
  Py.utf8_valid (String "226" (String "130" (String "172" ""))) = true /\
  Py.utf8_valid (String "240" (String "159" (String "152" (String "128" "")))) = true /\
  (* a lone continuation byte, an overlong "/", a surrogate, a cut sequence *)
  Py.utf8_valid (String "128" "") = false /\
  Py.utf8_valid (String "192" (String "175" "")) = false /\
  Py.utf8_valid (String "237" (String "160" (String "128" ""))) = false /\
  Py.utf8_valid (String "226" (String "130" "")) = false /\
  Py.utf8_valid (String "255" "") = false.
Proof. repeat split; by vm_compute. Qed.

Lemma md_paths_cons directory filename rest :
  md_paths directory (filename :: rest) =
  if Py.endswith ".md" filename
  then Py.join directory filename :: md_paths directory rest
  else md_paths directory rest.
Proof. unfold md_paths. simpl. by destruct (Py.endswith ".md" filename). Qed.

Lemma remove_first_line_each_cons directory filename rest s :
  remove_first_line_each directory (filename :: rest) s =
  if Py.endswith ".md" filename then
    match remove_first_line (Py.join directory filename) s with
    | (Ok _, s1) => remove_first_line_each directory rest s1
    | (Raised e, s1) => (Raised e, s1)
    end
  else remove_first_line_each directory rest s.
Proof.
  simpl. unfold Os.bind at 1.
  destruct (Py.endswith ".md" filename); [|done].
  by destruct (remove_first_line (Py.join directory filename) s) as [[[]|e] s1].
Qed.

(** A call of [remove_first_line] changes the file system at its path
    only. *)
Lemma remove_first_line_frame file_path s r s' path :
  remove_first_line file_path s = (r, s') ->
  path <> file_path ->
  Os.fs s' !! path = Os.fs s !! path.
Proof.
  rewrite remove_first_line_cases. intros Hrun Hne.
  destruct (Os.fs s !! file_path) as [[content|]|]; try by simplify_eq.
  destruct (readlines content) as [lines|e]; simplify_eq; [|done].
  simpl. by rewrite lookup_insert_ne.
Qed.

(** The loop rewrites the files it passes to [remove_first_line] and
    nothing else. *)
Lemma remove_first_line_each_frame directory filenames path :
  path ∉ md_paths directory filenames ->
  forall s r s',
    remove_first_line_each directory filenames s = (r, s') ->
    Os.fs s' !! path = Os.fs s !! path.
Proof.
  induction filenames as [|filename rest IH]; intros Hnot s r s' Hrun.
  - simpl in Hrun. unfold Os.ret in Hrun. by simplify_eq.
  - rewrite remove_first_line_each_cons in Hrun.
    rewrite md_paths_cons in Hnot.
    destruct (Py.endswith ".md" filename); [|by eapply IH].
    apply not_elem_of_cons in Hnot as [Hne Hnot].
    destruct (remove_first_line (Py.join directory filename) s)
      as [[[]|e] s1] eqn:Hcall.
    + rewrite (IH Hnot _ _ _ Hrun). by eapply remove_first_line_frame.
    + simplify_eq. by eapply remove_first_line_frame.
Qed.

(** X19. [remove_first_line_in_directory] rewrites only the listed
    names that end with [.md], joined to the directory: any other path
    keeps what it held, however the call ends. *)
Theorem X19_only_md_files_are_touched
    (listdir : string -> M (list string)) (directory : string)
    (filenames : list string) (s s' : state) (r : result unit) (path : string) :
  listdir directory s = (Ok filenames, s) ->
  remove_first_line_in_directory listdir directory s = (r, s') ->
  path ∉ md_paths directory filenames ->
  Os.fs s' !! path = Os.fs s !! path.
Proof.
  intros Hlist Hrun Hnot.
  unfold remove_first_line_in_directory, Os.bind in Hrun. rewrite Hlist in Hrun.
  by eapply remove_first_line_each_frame.
Qed.

Lemma X19_only_md_files_are_touched_witness :
  let text := ("1" ++ String LF ("2" ++ String LF "3"))%string in
  let s := Os.mkState
             (<["journal/a.md" := File text]>
                (<["journal/b.txt" := File text]> {["journal" := Dir]})) [] [] in
  let listdir := listing ["a.md"; "b.txt"] in
  let run := remove_first_line_in_directory listdir "journal" s in
  listdir "journal" s = (Ok ["a.md"; "b.txt"], s) /\
  run = (fst run, snd run) /\
  ("journal/b.txt" ∉ md_paths "journal" ["a.md"; "b.txt"]) /\
  Os.fs (snd run) !! "journal/b.txt" = Os.fs s !! "journal/b.txt".
Proof.
  intros text s listdir run.
  assert (listdir "journal" s = (Ok ["a.md"; "b.txt"], s)) as H1 by reflexivity.
  assert (run = (fst run, snd run)) as H2 by (by destruct run).
  assert ("journal/b.txt" ∉ md_paths "journal" ["a.md"; "b.txt"]) as H3.
  { vm_compute. intros Hin.
    apply elem_of_cons in Hin as [Hin|Hin]; [discriminate Hin|].
    by apply elem_of_nil in Hin. }
  split; [exact H1|]. split; [exact H2|]. split; [exact H3|].
  exact (X19_only_md_files_are_touched listdir "journal" ["a.md"; "b.txt"]
           s (snd run) (fst run) "journal/b.txt" H1 H2 H3).
Defined.

(** Two names without ["/"] are joined to a directory as two paths. *)
Lemma join_inj directory f1 f2 :
  Py.contains "/" f1 = false -> Py.contains "/" f2 = false ->
  Py.join directory f1 = Py.join directory f2 -> f1 = f2.
Proof.
  intros H1 H2.
  assert (forall f, Py.contains "/" f = false -> Py.startswith "/" f = false)
    as Hstart.
  { intros [|c f]; [done|]. simpl. intros H.
    apply orb_false_iff in H as [Hc _]. by rewrite Ascii.eqb_sym, Hc. }
  unfold Py.join. rewrite (Hstart _ H1), (Hstart _ H2).
  destruct (Py.is_empty directory || Py.endswith "/" directory); intros Heq.
  - by apply String.app_inj in Heq.
  - apply String.app_inj in Heq. by apply (String.app_inj "/") in Heq.
Qed.

Lemma join_not_in_md_paths directory filenames f :
  Py.contains "/" f = false ->
  (forall g, g ∈ filenames -> Py.contains "/" g = false) ->
  f ∉ filenames ->
  Py.join directory f ∉ md_paths directory filenames.
Proof.
  intros Hf Hslash Hnotin. unfold md_paths. rewrite list_elem_of_fmap.
  intros (g & Heq & Hg). apply list_elem_of_In, filter_In in Hg as [Hg _].
  apply list_elem_of_In in Hg.
  apply join_inj in Heq; [by subst|done|by apply Hslash].
Qed.

Lemma remove_first_line_each_run directory filenames :
  NoDup filenames ->
  (forall f, f ∈ filenames -> Py.contains "/" f = false) ->
  forall s,
    (forall f, f ∈ filenames -> Py.endswith ".md" f = true ->
               text_file s (Py.join directory f)) ->
    exists s',
      remove_first_line_each directory filenames s = (Ok tt, s') /\
      forall f content lines,
        f ∈ filenames -> Py.endswith ".md" f = true ->
        Os.fs s !! Py.join directory f = Some (File content) ->
        readlines content = Ok lines ->
        Os.fs s' !! Py.join directory f
          = Some (File (join_lines (drop 2 lines))).
Proof.
  induction filenames as [|filename rest IH]; intros Hnd Hslash s Hfiles.
  - exists s. split; [done|]. intros f content lines Hin.
    apply elem_of_nil in Hin. destruct Hin.
  - apply NoDup_cons in Hnd as [Hnotin Hnd].
    assert (forall f, f ∈ rest -> Py.contains "/" f = false) as Hslash'
      by (intros f Hf; apply Hslash; by right).
    rewrite remove_first_line_each_cons.
    destruct (Py.endswith ".md" filename) eqn:Hmd.
    + destruct (Hfiles filename (list_elem_of_here _ _) Hmd)
        as (content & lines & Hf & Hl).
      rewrite (remove_first_line_run _ _ _ _ Hf Hl).
      set (s1 := with_fs s _).
      assert (forall f, f ∈ rest ->
                Os.fs s1 !! Py.join directory f = Os.fs s !! Py.join directory f)
        as Hother.
      { intros f Hin. unfold s1; simpl. rewrite lookup_insert_ne; [done|].
        intros Heq. apply join_inj in Heq;
          [by subst|by apply Hslash; left|by apply Hslash']. }
      destruct (IH Hnd Hslash' s1) as (s' & Hrun & Hdone).
      { intros f Hin Hf'. unfold text_file. rewrite Hother by done.
        apply Hfiles; [by right|done]. }
      exists s'. split; [done|].
      intros f c ls Hin Hf' Hc Hls. apply elem_of_cons in Hin as [->|Hin].
      * rewrite Hf in Hc. injection Hc as <-.
        rewrite Hl in Hls. injection Hls as <-.
        erewrite remove_first_line_each_frame; [| |exact Hrun].
        -- unfold s1; simpl. apply lookup_insert_eq.
        -- apply join_not_in_md_paths; [by apply Hslash; left|done|done].
      * apply (Hdone f c); [done|done| |done]. by rewrite Hother.
    + destruct (IH Hnd Hslash' s) as (s' & Hrun & Hdone).
      { intros f Hin Hf'. apply Hfiles; [by right|done]. }
      exists s'. split; [done|].
      intros f c ls Hin Hf' Hc Hls.
      apply elem_of_cons in Hin as [->|Hin]; [congruence|].
      by apply (Hdone f c).
Qed.

(** X20. When [os.listdir] gives distinct names (they hold no ["/"])
    and every name ending with [.md] is a regular file of the
    directory whose bytes decode, [remove_first_line_in_directory]
    returns normally and each of those files holds its old lines from
    index 2 on. *)
Theorem X20_every_md_file_loses_two_lines
    (listdir : string -> M (list string)) (directory : string)
    (filenames : list string) (s : state) :
  listdir directory s = (Ok filenames, s) ->
  NoDup filenames ->
  (forall f, f ∈ filenames -> Py.contains "/" f = false) ->
  (forall f, f ∈ filenames -> Py.endswith ".md" f = true ->
             exists content lines,
               Os.fs s !! Py.join directory f = Some (File content) /\
               readlines content = Ok lines) ->
  exists s',
    remove_first_line_in_directory listdir directory s = (Ok tt, s') /\
    forall f content lines,
      f ∈ filenames -> Py.endswith ".md" f = true ->
      Os.fs s !! Py.join directory f = Some (File content) ->
      readlines content = Ok lines ->
      Os.fs s' !! Py.join directory f
        = Some (File (join_lines (drop 2 lines))).
Proof.
  intros Hlist Hnd Hslash Hfiles.
  unfold remove_first_line_in_directory, Os.bind. rewrite Hlist.
  by apply remove_first_line_each_run.
Qed.

Lemma X20_every_md_file_loses_two_lines_witness :
  let text := ("1" ++ String LF ("2" ++ String LF "3"))%string in
  let s := Os.mkState
             (<["journal/a.md" := File text]>
                (<["journal/b.txt" := File (String "255" "")]>
                   (<["journal/c.md" := File "only"]> {["journal" := Dir]}))) [] [] in
  let filenames := ["a.md"; "b.txt"; "c.md"] in
  let listdir := listing filenames in
  listdir "journal" s = (Ok filenames, s) /\
  NoDup filenames /\
  (forall f, f ∈ filenames -> Py.contains "/" f = false) /\
  (forall f, f ∈ filenames -> Py.endswith ".md" f = true ->
             exists content lines,
               Os.fs s !! Py.join "journal" f = Some (File content) /\
               readlines content = Ok lines) /\
  exists s',
    remove_first_line_in_directory listdir "journal" s = (Ok tt, s') /\
    forall f content lines,
      f ∈ filenames -> Py.endswith ".md" f = true ->
      Os.fs s !! Py.join "journal" f = Some (File content) ->
      readlines content = Ok lines ->
      Os.fs s' !! Py.join "journal" f
        = Some (File (join_lines (drop 2 lines))).
Proof.
  intros text s filenames listdir.
  assert (listdir "journal" s = (Ok filenames, s)) as H1 by reflexivity.
  assert (NoDup filenames) as H2.
  { unfold filenames. apply NoDup_ListNoDup.
    repeat constructor; simpl; intuition discriminate. }
  assert (forall f, f ∈ filenames -> Py.contains "/" f = false) as H3.
  { intros f Hin. unfold filenames in Hin.
    repeat (apply elem_of_cons in Hin as [->|Hin]; [by vm_compute|]).
    apply elem_of_nil in Hin. destruct Hin. }
  assert (forall f, f ∈ filenames -> Py.endswith ".md" f = true ->
            exists content lines,
              Os.fs s !! Py.join "journal" f = Some (File content) /\
              readlines content = Ok lines) as H4.
  { intros f Hin Hmd. unfold filenames in Hin.
    apply elem_of_cons in Hin as [->|Hin];
      [eexists _, _; split; vm_compute; reflexivity|].
    apply elem_of_cons in Hin as [->|Hin]; [vm_compute in Hmd; discriminate Hmd|].
    apply elem_of_cons in Hin as [->|Hin];
      [eexists _, _; split; vm_compute; reflexivity|].
    apply elem_of_nil in Hin. destruct Hin. }
  split; [exact H1|]. split; [exact H2|]. split; [exact H3|]. split; [exact H4|].
  exact (X20_every_md_file_loses_two_lines listdir "journal" filenames s
           H1 H2 H3 H4).
Defined.

Lemma remove_first_line_each_app directory l1 l2 s :
  remove_first_line_each directory (l1 ++ l2) s =
  match remove_first_line_each directory l1 s with
  | (Ok _, s1) => remove_first_line_each directory l2 s1
  | (Raised e, s1) => (Raised e, s1)
  end.
Proof.
  revert s. induction l1 as [|f l1 IH]; intros s; [done|].
  rewrite <- app_comm_cons, !remove_first_line_each_cons.
  destruct (Py.endswith ".md" f); [|apply IH].
  destruct (remove_first_line (Py.join directory f) s) as [[[]|e] s1]; [apply IH|done].
Qed.

(** X25. The loop over the directory stops at the first name ending
    with [.md] that is no text file (a directory of that name, an
    entry that vanished, a file whose bytes do not decode): the
    exception leaves [remove_first_line_in_directory], the text files
    before that name have lost their two lines, and the files after it
    are as they were. *)
Theorem X25_stops_at_the_first_bad_entry
    (listdir : string -> M (list string)) (directory : string)
    (before : list string) (bad : string) (after : list string) (s : state) :
  listdir directory s = (Ok (before ++ bad :: after), s) ->
  NoDup (before ++ bad :: after) ->
  (forall f, f ∈ before ++ bad :: after -> Py.contains "/" f = false) ->
  (forall f, f ∈ before -> Py.endswith ".md" f = true ->
             exists content lines,
               Os.fs s !! Py.join directory f = Some (File content) /\
               readlines content = Ok lines) ->
  Py.endswith ".md" bad = true ->
  (Os.is_file (Os.fs s !! Py.join directory bad) = false \/
   exists content,
     Os.fs s !! Py.join directory bad = Some (File content) /\
     Py.utf8_valid content = false) ->
  exists e s',
    remove_first_line_in_directory listdir directory s = (Raised e, s') /\
    (forall f content lines,
        f ∈ before -> Py.endswith ".md" f = true ->
        Os.fs s !! Py.join directory f = Some (File content) ->
        readlines content = Ok lines ->
        Os.fs s' !! Py.join directory f
          = Some (File (join_lines (drop 2 lines)))) /\
    Os.fs s' !! Py.join directory bad = Os.fs s !! Py.join directory bad /\
    (forall f, f ∈ after ->
               Os.fs s' !! Py.join directory f = Os.fs s !! Py.join directory f).
Proof.
  intros Hlist Hnd Hslash Hfiles Hmd Hbad.
  apply NoDup_app in Hnd as (Hnd1 & Hdisj & Hnd2).
  apply NoDup_cons in Hnd2 as [Hbad_after _].
  assert (forall f, f ∈ before -> Py.contains "/" f = false) as Hslash1.
  { intros f Hf. apply Hslash, elem_of_app. by left. }
  destruct (remove_first_line_each_run directory before Hnd1 Hslash1 s Hfiles)
    as (s1 & Hrun1 & Hdone).
  assert (forall f, f ∉ before -> Py.contains "/" f = false ->
            Os.fs s1 !! Py.join directory f = Os.fs s !! Py.join directory f)
    as Hframe.
  { intros f Hf Hs.
    eapply remove_first_line_each_frame; [|exact Hrun1].
    by apply join_not_in_md_paths. }
  assert (bad ∉ before) as Hbad_before.
  { intros Hin. apply (Hdisj _ Hin). by left. }
  assert (Py.contains "/" bad = false) as Hsbad.
  { apply Hslash, elem_of_app. right. by left. }
  assert (exists e, remove_first_line (Py.join directory bad) s1 = (Raised e, s1))
    as [e He].
  { rewrite remove_first_line_cases, (Hframe bad Hbad_before Hsbad).
    destruct Hbad as [Hnofile|(content & -> & Hv)].
    - destruct (Os.fs s !! Py.join directory bad) as [[c|]|]; [done| |]; eauto.
    - unfold readlines. rewrite Hv. eauto. }
  exists e, s1. split; [|split; [|split]].
  - unfold remove_first_line_in_directory, Os.bind. rewrite Hlist.
    rewrite remove_first_line_each_app, Hrun1.
    by rewrite remove_first_line_each_cons, Hmd, He.
  - done.
  - by apply Hframe.
  - intros f Hf. apply Hframe.
    + intros Hin. apply (Hdisj _ Hin). by right.
    + apply Hslash, elem_of_app. right. by right.
Qed.

Lemma X25_stops_at_the_first_bad_entry_witness :
  let text := ("1" ++ String LF ("2" ++ String LF "3"))%string in
  let s := Os.mkState
             (<["journal/a.md" := File text]>
                (<["journal/b.md" := File (String "255" text)]>
                   (<["journal/c.md" := File text]> {["journal" := Dir]}))) [] [] in
  let listdir := listing (["a.md"] ++ "b.md" :: ["c.md"]) in
  listdir "journal" s = (Ok (["a.md"] ++ "b.md" :: ["c.md"]), s) /\
  NoDup (["a.md"] ++ "b.md" :: ["c.md"]) /\
  (forall f, f ∈ ["a.md"] ++ "b.md" :: ["c.md"] -> Py.contains "/" f = false) /\
  (forall f, f ∈ ["a.md"] -> Py.endswith ".md" f = true ->
             exists content lines,
               Os.fs s !! Py.join "journal" f = Some (File content) /\
               readlines content = Ok lines) /\
  Py.endswith ".md" "b.md" = true /\
  (Os.is_file (Os.fs s !! Py.join "journal" "b.md") = false \/
   exists content,
     Os.fs s !! Py.join "journal" "b.md" = Some (File content) /\
     Py.utf8_valid content = false) /\
  exists e s',
    remove_first_line_in_directory listdir "journal" s = (Raised e, s') /\
    (forall f content lines,
        f ∈ ["a.md"] -> Py.endswith ".md" f = true ->
        Os.fs s !! Py.join "journal" f = Some (File content) ->
        readlines content = Ok lines ->
        Os.fs s' !! Py.join "journal" f
          = Some (File (join_lines (drop 2 lines)))) /\
    Os.fs s' !! Py.join "journal" "b.md" = Os.fs s !! Py.join "journal" "b.md" /\
    (forall f, f ∈ ["c.md"] ->
               Os.fs s' !! Py.join "journal" f = Os.fs s !! Py.join "journal" f).
Proof.
  intros text s listdir.
  assert (listdir "journal" s = (Ok (["a.md"] ++ "b.md" :: ["c.md"]), s))
    as H1 by reflexivity.
  assert (NoDup (["a.md"] ++ "b.md" :: ["c.md"])) as H2.
  { apply NoDup_ListNoDup. repeat constructor; simpl; intuition discriminate. }
  assert (forall f, f ∈ ["a.md"] ++ "b.md" :: ["c.md"] ->
            Py.contains "/" f = false) as H3.
  { intros f Hin. simpl in Hin.
    repeat (apply elem_of_cons in Hin as [->|Hin]; [by vm_compute|]).
    apply elem_of_nil in Hin. destruct Hin. }
  assert (forall f, f ∈ ["a.md"] -> Py.endswith ".md" f = true ->
            exists content lines,
              Os.fs s !! Py.join "journal" f = Some (File content) /\
              readlines content = Ok lines) as H4.
  { intros f Hin _.
    apply elem_of_cons in Hin as [->|Hin];
      [eexists _, _; split; vm_compute; reflexivity|].
    apply elem_of_nil in Hin. destruct Hin. }
  assert (Py.endswith ".md" "b.md" = true) as H5 by (by vm_compute).
  assert (Os.is_file (Os.fs s !! Py.join "journal" "b.md") = false \/
          exists content,
            Os.fs s !! Py.join "journal" "b.md" = Some (File content) /\
            Py.utf8_valid content = false) as H6.
  { right. eexists. split; vm_compute; reflexivity. }
  split; [exact H1|]. split; [exact H2|]. split; [exact H3|]. split; [exact H4|].
  split; [exact H5|]. split; [exact H6|].
  exact (X25_stops_at_the_first_bad_entry listdir "journal" ["a.md"] "b.md"
           ["c.md"] s H1 H2 H3 H4 H5 H6).
Defined.

End RemoveFirstLineExtras.

(** * rename_file.py: further properties *)
Module RenameFileExtras.
Import RenameFile Spec Props FetcherFacts RenameFileTheorems.
Local Open Scope list_scope.

Lemma drop_app_length (pre p : string) :
  Py.drop (String.length pre) (pre ++ p) = p.
Proof. induction pre as [|c pre IH]; [by destruct p|]. by rewrite append_String. Qed.

Lemma take_drop (n : nat) (s : string) :
  (Py.take n s ++ Py.drop n s)%string = s.
Proof.
  revert s. induction n as [|n IH]; intros [|c s]; try done.
  simpl. by rewrite append_String, IH.
Qed.

(** [s.endswith(p)] holds exactly when [s] is some text followed by
    [p]. *)
Lemma endswith_iff (p s : string) :
  Py.endswith p s = true <-> exists pre, s = (pre ++ p)%string.
Proof.
  unfold Py.endswith. rewrite andb_true_iff, Nat.leb_le, String.eqb_eq. split.
  - intros [_ Hdrop]. exists (Py.take (String.length s - String.length p) s).
    transitivity (Py.take (String.length s - String.length p) s ++
                  Py.drop (String.length s - String.length p) s)%string;
      [symmetry; apply take_drop|by rewrite Hdrop].
  - intros [pre ->]. rewrite length_append. split; [lia|].
    replace (String.length pre + String.length p - String.length p)%nat
      with (String.length pre) by lia.
    apply drop_app_length.
Qed.

Lemma fnmatch_dot_mp4 name : fnmatch ".mp4" name = true <-> name = ".mp4".
Proof.
  split; [|by intros ->].
  rewrite fnmatch_literal by done.
  destruct name as [|c1 name]; [done|]. rewrite andb_true_iff, Ascii.eqb_eq.
  intros [<- H]. revert H. rewrite fnmatch_literal by done.
  destruct name as [|c2 name]; [done|]. rewrite andb_true_iff, Ascii.eqb_eq.
  intros [<- H]. revert H. rewrite fnmatch_literal by done.
  destruct name as [|c3 name]; [done|]. rewrite andb_true_iff, Ascii.eqb_eq.
  intros [<- H]. revert H. rewrite fnmatch_literal by done.
  destruct name as [|c4 name]; [done|]. rewrite andb_true_iff, Ascii.eqb_eq.
  intros [<- H]. by destruct name.
Qed.

Lemma fnmatch_star_mp4 name :
  fnmatch "*.mp4" name = true <-> exists pre, name = (pre ++ ".mp4")%string.
Proof.
  split.
  - induction name as [|c name IH]; rewrite fnmatch_star, orb_true_iff.
    + intros [H|H]; [|done]. apply fnmatch_dot_mp4 in H. by exists EmptyString.
    + intros [H|H].
      * apply fnmatch_dot_mp4 in H. by exists EmptyString.
      * destruct (IH H) as [pre ->]. by exists (String c pre).
  - intros [pre ->]. induction pre as [|c pre IH].
    + by vm_compute.
    + rewrite append_String, fnmatch_star, IH. apply orb_true_r.
Qed.

(** X21. The files the script renames are exactly the names of the
    working directory that end with [.mp4] and do not start with a
    dot: [glob] leaves hidden names out, so [.x.mp4] keeps its name. *)
Theorem X21_what_the_glob_matches (names : list string) (name : string) :
  name ∈ glob "*.mp4" names <->
  name ∈ names /\
  Py.startswith "." name = false /\
  Py.endswith ".mp4" name = true.
Proof.
  rewrite elem_of_glob. unfold ishidden.
  change (Py.startswith "." "*.mp4") with false. rewrite orb_false_l.
  rewrite andb_true_iff, negb_true_iff.
  assert (fnmatch "*.mp4" name = true <-> Py.endswith ".mp4" name = true) as ->
    by by rewrite fnmatch_star_mp4, endswith_iff.
  done.
Qed.

(** A rename that returns moved the entry, or left the directory as
    it was. *)
Lemma rename_ok src dst d d' :
  rename src dst d = Ok d' ->
  d' = d \/ exists e, d !! src = Some e /\ src <> dst /\
                      d' = <[dst := e]> (delete src d).
Proof.
  unfold rename. destruct (d !! src) as [e|] eqn:He; [|done].
  destruct (Py.is_empty dst); [done|].
  case_bool_decide as Heq; [by intros [= <-]; left|].
  intros H. right. exists e. split; [done|]. split; [done|].
  destruct e, (d !! dst) as [[|[]]|]; by simplify_eq.
Qed.

Lemma rename_loop_cons file rest d :
  rename_loop (file :: rest) d =
  match rename file (Py.replace "." EmptyString file) d with
  | Ok d' => rename_loop rest d'
  | Raised e => (Some e, d)
  end.
Proof. reflexivity. Qed.

(** The loop changes the directory only at the names it is given and
    at their undotted names. *)
Lemma rename_loop_frame files name :
  name ∉ files ->
  name ∉ map (Py.replace "." EmptyString) files ->
  forall d, (rename_loop files d).2 !! name = d !! name.
Proof.
  induction files as [|file rest IH]; intros Hsrc Hdst d; [done|].
  apply not_elem_of_cons in Hsrc as [Hne1 Hsrc].
  rewrite map_cons in Hdst. apply not_elem_of_cons in Hdst as [Hne2 Hdst].
  rewrite rename_loop_cons.
  destruct (rename file (Py.replace "." "" file) d) as [d1|e] eqn:Hren; [|done].
  rewrite IH by done.
  apply rename_ok in Hren as [->|(e & _ & _ & ->)]; [done|].
  by rewrite lookup_insert_ne, lookup_delete_ne.
Qed.

(** X22. A name that the glob does not match and that is not the
    undotted form of a matched name keeps its entry, whether the script
    completes or stops at a rename that raises. *)
Theorem X22_other_names_are_kept
    (scandir : gmap string entry -> list string) (d : gmap string entry)
    (name : string) :
  name ∉ glob "*.mp4" (scandir d) ->
  (forall file, file ∈ glob "*.mp4" (scandir d) ->
                name <> Py.replace "." EmptyString file) ->
  (script scandir d).1.2 !! name = d !! name.
Proof.
  intros Hsrc Hdst.
  assert ((script scandir d).1.2 = (rename_loop (glob "*.mp4" (scandir d)) d).2)
    as ->.
  { unfold script. by destruct (rename_loop _ d) as [[e|] d']. }
  apply rename_loop_frame; [done|].
  rewrite list_elem_of_fmap. intros (file & -> & Hin). by eapply Hdst.
Qed.

Lemma X22_other_names_are_kept_witness :
  let d : gmap string entry :=
    <["a.b.mp4" := RegularFile]>
      (<[".hidden.mp4" := RegularFile]> (<["notes.txt" := RegularFile]> ∅)) in
  (".hidden.mp4" ∉ glob "*.mp4" (scandir_keys d)) /\
  (forall file, file ∈ glob "*.mp4" (scandir_keys d) ->
                ".hidden.mp4" <> Py.replace "." EmptyString file) /\
  (script scandir_keys d).1.2 !! ".hidden.mp4" = d !! ".hidden.mp4".
Proof.
  intros d.
  assert (glob "*.mp4" (scandir_keys d) = ["a.b.mp4"]) as Hglob by by vm_compute.
  assert (".hidden.mp4" ∉ glob "*.mp4" (scandir_keys d)) as H1.
  { rewrite Hglob. intros Hin.
    apply elem_of_cons in Hin as [Hin|Hin]; [discriminate Hin|].
    by apply elem_of_nil in Hin. }
  assert (forall file, file ∈ glob "*.mp4" (scandir_keys d) ->
            ".hidden.mp4" <> Py.replace "." EmptyString file) as H2.
  { intros file. rewrite Hglob. intros Hin.
    apply elem_of_cons in Hin as [->|Hin]; [vm_compute; discriminate|].
    apply elem_of_nil in Hin. destruct Hin. }
  split; [exact H1|]. split; [exact H2|].
  exact (X22_other_names_are_kept scandir_keys d ".hidden.mp4" H1 H2).
Defined.

Lemma rename_moved_size (d : gmap string entry) src dst e :
  d !! src = Some e -> src <> dst ->
  size (<[dst := e]> (delete src d)) =
  match d !! dst with
  | Some _ => (size d - 1)%nat
  | None => size d
  end.
Proof.
  intros He Hne.
  assert (size d <> 0%nat) as Hsize.
  { intros H0. apply map_size_empty_iff in H0. subst d.
    by rewrite lookup_empty in He. }
  rewrite map_size_insert, lookup_delete_ne by done.
  rewrite map_size_delete_Some by eauto.
  destruct (d !! dst); simpl; lia.
Qed.

Lemma rename_size src dst d d' :
  rename src dst d = Ok d' -> (size d' <= size d)%nat.
Proof.
  intros H. apply rename_ok in H as [->|(e & He & Hne & ->)]; [done|].
  rewrite rename_moved_size by done. destruct (d !! dst); lia.
Qed.

Lemma rename_loop_size files :
  forall d, (size (rename_loop files d).2 <= size d)%nat.
Proof.
  induction files as [|file rest IH]; intros d; [done|].
  rewrite rename_loop_cons.
  destruct (rename file (Py.replace "." "" file) d) as [d1|e] eqn:Hren; [|done].
  etrans; [apply IH|]. by eapply rename_size.
Qed.

(** X23. The script never adds an entry to the directory: it has at
    most as many entries at the end as at the start. *)
Theorem X23_no_entry_is_added
    (scandir : gmap string entry -> list string) (d : gmap string entry) :
  (size (script scandir d).1.2 <= size d)%nat.
Proof.
  assert ((script scandir d).1.2 = (rename_loop (glob "*.mp4" (scandir d)) d).2)
    as ->.
  { unfold script. by destruct (rename_loop _ d) as [[e|] d']. }
  apply rename_loop_size.
Qed.

(** Once the undotted name of a file still to be renamed is taken, the
    loop ends with fewer entries. *)
Lemma rename_loop_taken files :
  forall d d' file,
    (forall f, f ∈ files -> Py.contains "." f = true) ->
    rename_loop files d = (None, d') ->
    file ∈ files ->
    is_Some (d !! Py.replace "." EmptyString file) ->
    (size d' < size d)%nat.
Proof.
  induction files as [|g rest IH]; intros d d' file Hdots Hloop Hin Htaken.
  { by apply elem_of_nil in Hin. }
  rewrite rename_loop_cons in Hloop.
  assert (Py.contains "." g = true) as Hg by (apply Hdots; by left).
  destruct (rename g (Py.replace "." "" g) d) as [d1|e] eqn:Hren; [|done].
  apply rename_dotted in Hren as (e & He & ->); [|done].
  assert (g <> Py.replace "." "" g) as Hne.
  { intros Heq. rewrite Heq, replace_removes in Hg. done. }
  assert (size d <> 0%nat) as Hsize.
  { intros H0. apply map_size_empty_iff in H0. subst d.
    by rewrite lookup_empty in He. }
  pose proof (rename_loop_size rest (<[Py.replace "." "" g := e]> (delete g d)))
    as Hle.
  rewrite Hloop in Hle. simpl in Hle.
  pose proof (rename_moved_size d g _ e He Hne) as Hstep.
  apply elem_of_cons in Hin as [->|Hin].
  - destruct Htaken as [x Hx]. rewrite Hx in Hstep. lia.
  - assert (size d' < size (<[Py.replace "." "" g := e]> (delete g d)))%nat.
    { eapply (IH _ _ file); [|exact Hloop|done|].
      - intros f Hf. apply Hdots. by right.
      - destruct (decide (Py.replace "." "" file = Py.replace "." "" g)) as [->|Hd].
        + rewrite lookup_insert_eq. eauto.
        + rewrite lookup_insert_ne by done.
          rewrite lookup_delete_ne; [done|].
          intros ->. pose proof (replace_removes "." file) as Hr.
          congruence. }
    destruct (d !! Py.replace "." "" g); lia.
Qed.

Lemma rename_loop_collision files :
  forall d d' file1 file2,
    (forall f, f ∈ files -> Py.contains "." f = true) ->
    rename_loop files d = (None, d') ->
    file1 ∈ files -> file2 ∈ files -> file1 <> file2 ->
    Py.replace "." EmptyString file1 = Py.replace "." EmptyString file2 ->
    (size d' < size d)%nat.
Proof.
  induction files as [|g rest IH];
    intros d d' file1 file2 Hdots Hloop Hin1 Hin2 Hne Hsame.
  { by apply elem_of_nil in Hin1. }
  pose proof Hloop as Hloop'.
  rewrite rename_loop_cons in Hloop.
  assert (Py.contains "." g = true) as Hg by (apply Hdots; by left).
  destruct (rename g (Py.replace "." "" g) d) as [d1|e] eqn:Hren; [|done].
  pose proof (rename_size _ _ _ _ Hren) as Hle.
  apply rename_dotted in Hren as (e & He & ->); [|done].
  assert (forall f, f ∈ rest -> Py.contains "." f = true) as Hdots'
    by (intros f Hf; apply Hdots; by right).
  assert (size d' < size (<[Py.replace "." "" g := e]> (delete g d)))%nat;
    [|lia].
  apply elem_of_cons in Hin1 as [->|Hin1];
    apply elem_of_cons in Hin2 as [->|Hin2]; try done.
  - eapply (rename_loop_taken rest _ _ file2); [done|exact Hloop|done|].
    rewrite <- Hsame, lookup_insert_eq. eauto.
  - eapply (rename_loop_taken rest _ _ file1); [done|exact Hloop|done|].
    rewrite Hsame, lookup_insert_eq. eauto.
  - by eapply (IH _ _ file1 file2).
Qed.

(** X24. Two matched files whose names differ only by dots end under
    one name: when the script completes, the directory has lost an
    entry, the second rename having replaced the file the first one
    made. *)
Theorem X24_colliding_names_lose_a_file
    (scandir : gmap string entry -> list string) (d : gmap string entry)
    (file1 file2 : string) :
  file1 ∈ glob "*.mp4" (scandir d) ->
  file2 ∈ glob "*.mp4" (scandir d) ->
  file1 <> file2 ->
  Py.replace "." EmptyString file1 = Py.replace "." EmptyString file2 ->
  (script scandir d).1.1 = None ->
  (size (script scandir d).1.2 < size d)%nat.
Proof.
  intros Hin1 Hin2 Hne Hsame Hdone.
  unfold script in *.
  destruct (rename_loop (glob "*.mp4" (scandir d)) d) as [[e|] d'] eqn:Hloop;
    [done|]. simpl.
  eapply (rename_loop_collision _ d d' file1 file2); try done.
  intros f. apply glob_has_dot.
Qed.

Lemma X24_colliding_names_lose_a_file_witness :
  let d : gmap string entry :=
    <["a.b.mp4" := RegularFile]>
      (<["ab.mp4" := RegularFile]> (<["notes.txt" := RegularFile]> ∅)) in
  "a.b.mp4" ∈ glob "*.mp4" (scandir_keys d) /\
  "ab.mp4" ∈ glob "*.mp4" (scandir_keys d) /\
  "a.b.mp4" <> "ab.mp4" /\
  Py.replace "." EmptyString "a.b.mp4" = Py.replace "." EmptyString "ab.mp4" /\
  (script scandir_keys d).1.1 = None /\
  (size (script scandir_keys d).1.2 < size d)%nat.
Proof.
  intros d.
  assert ("a.b.mp4" ∈ glob "*.mp4" (scandir_keys d)) as H1
    by (vm_compute; repeat constructor).
  assert ("ab.mp4" ∈ glob "*.mp4" (scandir_keys d)) as H2
    by (vm_compute; repeat constructor).
  assert ("a.b.mp4" <> "ab.mp4") as H3 by discriminate.
  assert (Py.replace "." EmptyString "a.b.mp4" = Py.replace "." EmptyString "ab.mp4")
    as H4 by by vm_compute.
  assert ((script scandir_keys d).1.1 = None) as H5 by by vm_compute.
  split; [exact H1|]. split; [exact H2|]. split; [exact H3|]. split; [exact H4|].
  split; [exact H5|].
  exact (X24_colliding_names_lose_a_file scandir_keys d "a.b.mp4" "ab.mp4"
           H1 H2 H3 H4 H5).
Defined.

Lemma rename_onto_directory file d empty :
  Py.contains "." file = true ->
  d !! file = Some RegularFile ->
  d !! Py.replace "." EmptyString file = Some (Directory empty) ->
  exists e, rename file (Py.replace "." EmptyString file) d = Raised e.
Proof.
  intros Hdot Hfile Hdir. unfold rename. rewrite Hfile.
  destruct (Py.is_empty (Py.replace "." "" file)); [by eauto|].
  case_bool_decide as Heq.
  { rewrite Heq, replace_removes in Hdot. done. }
  rewrite Hdir. by eauto.
Qed.

(** What is moved onto a directory is a directory. *)
Lemma rename_directory_stays src dst d d' e empty :
  src <> dst ->
  d !! src = Some e ->
  d !! dst = Some (Directory empty) ->
  rename src dst d = Ok d' ->
  exists b, e = Directory b.
Proof.
  intros Hne Hsrc Hdst. unfold rename. rewrite Hsrc.
  destruct (Py.is_empty dst); [done|].
  case_bool_decide; [done|]. rewrite Hdst.
  destruct e as [|b]; [done|]. by eauto.
Qed.

(** A regular file whose undotted name is a directory cannot be
    renamed, now or after other renames of the loop. *)
Lemma rename_loop_onto_directory files :
  forall d d' file empty,
    (forall f, f ∈ files -> Py.contains "." f = true) ->
    file ∈ files ->
    d !! file = Some RegularFile ->
    d !! Py.replace "." EmptyString file = Some (Directory empty) ->
    rename_loop files d <> (None, d').
Proof.
  induction files as [|g rest IH];
    intros d d' file empty Hdots Hin Hfile Hdir Hloop.
  { apply elem_of_nil in Hin. destruct Hin. }
  rewrite rename_loop_cons in Hloop.
  assert (Py.contains "." g = true) as Hg by (apply Hdots; by left).
  assert (Py.contains "." file = true) as Hf by by apply Hdots.
  assert (forall f, f ∈ rest -> Py.contains "." f = true) as Hdots'.
  { intros f Hf'. apply Hdots. by right. }
  destruct (decide (file = g)) as [<-|Hne3].
  { destruct (rename_onto_directory file d empty Hf Hfile Hdir) as [e He].
    rewrite He in Hloop. discriminate Hloop. }
  apply elem_of_cons in Hin as [Heq|Hin]; [done|].
  destruct (rename g (Py.replace "." "" g) d) as [d1|e] eqn:Hren;
    [|discriminate Hloop].
  pose proof Hren as Hren'.
  apply rename_dotted in Hren as (e & He & ->); [|done].
  assert (file <> Py.replace "." "" g) as Hne1.
  { intros Heq. rewrite Heq, replace_removes in Hf. done. }
  assert (g <> Py.replace "." "" g) as Hne2.
  { intros Heq. rewrite Heq, replace_removes in Hg. done. }
  destruct (decide (Py.replace "." "" file = Py.replace "." "" g)) as [Heq|Hne4].
  - (* [g] was moved onto the directory: it is a directory itself *)
    rewrite Heq in Hdir.
    destruct (rename_directory_stays _ _ _ _ _ _ Hne2 He Hdir Hren') as [b ->].
    eapply (IH _ d' file b Hdots' Hin); [| |exact Hloop].
    + by rewrite lookup_insert_ne, lookup_delete_ne.
    + rewrite Heq. apply lookup_insert_eq.
  - eapply (IH _ d' file empty Hdots' Hin); [| |exact Hloop].
    + by rewrite lookup_insert_ne, lookup_delete_ne.
    + rewrite lookup_insert_ne by done. rewrite lookup_delete_ne; [done|].
      intros Heq. rewrite Heq, replace_removes in Hg. done.
Qed.

(** X26. When the undotted name of a matched regular file is an
    existing directory, the script does not complete: a rename raises,
    the loop over the matched files is left, and nothing is printed. *)
Theorem X26_directory_in_the_way
    (scandir : gmap string entry -> list string) (d : gmap string entry)
    (file : string) (empty : bool) :
  file ∈ glob "*.mp4" (scandir d) ->
  d !! file = Some RegularFile ->
  d !! Py.replace "." EmptyString file = Some (Directory empty) ->
  exists e d', script scandir d = (Some e, d', []).
Proof.
  intros Hin Hfile Hdir. unfold script.
  destruct (rename_loop (glob "*.mp4" (scandir d)) d) as [[e|] d'] eqn:Hloop;
    [by eauto|].
  exfalso. eapply (rename_loop_onto_directory _ d d' file empty); try done.
  intros f. apply glob_has_dot.
Qed.

Lemma X26_directory_in_the_way_witness :
  let d : gmap string entry :=
    <["clip.mp4" := RegularFile]> (<["clipmp4" := Directory true]> ∅) in
  "clip.mp4" ∈ glob "*.mp4" (scandir_keys d) /\
  d !! "clip.mp4" = Some RegularFile /\
  d !! Py.replace "." EmptyString "clip.mp4" = Some (Directory true) /\
  exists e d', script scandir_keys d = (Some e, d', []).
Proof.
  intros d.
  assert ("clip.mp4" ∈ glob "*.mp4" (scandir_keys d)) as H1
    by (vm_compute; repeat constructor).
  assert (d !! "clip.mp4" = Some RegularFile) as H2 by (by vm_compute).
  assert (d !! Py.replace "." EmptyString "clip.mp4" = Some (Directory true))
    as H3 by (by vm_compute).
  split; [exact H1|]. split; [exact H2|]. split; [exact H3|].
  exact (X26_directory_in_the_way scandir_keys d "clip.mp4" true H1 H2 H3).
Defined.

End RenameFileExtras.
